(** * The debate platform backend: lifecycle engine, registry and argument
      generation, embedded from the Python sources.

    Conventions of the embedding.
    - Python [int] is [Z]; Python [float] is an IEEE 754 binary64 number
      ([spec_float] at precision 53), with Python's rounding of every
      operation and of [round]; [str] is [string], read as a sequence of
      code points below 256.
    - [datetime.utcnow()] is a clock value handed to each operation.
    - A MongoDB collection of debates is a finite map from [ObjectId]s to
      documents; the personalities collection is the list of its documents in
      natural (insertion) order.
    - Fresh ObjectIds, the random module and the text generator are inputs of
      the operations that use them. *)

From Stdlib Require Import ZArith List Ascii String Lia SpecFloat.
From stdpp Require Import base decidable option list gmap strings pretty fin_maps.

Local Open Scope Z_scope.

(** ** bson.ObjectId *)

Module ObjectId.

(** An ObjectId is 12 bytes, read here as a number. The constructor turns
    a string of 24 hexadecimal digits (either case) into that id. *)
Definition t := N.

Definition hex_digit (c : ascii) : option N :=
  let n := N_of_ascii c in
  if ((48 <=? n) && (n <=? 57))%N then Some (n - 48)%N
  else if ((97 <=? n) && (n <=? 102))%N then Some (n - 87)%N
  else if ((65 <=? n) && (n <=? 70))%N then Some (n - 55)%N
  else None.

Fixpoint hex_value (acc : N) (s : string) : option N :=
  match s with
  | EmptyString => Some acc
  | String c r =>
      match hex_digit c with
      | Some d => hex_value (16 * acc + d)%N r
      | None => None
      end
  end.

(** [ObjectId(oid)] for a string argument. [None] stands for every
    outcome that can match no stored document: the raised [InvalidId], and
    the shorter id that [bytes.fromhex] builds when the 24 characters
    contain whitespace between pairs of digits. Each method that uses the
    id returns the same result in both cases (nothing found, nothing
    modified). *)
Definition of_str (s : string) : option t :=
  if (String.length s =? 24)%nat then hex_value 0%N s else None.

End ObjectId.

(** ** Documents and dotted update paths *)

Module FieldPath.

(** The field names of a dotted path: the pieces between its dots. *)
Fixpoint segments (name : string) : list string :=
  match name with
  | EmptyString => [EmptyString]
  | String c rest =>
      if Ascii.eqb c "." then EmptyString :: segments rest
      else match segments rest with
           | segment :: others => String c segment :: others
           | [] => [String c EmptyString]
           end
  end.

Fixpoint has_nul (s : string) : bool :=
  match s with
  | EmptyString => false
  | String c rest => Ascii.eqb c Ascii.zero || has_nul rest
  end.

(** A field name that an update path may contain: not empty (the server
    refuses the path), no NUL character (the driver refuses the key), and
    no leading dollar sign, which the server reads as an operator and
    refuses here (servers before 5.0 refuse every such name). *)
Definition valid_segment (s : string) : bool :=
  match s with
  | EmptyString => false
  | String c _ => negb (Ascii.eqb c "$") && negb (has_nul s)
  end.

(** An embedded document whose innermost values have type [A], as the map
    from the path of each such value to the value: [{'a': {'b': 1}, 'c': 2}]
    is the map with [1] at [['a'; 'b']] and [2] at [['c']]. (The order of
    the fields is not kept.) *)
Abbreviation doc := (gmap (list string)).

(** The paths at which the document holds a value. *)
Definition paths {A} (d : doc A) : list (list string) := (map_to_list d).*1.

(** [p] is a proper prefix of [q]. *)
Definition proper_prefix (p q : list string) : bool :=
  bool_decide (p <> q /\ p `prefix_of` q).

(** A value is stored at a proper prefix of the path: the update would
    have to create a field inside something that is no document. *)
Definition blocked {A} (path : list string) (d : doc A) : bool :=
  existsb (fun key => proper_prefix key path) (paths d).

(** The path leads to an embedded document. *)
Definition is_document {A} (path : list string) (d : doc A) : bool :=
  existsb (fun key => proper_prefix path key) (paths d).

(** [name in d] for the dict read from the document. *)
Definition has_key {A} (name : string) (d : doc A) : bool :=
  existsb (fun key => bool_decide (head key = Some name)) (paths d).

(** [{'$inc': {'<field>.<name>': 1}}] on the embedded document [<field>];
    [None] is the error the server answers with: an invalid field name, a
    field to create inside a number, or a document to increment. A missing
    field starts from 0, and missing documents on the way are created. *)
Definition inc (name : string) (d : doc Z) : option (doc Z) :=
  let path := segments name in
  if forallb valid_segment path && negb (blocked path d)
     && negb (is_document path d)
  then Some (<[path := default 0 (d !! path) + 1]> d)
  else None.

(** [{'$set': {'<field>.<name>': v}}]: as [inc], except that a document at
    the path is replaced by the value. *)
Definition set {A} (name : string) (v : A) (d : doc A) : option (doc A) :=
  let path := segments name in
  if forallb valid_segment path && negb (blocked path d)
  then Some (<[path := v]>
               (filter (fun entry => ~ path `prefix_of` entry.1) d))
  else None.

(** A name that is one valid field name. *)
Definition plain (name : string) : bool :=
  bool_decide (segments name = [name]) && valid_segment name.

(** Every value of the document is directly under a top-level field. *)
Definition flat {A} (d : doc A) : Prop :=
  forall path v, d !! path = Some v -> exists name, path = [name].

End FieldPath.

(** ** models/debate.py *)

Inductive Status := created | in_progress | completed | judged.

#[global] Instance Status_eq_dec : EqDecision Status.
Proof. solve_decision. Defined.

Module DebateArgument.

(** The object and the dict of [_dict()] carry the same fields, so one
    record stands for both. *)
Record t := mk {
  _id : ObjectId.t;
  personality_id : string;
  content : string;
  round_number : Z;
  timestamp : Z;
  votes : Z;
  response_to : option ObjectId.t;
  tags : list string
}.

(** [DebateArgument(personality_id, content, round_number)]: the id is the
    fresh [ObjectId()], the timestamp the clock. *)
Definition init (fresh : ObjectId.t) (now : Z)
    (personality_id content : string) (round_number : Z) : t :=
  {| _id := fresh; personality_id := personality_id; content := content;
     round_number := round_number; timestamp := now; votes := 0;
     response_to := None; tags := [] |}.

Definition _dict (a : t) : t := a.

#[global] Instance eq_dec : EqDecision t.
Proof. solve_decision. Defined.

End DebateArgument.

Module DebateDoc.

(** A document of the [debates] collection: the keys written by
    [Debate._dict()], and [voter_records], which only [add_vote]'s [$set]
    writes (a missing key is the empty document). [votes] and
    [voter_records] are embedded documents. *)
Record t := mk {
  _id : ObjectId.t;
  topic : string;
  creator_id : option string;
  status : Status;
  created_at : Z;
  updated_at : Z;
  participants : list string;
  arguments : list DebateArgument.t;
  current_round : Z;
  max_rounds : Z;
  winner : option string;
  judge_decision : option string;
  judge_id : option string;
  votes : FieldPath.doc Z;
  total_votes : Z;
  voter_records : FieldPath.doc string
}.

#[global] Instance eq_dec : EqDecision t.
Proof. solve_decision. Defined.

(** The update documents of [DebateService], as functions on the stored
    document. *)

(** [{'$set': {'status': s, 'updated_at': now}}] *)
Definition set_status (s : Status) (now : Z) (doc : t) : t :=
  {| _id := _id doc; topic := topic doc; creator_id := creator_id doc;
     status := s; created_at := created_at doc; updated_at := now;
     participants := participants doc; arguments := arguments doc;
     current_round := current_round doc; max_rounds := max_rounds doc;
     winner := winner doc; judge_decision := judge_decision doc;
     judge_id := judge_id doc; votes := votes doc;
     total_votes := total_votes doc; voter_records := voter_records doc |}.

(** [{'$push': {'arguments': a}, '$set': {'updated_at': now}}] *)
Definition push_argument (a : DebateArgument.t) (now : Z) (doc : t) : t :=
  {| _id := _id doc; topic := topic doc; creator_id := creator_id doc;
     status := status doc; created_at := created_at doc;
     updated_at := now; participants := participants doc;
     arguments := arguments doc ++ [a];
     current_round := current_round doc; max_rounds := max_rounds doc;
     winner := winner doc; judge_decision := judge_decision doc;
     judge_id := judge_id doc; votes := votes doc;
     total_votes := total_votes doc; voter_records := voter_records doc |}.

(** [{'$push': {'arguments': {'$each': l}}, '$set': {'updated_at': now}}] *)
Definition push_arguments (l : list DebateArgument.t) (now : Z) (doc : t) : t :=
  {| _id := _id doc; topic := topic doc; creator_id := creator_id doc;
     status := status doc; created_at := created_at doc;
     updated_at := now; participants := participants doc;
     arguments := arguments doc ++ l; current_round := current_round doc;
     max_rounds := max_rounds doc; winner := winner doc;
     judge_decision := judge_decision doc; judge_id := judge_id doc;
     votes := votes doc; total_votes := total_votes doc;
     voter_records := voter_records doc |}.

(** [{'$set': {'current_round': r, 'updated_at': now}}] *)
Definition set_current_round (r : Z) (now : Z) (doc : t) : t :=
  {| _id := _id doc; topic := topic doc; creator_id := creator_id doc;
     status := status doc; created_at := created_at doc;
     updated_at := now; participants := participants doc;
     arguments := arguments doc; current_round := r;
     max_rounds := max_rounds doc; winner := winner doc;
     judge_decision := judge_decision doc; judge_id := judge_id doc;
     votes := votes doc; total_votes := total_votes doc;
     voter_records := voter_records doc |}.

(** [{'$set': {'status': 'judged', 'winner': w, 'judge_decision': reasoning,
    'judge_id': j, 'updated_at': now}}] *)
Definition set_judged (w reasoning : string) (j : option string) (now : Z)
    (doc : t) : t :=
  {| _id := _id doc; topic := topic doc; creator_id := creator_id doc;
     status := judged; created_at := created_at doc; updated_at := now;
     participants := participants doc; arguments := arguments doc;
     current_round := current_round doc; max_rounds := max_rounds doc;
     winner := Some w; judge_decision := Some reasoning; judge_id := j;
     votes := votes doc; total_votes := total_votes doc;
     voter_records := voter_records doc |}.

(** [{'$inc': {'votes.<personality_id>': 1, 'total_votes': 1},
      '$set': {'voter_records.<voter_id>': personality_id,
               'updated_at': now}}]: the two ids are spliced into the
    update paths. [None] is the error of the server when one of the paths
    cannot be applied; nothing is written then. *)
Definition vote_fields (personality_id voter_id : string) (doc : t)
    : option (FieldPath.doc Z * FieldPath.doc string) :=
  votes' ← FieldPath.inc personality_id (votes doc);
  voter_records' ← FieldPath.set voter_id personality_id (voter_records doc);
  Some (votes', voter_records').

Definition vote_update (personality_id voter_id : string) (now : Z) (doc : t)
    : option t :=
  fields ← vote_fields personality_id voter_id doc;
  Some {| _id := _id doc; topic := topic doc; creator_id := creator_id doc;
          status := status doc; created_at := created_at doc;
          updated_at := now; participants := participants doc;
          arguments := arguments doc; current_round := current_round doc;
          max_rounds := max_rounds doc; winner := winner doc;
          judge_decision := judge_decision doc; judge_id := judge_id doc;
          votes := fields.1; total_votes := total_votes doc + 1;
          voter_records := fields.2 |}.

(** The document after [add_vote]'s [update_one]: when the server refuses
    the update, [update_one] raises, [add_vote] catches the exception and
    returns [False], as it does when nothing was modified; the document is
    then the one it was. *)
Definition record_vote (personality_id voter_id : string) (now : Z)
    (doc : t) : t :=
  default doc (vote_update personality_id voter_id now doc).

End DebateDoc.

Module Debate.

(** An instance of class [Debate]. Neither [__init__] nor [from_dict]
    assigns an attribute [voter_records]; [voter_records_attr] is that
    attribute if something has set it on the instance, [None] if the
    instance has no such attribute. *)
Record t := mk {
  _id : ObjectId.t;
  topic : string;
  creator_id : option string;
  status : Status;
  created_at : Z;
  updated_at : Z;
  participants : list string;
  arguments : list DebateArgument.t;
  current_round : Z;
  max_rounds : Z;
  winner : option string;
  judge_decision : option string;
  judge_id : option string;
  votes : FieldPath.doc Z;
  total_votes : Z;
  voter_records_attr : option (FieldPath.doc string)
}.

(** [Debate(topic, creator_id, debate_id)] with [debate_id] an ObjectId
    (the fresh one when the caller passes none). *)
Definition init (oid : ObjectId.t) (now : Z) (topic : string)
    (creator_id : option string) : t :=
  {| _id := oid; topic := topic; creator_id := creator_id;
     status := created; created_at := now; updated_at := now;
     participants := []; arguments := []; current_round := 1;
     max_rounds := 3; winner := None; judge_decision := None;
     judge_id := None; votes := ∅; total_votes := 0;
     voter_records_attr := None |}.

Definition set_participants (ps : list string) (d : t) : t :=
  {| _id := _id d; topic := topic d; creator_id := creator_id d;
     status := status d; created_at := created_at d;
     updated_at := updated_at d; participants := ps;
     arguments := arguments d; current_round := current_round d;
     max_rounds := max_rounds d; winner := winner d;
     judge_decision := judge_decision d; judge_id := judge_id d;
     votes := votes d; total_votes := total_votes d;
     voter_records_attr := voter_records_attr d |}.

(** [_dict()]: fifteen keys, no [voter_records]. *)
Definition _dict (d : t) : DebateDoc.t :=
  {| DebateDoc._id := _id d; DebateDoc.topic := topic d;
     DebateDoc.creator_id := creator_id d; DebateDoc.status := status d;
     DebateDoc.created_at := created_at d;
     DebateDoc.updated_at := updated_at d;
     DebateDoc.participants := participants d;
     DebateDoc.arguments := arguments d;
     DebateDoc.current_round := current_round d;
     DebateDoc.max_rounds := max_rounds d; DebateDoc.winner := winner d;
     DebateDoc.judge_decision := judge_decision d;
     DebateDoc.judge_id := judge_id d; DebateDoc.votes := votes d;
     DebateDoc.total_votes := total_votes d;
     DebateDoc.voter_records := ∅ |}.

(** [from_dict(data)]: every key of [_dict] is read back; the key
    [voter_records] of the document is not read. *)
Definition from_dict (data : DebateDoc.t) : t :=
  {| _id := DebateDoc._id data; topic := DebateDoc.topic data;
     creator_id := DebateDoc.creator_id data;
     status := DebateDoc.status data;
     created_at := DebateDoc.created_at data;
     updated_at := DebateDoc.updated_at data;
     participants := DebateDoc.participants data;
     arguments := DebateDoc.arguments data;
     current_round := DebateDoc.current_round data;
     max_rounds := DebateDoc.max_rounds data;
     winner := DebateDoc.winner data;
     judge_decision := DebateDoc.judge_decision data;
     judge_id := DebateDoc.judge_id data; votes := DebateDoc.votes data;
     total_votes := DebateDoc.total_votes data;
     voter_records_attr := None |}.

Definition get_arguments_by_round (d : t) (r : Z) : list DebateArgument.t :=
  List.filter (fun a => DebateArgument.round_number a =? r) (arguments d).

Definition is_complete (d : t) : bool :=
  match status d with completed | judged => true | _ => false end.

Definition get_arguments_by_personality (d : t) (personality_id : string)
    : list DebateArgument.t :=
  List.filter
    (fun a => String.eqb (DebateArgument.personality_id a) personality_id)
    (arguments d).


End Debate.

(** ** models/personality.py *)

Module PyFloat.

(** A Python [float] is an IEEE 754 binary64 number; its operations round
    to nearest, ties to even. *)
Definition t := spec_float.

Definition prec : Z := 53.
Definition emax : Z := 1024.

Definition zero : t := S754_zero false.

Definition add (x y : t) : t := SFadd prec emax x y.
Definition mul (x y : t) : t := SFmul prec emax x y.

(** [x / y] for a divisor that is not zero. *)
Definition div (x y : t) : t := SFdiv prec emax x y.

(** [float(n)] of an int, as the arithmetic operators apply it to an int
    operand: the nearest double; [None] is [OverflowError]. *)
Definition of_int (n : Z) : option t :=
  match binary_normalize prec emax n 0 false with
  | S754_infinity _ => None
  | x => Some x
  end.

(** The quotient of two ints as true division computes it for a divisor
    that is not zero: the double nearest to the exact quotient, with the
    sign of the divisor on a zero dividend. *)
Definition quotient (a b : Z) : t :=
  match a with
  | 0 => S754_zero (b <? 0)
  | _ =>
      SFdiv prec emax (S754_finite (a <? 0) (Z.to_pos (Z.abs a)) 0)
        (S754_finite (b <? 0) (Z.to_pos (Z.abs b)) 0)
  end.

(** True division [a / b] of two ints; [None] is [ZeroDivisionError]. (The
    [OverflowError] of a quotient beyond the doubles needs an int of more
    than a thousand bits, which no document holds; it is not modelled.) *)
Definition truediv (a b : Z) : option t :=
  if b =? 0 then None else Some (quotient a b).

(** The integer nearest to [100 * m * 2^e], a tie going to the even
    neighbour. *)
Definition hundredths (m : positive) (e : Z) : Z :=
  let n := 100 * Z.pos m in
  if 0 <=? e then n * 2 ^ e
  else
    let d := 2 ^ (- e) in
    let q := n / d in
    match Z.compare (2 * (n mod d)) d with
    | Lt => q
    | Gt => q + 1
    | Eq => if Z.even q then q else q + 1
    end.

(** [round(x, 2)]: the exact value of [x] is rounded to two decimals, a tie
    going to the even neighbour, and the double nearest to that decimal is
    returned; zeros, infinities and NaN are returned as they are. *)
Definition round2 (x : t) : t :=
  match x with
  | S754_finite s m e =>
      match hundredths m e with
      | Z.pos k => SFdiv prec emax (S754_finite s k 0) (S754_finite false 100 0)
      | _ => S754_zero s
      end
  | _ => x
  end.

(** The doubles [100.0] and [60.0], as an int operand of [*] or [/] is
    converted. *)
Definition hundred : t := Eval vm_compute in quotient 100 1.
Definition sixty : t := Eval vm_compute in quotient 60 1.

(** [x == 0.0] *)
Definition is_zero (x : t) : bool :=
  match x with S754_zero _ => true | _ => false end.

End PyFloat.

(** A Python number as the statistics hold it: an [int] or a [float]. The
    database keeps the two apart (an integer or a double), so a number read
    back has the type it was written with. *)
Module PyNum.

Inductive t := Int (n : Z) | Float (x : PyFloat.t).

(** The conversion of an operand when the other one is a float; [None] is
    [OverflowError]. *)
Definition to_float (a : t) : option PyFloat.t :=
  match a with
  | Int n => PyFloat.of_int n
  | Float x => Some x
  end.

(** [a * b], [a + b] and [a / b]; [None] is the exception raised
    ([OverflowError], or [ZeroDivisionError] for the division). *)
Definition mul (a b : t) : option t :=
  match a, b with
  | Int m, Int n => Some (Int (m * n))
  | _, _ => x ← to_float a; y ← to_float b; Some (Float (PyFloat.mul x y))
  end.

Definition add (a b : t) : option t :=
  match a, b with
  | Int m, Int n => Some (Int (m + n))
  | _, _ => x ← to_float a; y ← to_float b; Some (Float (PyFloat.add x y))
  end.

Definition truediv (a b : t) : option t :=
  match a, b with
  | Int m, Int n => Float <$> PyFloat.truediv m n
  | _, _ =>
      x ← to_float a; y ← to_float b;
      if PyFloat.is_zero y then None else Some (Float (PyFloat.div x y))
  end.

(** [round(a, 2)]: an int is returned as it is. *)
Definition round2 (a : t) : t :=
  match a with
  | Int n => Int n
  | Float x => Float (PyFloat.round2 x)
  end.

(** [a == 0] *)
Definition is_zero (a : t) : bool :=
  match a with
  | Int n => n =? 0
  | Float x => PyFloat.is_zero x
  end.

End PyNum.

Module PersonalityDoc.

(** A document of the [personalities] collection, as [to_dict()] writes it:
    the fields of the instance and the win rate computed when it was
    written. *)
Record t := mk {
  name : string;
  description : string;
  personality_traits : list string;
  debate_style : string;
  system_prompt : string;
  wins : Z;
  total_debates : Z;
  total_arguments : Z;
  average_votes : PyNum.t;
  win_rate : PyFloat.t;
  created_at : Z;
  updated_at : Z
}.

(** The [$set] of [update_personality_stats]. *)
Definition set_stats (total_debates' total_arguments' wins' : Z)
    (average_votes' : PyNum.t) (now : Z) (d : t) : t :=
  {| name := name d; description := description d;
     personality_traits := personality_traits d;
     debate_style := debate_style d; system_prompt := system_prompt d;
     wins := wins'; total_debates := total_debates';
     total_arguments := total_arguments'; average_votes := average_votes';
     win_rate := win_rate d; created_at := created_at d;
     updated_at := now |}.

End PersonalityDoc.

Module AIPersonality.

Record t := mk {
  name : string;
  description : string;
  personality_traits : list string;
  debate_style : string;
  system_prompt : string;
  wins : Z;
  total_debates : Z;
  total_arguments : Z;
  average_votes : PyNum.t;
  created_at : Z;
  updated_at : Z
}.

Definition init (now : Z) (name description : string)
    (personality_traits : list string) (debate_style system_prompt : string) : t :=
  {| name := name; description := description;
     personality_traits := personality_traits; debate_style := debate_style;
     system_prompt := system_prompt; wins := 0; total_debates := 0;
     total_arguments := 0; average_votes := PyNum.Float PyFloat.zero;
     created_at := now;
     updated_at := now |}.

(** [get_win_rate]: [None] would be an escaping [ZeroDivisionError]. *)
Definition get_win_rate (p : t) : option PyFloat.t :=
  if total_debates p =? 0 then Some PyFloat.zero
  else q ← PyFloat.truediv (wins p) (total_debates p);
       Some (PyFloat.round2 (PyFloat.mul q PyFloat.hundred)).

Definition to_dict (p : t) : option PersonalityDoc.t :=
  r ← get_win_rate p;
  Some {| PersonalityDoc.name := name p;
          PersonalityDoc.description := description p;
          PersonalityDoc.personality_traits := personality_traits p;
          PersonalityDoc.debate_style := debate_style p;
          PersonalityDoc.system_prompt := system_prompt p;
          PersonalityDoc.wins := wins p;
          PersonalityDoc.total_debates := total_debates p;
          PersonalityDoc.total_arguments := total_arguments p;
          PersonalityDoc.average_votes := average_votes p;
          PersonalityDoc.win_rate := r;
          PersonalityDoc.created_at := created_at p;
          PersonalityDoc.updated_at := updated_at p |}.

Definition from_dict (data : PersonalityDoc.t) : t :=
  {| name := PersonalityDoc.name data;
     description := PersonalityDoc.description data;
     personality_traits := PersonalityDoc.personality_traits data;
     debate_style := PersonalityDoc.debate_style data;
     system_prompt := PersonalityDoc.system_prompt data;
     wins := PersonalityDoc.wins data;
     total_debates := PersonalityDoc.total_debates data;
     total_arguments := PersonalityDoc.total_arguments data;
     average_votes := PersonalityDoc.average_votes data;
     created_at := PersonalityDoc.created_at data;
     updated_at := PersonalityDoc.updated_at data |}.

(** [update_stats(won, votes_received)] on the instance; [None] is an
    exception of the arithmetic, which the method lets escape. *)
Definition update_stats (now : Z) (won : bool) (votes_received : Z) (p : t)
    : option t :=
  let total_debates' := total_debates p + 1 in
  let total_arguments' := total_arguments p + 1 in
  let wins' := if won then wins p + 1 else wins p in
  average_votes' ←
    (if 1 <? total_arguments'
     then product ← PyNum.mul (average_votes p) (PyNum.Int (total_arguments' - 1));
          total ← PyNum.add product (PyNum.Int votes_received);
          PyNum.truediv total (PyNum.Int total_arguments')
     else Some (PyNum.Int votes_received));
  Some {| name := name p; description := description p;
          personality_traits := personality_traits p;
          debate_style := debate_style p; system_prompt := system_prompt p;
          wins := wins'; total_debates := total_debates';
          total_arguments := total_arguments'; average_votes := average_votes';
          created_at := created_at p; updated_at := now |}.

End AIPersonality.

(** The entries of [DEFAULT_PERSONALITIES]. *)
Record seed := mk_seed {
  seed_name : string;
  seed_description : string;
  seed_personality_traits : list string;
  seed_debate_style : string;
  seed_system_prompt : string
}.

Definition dquote : string := String (ascii_of_nat 34) EmptyString.
Definition newline : string := String (ascii_of_nat 10) EmptyString.

(** A multi-line literal, one entry per source line. *)
Definition lines (ls : list string) : string := String.concat newline ls.

Definition DEFAULT_PERSONALITIES : list seed :=
  [{| seed_name := "The Philosopher";
     seed_description :=
       "Deep thinker who approaches debates with ethical and philosophical reasoning, always seeking the deeper meaning and moral implications.";
     seed_personality_traits := ["thoughtful"; "ethical"; "analytical"; "questioning"; "wisdom-seeking"];
     seed_debate_style :=
       "Socratic questioning and ethical frameworks with philosophical depth";
     seed_system_prompt := lines [
      "You are The Philosopher, a deep thinker who approaches every debate through the lens of ethics, morality, and philosophical reasoning. ";
      EmptyString;
      "Your approach:";
      "- Ask probing questions that challenge fundamental assumptions";
      "- Reference philosophical concepts, ethical frameworks, and moral principles";
      "- Consider the broader implications for humanity and society";
      "- Use logical reasoning while acknowledging the complexity of human nature";
      "- Draw from historical philosophical thought when relevant";
      "- Always consider multiple perspectives before forming conclusions";
      EmptyString;
      "Keep responses thoughtful but concise (under 500 characters). Focus on the ethical dimensions and deeper meaning of the topic."] |};
   {| seed_name := "The Scientist";
     seed_description :=
       "Evidence-based debater who relies on data, research, and logical reasoning to form conclusions.";
     seed_personality_traits := ["logical"; "evidence-based"; "methodical"; "precise"; "data-driven"];
     seed_debate_style :=
       "Data-driven arguments with scientific methodology and empirical evidence";
     seed_system_prompt := lines [
      "You are The Scientist, who approaches debates with rigorous logical thinking and evidence-based reasoning.";
      EmptyString;
      "Your approach:";
      "- Always ask for data and empirical evidence";
      "- Apply the scientific method to evaluate claims";
      "- Be precise and methodical in your arguments";
      "- Reference studies, statistics, and research when possible";
      "- Acknowledge uncertainty and the need for more data when appropriate";
      "- Focus on what can be measured and verified";
      "- Challenge claims that lack scientific support";
      EmptyString;
      "Keep responses factual and concise (under 500 characters). Prioritize evidence over opinion."] |};
   {| seed_name := "The Advocate";
     seed_description :=
       "Passionate defender of social justice and human rights, focusing on protecting vulnerable populations.";
     seed_personality_traits := ["passionate"; "empathetic"; "justice-focused"; "persuasive"; "protective"];
     seed_debate_style :=
       "Emotional appeals combined with social justice arguments and human rights focus";
     seed_system_prompt := lines [
      "You are The Advocate, passionate about social justice and human rights. You debate with empathy and moral conviction.";
      EmptyString;
      "Your approach:";
      "- Focus on how issues affect vulnerable and marginalized populations";
      "- Use emotional appeals combined with strong moral arguments";
      "- Advocate for equality, fairness, and protection of rights";
      "- Consider the human cost of policies and decisions";
      "- Challenge systems of oppression and inequality";
      "- Speak for those who cannot speak for themselves";
      "- Balance passion with factual arguments";
      EmptyString;
      "Keep responses passionate but focused (under 500 characters). Always consider the human impact."] |};
   {| seed_name := "The Pragmatist";
     seed_description :=
       "Practical problem-solver focused on real-world solutions, implementation feasibility, and cost-effectiveness.";
     seed_personality_traits := ["practical"; "solution-oriented"; "realistic"; "efficient"; "results-focused"];
     seed_debate_style :=
       "Focus on practical solutions, implementation details, and real-world feasibility";
     seed_system_prompt := lines [
      "You are The Pragmatist, focused on practical solutions and real-world outcomes.";
      EmptyString;
      "Your approach:";
      "- Examine what actually works in practice vs. theory";
      "- Consider costs, benefits, and feasibility of proposed solutions";
      "- Focus on implementable and sustainable approaches";
      "- Ask " +:+ dquote +:+ "how would this work in reality?" +:+ dquote;
      "- Consider resource constraints and limitations";
      "- Prioritize solutions that can be implemented quickly and effectively";
      "- Focus on measurable outcomes and results";
      "- Challenge idealistic proposals with practical concerns";
      EmptyString;
      "Keep responses practical and actionable (under 500 characters). Focus on implementation over theory."] |};
   {| seed_name := "The Contrarian";
     seed_description :=
       "Devil's advocate who challenges popular opinions and conventional wisdom, always questioning the status quo.";
     seed_personality_traits := ["skeptical"; "challenging"; "unconventional"; "provocative"; "independent"];
     seed_debate_style :=
       "Playing devil's advocate, challenging assumptions, and presenting alternative viewpoints";
     seed_system_prompt := lines [
      "You are The Contrarian, who enjoys challenging popular opinions and conventional wisdom.";
      EmptyString;
      "Your approach:";
      "- Play devil's advocate even when you might personally agree";
      "- Poke holes in arguments and challenge assumptions";
      "- Present alternative viewpoints that others might not consider";
      "- Question the status quo and conventional thinking";
      "- Be provocative but intellectually honest";
      "- Look for flaws in reasoning and logic";
      "- Offer contrarian perspectives that add depth to the debate";
      EmptyString;
      "Keep responses challenging but fair (under 500 characters). Always provide alternative viewpoints."] |};
   {| seed_name := "The Historian";
     seed_description :=
       "Uses historical context and lessons from the past to inform present-day debates and decisions.";
     seed_personality_traits := ["knowledgeable"; "contextual"; "pattern-seeking"; "wise"; "analytical"];
     seed_debate_style :=
       "Historical examples, pattern recognition, and lessons learned from the past";
     seed_system_prompt := lines [
      "You are The Historian, who brings historical context and lessons from the past to every debate.";
      EmptyString;
      "Your approach:";
      "- Identify patterns and parallels from history";
      "- Draw lessons from past successes and failures";
      "- Provide historical context to current issues";
      "- Reference historical examples and case studies";
      "- Warn against repeating historical mistakes";
      "- Show how current issues have historical precedents";
      "- Use the wisdom of history to inform present decisions";
      EmptyString;
      "Keep responses historically informed (under 500 characters). Always connect past to present."] |}].

(** ** utils/helpers.py *)

Module helpers.

Definition calculate_win_rate (wins total : Z) : option PyFloat.t :=
  if total =? 0 then Some PyFloat.zero
  else q ← PyFloat.truediv wins total;
       Some (PyFloat.round2 (PyFloat.mul q PyFloat.hundred)).

(** [items[start:end]] with two ints: a negative index counts from the end
    of the list, and both are clamped to the list. *)
Definition slice {A} (items : list A) (start stop : Z) : list A :=
  let n := Z.of_nat (length items) in
  let clamp i := if i <? 0 then Z.max (i + n) 0 else Z.min i n in
  take (Z.to_nat (clamp stop - clamp start))
    (drop (Z.to_nat (clamp start)) items).

(** The dict [paginate_results] returns. *)
Record pagination (A : Type) := mk_pagination {
  items : list A;
  total : Z;
  page : Z;
  per_page : Z;
  pages : Z;
  has_prev : bool;
  has_next : bool;
  prev_page : option Z;
  next_page : option Z
}.

Arguments mk_pagination {A}.
Arguments items {A}.
Arguments total {A}.
Arguments page {A}.
Arguments per_page {A}.
Arguments pages {A}.
Arguments has_prev {A}.
Arguments has_next {A}.
Arguments prev_page {A}.
Arguments next_page {A}.

(** [paginate_results]; [None] is the [ZeroDivisionError] of [// per_page]. *)
Definition paginate_results {A} (items : list A) (page per_page : Z)
    : option (pagination A) :=
  let total := Z.of_nat (length items) in
  let start := (page - 1) * per_page in
  let end_ := start + per_page in
  if per_page =? 0 then None
  else Some {| items := slice items start end_;
               total := total;
               page := page;
               per_page := per_page;
               pages := (total + per_page - 1) / per_page;
               has_prev := 1 <? page;
               has_next := end_ <? total;
               prev_page := if 1 <? page then Some (page - 1) else None;
               next_page := if end_ <? total then Some (page + 1) else None |}.

End helpers.

(** ** config.py *)

Module Config.

Definition MAX_DEBATE_ROUNDS : Z := 3.
Definition MAX_ARGUMENT_LENGTH : Z := 500.

End Config.

(** ** The database (utils/database.py, pymongo) *)

Module Mongo.

(** The two collections of the application database. *)
Record db := mk {
  debates : gmap ObjectId.t DebateDoc.t;
  personalities : list PersonalityDoc.t
}.

Definition set_debates (c : gmap ObjectId.t DebateDoc.t) (d : db) : db :=
  {| debates := c; personalities := personalities d |}.

Definition set_personalities (c : list PersonalityDoc.t) (d : db) : db :=
  {| debates := debates d; personalities := c |}.

(** [collection.update_one({'_id': oid, ...filter}, update)] on the debates:
    the document with that id is updated when it passes the rest of the
    filter; [modified_count] is 1 when the update changed it, else 0. *)
Definition update_one (oid : ObjectId.t) (filter : DebateDoc.t -> bool)
    (update : DebateDoc.t -> DebateDoc.t) (c : gmap ObjectId.t DebateDoc.t)
    : gmap ObjectId.t DebateDoc.t * Z :=
  match c !! oid with
  | Some doc =>
      if filter doc
      then let doc' := update doc in
           (<[oid := doc']> c, if decide (doc' = doc) then 0 else 1)
      else (c, 0)
  | None => (c, 0)
  end.

(** [find_one({'name': name})] on the personalities. *)
Definition find_one_by_name (name : string) (c : list PersonalityDoc.t)
    : option PersonalityDoc.t :=
  List.find (fun p => String.eqb (PersonalityDoc.name p) name) c.

(** [update_one({'name': name}, {'$set': ...})]: the first document with that
    name is updated in place. *)
Fixpoint update_one_by_name (name : string)
    (update : PersonalityDoc.t -> PersonalityDoc.t)
    (c : list PersonalityDoc.t) : list PersonalityDoc.t :=
  match c with
  | [] => []
  | p :: r =>
      if String.eqb (PersonalityDoc.name p) name then update p :: r
      else p :: update_one_by_name name update r
  end.

End Mongo.

(** ** services/personality_service.py *)

Module PersonalityService.

(** [_initialize_personalities]: seeds the collection when it is empty. An
    exception while building the documents is logged and nothing is
    inserted. *)
Definition _initialize_personalities (now : Z) (db : Mongo.db) : Mongo.db :=
  if (length (Mongo.personalities db) =? 0)%nat then
    match
      mapM (fun p_data =>
              AIPersonality.to_dict
                (AIPersonality.init now (seed_name p_data)
                   (seed_description p_data) (seed_personality_traits p_data)
                   (seed_debate_style p_data) (seed_system_prompt p_data)))
           DEFAULT_PERSONALITIES
    with
    | Some personalities_data => Mongo.set_personalities personalities_data db
    | None => db
    end
  else db.

(** [PersonalityService()]: the constructor runs the seeding. *)
Definition init (now : Z) (db : Mongo.db) : Mongo.db :=
  _initialize_personalities now db.

Definition get_all_personalities (db : Mongo.db) : list AIPersonality.t :=
  map AIPersonality.from_dict (Mongo.personalities db).

Definition get_debate_personalities (db : Mongo.db) : list AIPersonality.t :=
  map AIPersonality.from_dict (Mongo.personalities db).

Definition get_personality_by_name (name : string) (db : Mongo.db)
    : option AIPersonality.t :=
  AIPersonality.from_dict <$> Mongo.find_one_by_name name (Mongo.personalities db).

(** The average [update_personality_stats] computes from the stored
    document; [None] is an exception of the arithmetic. *)
Definition new_average_votes (data : PersonalityDoc.t) (votes_received : Z)
    : option PyNum.t :=
  let current_total_arguments := PersonalityDoc.total_arguments data in
  let new_total_arguments := current_total_arguments + 1 in
  if 1 <? new_total_arguments
  then product ← PyNum.mul (PersonalityDoc.average_votes data)
                   (PyNum.Int current_total_arguments);
       total ← PyNum.add product (PyNum.Int votes_received);
       PyNum.truediv total (PyNum.Int new_total_arguments)
  else Some (PyNum.Int votes_received).

(** The document after the [$set] of [update_personality_stats]. An
    exception while the new values are computed is caught by the method,
    which then writes nothing. *)
Definition stats_update (now : Z) (won : bool) (votes_received : Z)
    (data : PersonalityDoc.t) : PersonalityDoc.t :=
  let new_total_debates := PersonalityDoc.total_debates data + 1 in
  let new_total_arguments := PersonalityDoc.total_arguments data + 1 in
  let new_wins := PersonalityDoc.wins data + (if won then 1 else 0) in
  match new_average_votes data votes_received with
  | Some new_average_votes =>
      PersonalityDoc.set_stats new_total_debates new_total_arguments new_wins
        (PyNum.round2 new_average_votes) now data
  | None => data
  end.

Definition update_personality_stats (now : Z) (personality_name : string)
    (won : bool) (votes_received : Z) (db : Mongo.db) : Mongo.db :=
  match Mongo.find_one_by_name personality_name (Mongo.personalities db) with
  | None => db
  | Some _ =>
      Mongo.set_personalities
        (Mongo.update_one_by_name personality_name
           (stats_update now won votes_received) (Mongo.personalities db))
        db
  end.

(** [create_personality] (admin function): refused when the name exists. *)
Definition create_personality (now : Z) (name description : string)
    (personality_traits : list string) (debate_style system_prompt : string)
    (db : Mongo.db) : Mongo.db * option AIPersonality.t :=
  match Mongo.find_one_by_name name (Mongo.personalities db) with
  | Some _ => (db, None)
  | None =>
      let personality :=
        AIPersonality.init now name description personality_traits
          debate_style system_prompt in
      match AIPersonality.to_dict personality with
      | Some doc =>
          (Mongo.set_personalities (Mongo.personalities db ++ [doc]) db,
           Some personality)
      | None => (db, None)
      end
  end.

(** [delete_personality] (admin function): [delete_one({'name': name})]. *)
Fixpoint delete_one_by_name (name : string) (c : list PersonalityDoc.t)
    : list PersonalityDoc.t :=
  match c with
  | [] => []
  | p :: r =>
      if String.eqb (PersonalityDoc.name p) name then r
      else p :: delete_one_by_name name r
  end.

Definition delete_personality (name : string) (db : Mongo.db) : Mongo.db * bool :=
  match Mongo.find_one_by_name name (Mongo.personalities db) with
  | Some _ =>
      (Mongo.set_personalities
         (delete_one_by_name name (Mongo.personalities db)) db, true)
  | None => (db, false)
  end.

End PersonalityService.

(** ** Python [str] and [re] operations used by the services *)

Module PyStr.

Definition chars := list ascii.

Definition of_chars (l : chars) : string := string_of_list_ascii l.
Definition to_chars (s : string) : chars := list_ascii_of_string s.

Definition code (c : ascii) : N := N_of_ascii c.

Definition between (lo hi : N) (c : ascii) : bool :=
  ((lo <=? code c) && (code c <=? hi))%N.

(** [str.isspace] of one character, which is also the class [\s] of [re] on
    [str] patterns. *)
Definition isspace (c : ascii) : bool :=
  between 9 13 c || between 28 32 c || between 133 133 c || between 160 160 c.

(** The class [\w] of [re] on [str] patterns: alphanumeric or underscore. *)
Definition isword (c : ascii) : bool :=
  between 48 57 c || between 65 90 c || between 97 122 c || between 95 95 c
  || between 170 170 c || between 178 179 c || between 181 181 c
  || between 185 186 c || between 188 190 c || between 192 214 c
  || between 216 246 c || between 248 255 c.

Definition is_char (n : N) (c : ascii) : bool := (code c =? n)%N.

Definition isquote (c : ascii) : bool := is_char 34 c || is_char 39 c.
Definition isnewline (c : ascii) : bool := is_char 10 c.
Definition isterminal (c : ascii) : bool :=
  is_char 46 c || is_char 33 c || is_char 63 c.

Definition space : ascii := ascii_of_nat 32.
Definition dot : ascii := ascii_of_nat 46.

(** Lower case of an ASCII letter, for case-insensitive literals. *)
Definition lower (c : ascii) : ascii :=
  if between 65 90 c then ascii_of_N (code c + 32) else c.

Fixpoint dropwhile (P : ascii -> bool) (l : chars) : chars :=
  match l with
  | [] => []
  | c :: r => if P c then dropwhile P r else l
  end.

Definition lstrip (l : chars) : chars := dropwhile isspace l.
Definition rstrip (l : chars) : chars := rev (dropwhile isspace (rev l)).
Definition strip (l : chars) : chars := lstrip (rstrip l).

(** [s.endswith(('.', '!', '?'))] *)
Definition endswith_terminal (l : chars) : bool :=
  match last l with Some c => isterminal c | None => false end.

(** [s.endswith('.')] *)
Definition endswith_dot (l : chars) : bool :=
  match last l with Some c => is_char 46 c | None => false end.

(** [s.split('. ')]: the pieces between the occurrences of the separator,
    scanned from the left. *)
Fixpoint split_dot_space (l : chars) : list chars :=
  match l with
  | [] => [[]]
  | c :: r =>
      match r with
      | c2 :: r2 =>
          if is_char 46 c && is_char 32 c2 then [] :: split_dot_space r2
          else match split_dot_space r with
               | piece :: pieces => (c :: piece) :: pieces
               | [] => [[c]]
               end
      | [] => [[c]]
      end
  end.

(** ['. '.join(pieces)] *)
Fixpoint join_dot_space (pieces : list chars) : chars :=
  match pieces with
  | [] => []
  | [piece] => piece
  | piece :: rest => piece ++ dot :: space :: join_dot_space rest
  end.

(** [l[-n:]] for a positive [n]. *)
Definition last_n {A} (n : nat) (l : list A) : list A :=
  drop (length l - n) l.

(** String-level views. *)
Definition len (s : string) : Z := Z.of_nat (String.length s).

(** [s[:n]] and [s[n:]] for [0 <= n]. *)
Definition slice_to (n : Z) (s : string) : string :=
  of_chars (take (Z.to_nat n) (to_chars s)).
Definition slice_from (n : Z) (s : string) : string :=
  of_chars (drop (Z.to_nat n) (to_chars s)).

Definition str_strip (s : string) : string := of_chars (strip (to_chars s)).

(** [sep.join(l)] on strings. *)
Definition str_join (sep : string) (l : list string) : string :=
  String.concat sep l.

(** [str(n)] of an int. *)
Definition str_of_int (n : Z) : string := pretty n.

End PyStr.

Module Re.

Import PyStr.

(** [re.sub(r'^["\']|["\']$', '', s)]: a quote at the very start is removed,
    and so is a quote at the end of the string or just before a final
    newline. *)
Definition at_end (l : chars) : bool :=
  match l with
  | [] => true
  | [c] => isnewline c
  | _ => false
  end.

Fixpoint sub_closing_quote (l : chars) : chars :=
  match l with
  | [] => []
  | c :: r => if isquote c && at_end r then r else c :: sub_closing_quote r
  end.

Definition sub_surrounding_quotes (l : chars) : chars :=
  match l with
  | [] => []
  | c :: r => if isquote c then sub_closing_quote r else c :: sub_closing_quote r
  end.

(** [re.sub(P+, ' ', s)]: every maximal run of characters of the class
    becomes one space. [in_run] says that the previous character belonged to
    the run being replaced. *)
Fixpoint sub_runs (P : ascii -> bool) (in_run : bool) (l : chars) : chars :=
  match l with
  | [] => []
  | c :: r =>
      if P c then
        if in_run then sub_runs P true r else space :: sub_runs P true r
      else c :: sub_runs P false r
  end.

(** [re.sub(r'\n+', ' ', s)] and [re.sub(r'\s+', ' ', s)] *)
Definition sub_newlines (l : chars) : chars := sub_runs isnewline false l.
Definition sub_whitespace (l : chars) : chars := sub_runs isspace false l.

(** A literal matched at the head of the subject under [re.IGNORECASE];
    the result is the rest of the subject. *)
Fixpoint match_literal (lit : chars) (l : chars) : option chars :=
  match lit with
  | [] => Some l
  | a :: lit' =>
      match l with
      | c :: r =>
          if Ascii.eqb (lower a) (lower c) then match_literal lit' r else None
      | [] => None
      end
  end.

(** [\s+\w+[,:]?\s*] at the head of the subject, every quantifier greedy;
    the result is what follows the match. *)
Definition match_reference_tail (l : chars) : option chars :=
  match l with
  | c :: _ =>
      if isspace c then
        let l1 := dropwhile isspace l in
        match l1 with
        | w :: _ =>
            if isword w then
              let l2 := dropwhile isword l1 in
              let l3 := match l2 with
                        | p :: r => if is_char 44 p || is_char 58 p then r else l2
                        | [] => []
                        end in
              Some (dropwhile isspace l3)
            else None
        | [] => None
        end
      else None
  | [] => None
  end.

Definition reference_openers : list chars :=
  [to_chars "As"; to_chars "I am"; to_chars "I'm"].

Fixpoint first_match (openers : list chars) (l : chars) : option chars :=
  match openers with
  | [] => None
  | lit :: rest =>
      match match_literal lit l ≫= match_reference_tail with
      | Some tail => Some tail
      | None => first_match rest l
      end
  end.

(** [re.sub(r'^(As|I am|I\'m)\s+\w+[,:]?\s*', '', s, flags=re.IGNORECASE)] *)
Definition sub_self_reference (l : chars) : chars :=
  match first_match reference_openers l with
  | Some tail => tail
  | None => l
  end.

End Re.

(** ** utils/helpers.py: input sanitizing *)

Module Html.

Import PyStr.

(** [html.escape(s)] with the default [quote=True]: the five replacements
    act on distinct characters, the ampersand first. *)
Definition escape_char (c : ascii) : chars :=
  if is_char 38 c then to_chars "&amp;"
  else if is_char 60 c then to_chars "&lt;"
  else if is_char 62 c then to_chars "&gt;"
  else if is_char 34 c then to_chars "&quot;"
  else if is_char 39 c then to_chars "&#x27;"
  else [c].

Definition escape (l : chars) : chars := flat_map escape_char l.

End Html.

Module Sanitize.

Import PyStr.

(** [re.sub(pattern, '', s)] for a pattern whose matches are not empty:
    [m] matches the pattern at the head of the subject and returns what
    follows the match; the subject is scanned from the left and [skip]
    counts the characters of the current match still to be dropped. *)
Fixpoint sub_matches (m : chars -> option chars) (skip : nat) (l : chars) : chars :=
  match l with
  | [] => []
  | c :: r =>
      match skip with
      | S k => sub_matches m k r
      | O =>
          match m l with
          | Some rest => sub_matches m (length r - length rest) r
          | None => c :: sub_matches m 0 r
          end
      end
  end.

(** [<script[^>]>.?</script>] under [re.IGNORECASE | re.DOTALL], at the
    head of the subject: one character other than ['>'] after the name, at
    most one character between the tags, tried first with one. *)
Definition match_script (l : chars) : option chars :=
  match Re.match_literal (to_chars "<script") l with
  | Some (x :: g :: body) =>
      if negb (is_char 62 x) && is_char 62 g then
        match body with
        | _ :: after =>
            match Re.match_literal (to_chars "</script>") after with
            | Some rest => Some rest
            | None => Re.match_literal (to_chars "</script>") body
            end
        | [] => None
        end
      else None
  | _ => None
  end.

(** [<[^>]+>] at the head of the subject: at least one character other
    than ['>'], up to the first ['>']. *)
Definition match_tag (l : chars) : option chars :=
  match l with
  | c :: c2 :: r =>
      if is_char 60 c && negb (is_char 62 c2) then
        match dropwhile (fun x => negb (is_char 62 x)) r with
        | _ :: rest => Some rest
        | [] => None
        end
      else None
  | _ => None
  end.

(** The class [[\x00-\x08\x0B\x0C\x0E-\x1F\x7F]]. *)
Definition iscontrol (c : ascii) : bool :=
  between 0 8 c || between 11 12 c || between 14 31 c || is_char 127 c.

Definition sub_controls (l : chars) : chars :=
  List.filter (fun c => negb (iscontrol c)) l.

(** [sanitize_input(text)] *)
Definition sanitize_input (text : string) : string :=
  match to_chars text with
  | [] => EmptyString
  | l =>
      let l := Html.escape l in
      let l := sub_matches match_script 0 l in
      let l := sub_matches match_tag 0 l in
      let l := Re.sub_whitespace l in
      let l := sub_controls l in
      of_chars (strip l)
  end.

End Sanitize.

(** ** services/ai_service.py *)

Module AIService.

Import PyStr.

(** What an [AIService] instance and the random module contribute to one
    round. Speakers are numbered in the order in which the round runs them.
    - [generator]: [self.generator], [None] when no model could be loaded;
      applied to the speaker's number and the prompt it yields the
      [generated_text] of the first returned sequence, or [None] when the
      call raises.
    - [choice]: the index drawn by [random.choice] for each speaker.
    - [shuffle_draws]: the draws of [random.shuffle].
    - [fresh]: the [ObjectId()] of each speaker's [DebateArgument].
    - [raises]: an exception escapes [_generate_argument] for that speaker
      (anything raised outside its own [try]).
    - [late]: generating and storing the round takes longer than the 60
      seconds a route waits for it. *)
Record env := mk_env {
  generator : option (nat -> string -> option string);
  choice : nat -> nat;
  shuffle_draws : list nat;
  fresh : nat -> ObjectId.t;
  raises : nat -> bool;
  late : bool
}.

(** [random.shuffle]: the outcome is a rearrangement decided by the draws;
    each element is put at a drawn position among those already placed. *)
Fixpoint shuffle {A} (draws : list nat) (l : list A) : list A :=
  match l with
  | [] => []
  | x :: r =>
      let placed := shuffle (tl draws) r in
      let k := (hd 0%nat draws mod S (length placed))%nat in
      take k placed ++ x :: drop k placed
  end.

(** [_clean_and_validate_argument], on the characters. *)
Definition nonempty (l : chars) : bool :=
  match l with [] => false | _ => true end.

Definition drop_unfinished_sentence (argument : chars) : chars :=
  let sentences := split_dot_space argument in
  if (1 <? length sentences)%nat then
    if negb (endswith_terminal (rstrip (List.last sentences [])))
    then
      let argument := join_dot_space (removelast sentences) in
      if nonempty argument && negb (endswith_dot argument)
      then argument ++ [dot] else argument
    else argument
  else argument.

Definition ensure_terminal (argument : chars) : chars :=
  let argument := strip argument in
  if nonempty argument && negb (endswith_terminal argument)
  then argument ++ [dot] else argument.

Definition clean_chars (argument : chars) : chars :=
  match argument with
  | [] => []
  | _ =>
      let argument := Re.sub_surrounding_quotes argument in
      let argument := Re.sub_newlines argument in
      let argument := Re.sub_whitespace argument in
      let argument := Re.sub_self_reference argument in
      let argument := drop_unfinished_sentence argument in
      ensure_terminal argument
  end.

Definition _clean_and_validate_argument (argument : string) : string :=
  of_chars (clean_chars (to_chars argument)).

Definition fallback_templates (topic : string) : list (string * list string) :=
  [("The Philosopher",
    ["From an ethical standpoint, we must carefully examine the moral implications of " +:+ topic +:+ " and consider how it affects human dignity and our collective well-being.";
     "The philosophical question we must ask about " +:+ topic +:+ " is: what does this mean for our understanding of justice, truth, and the good life?";
     "History of philosophy teaches us that complex issues like " +:+ topic +:+ " require us to balance competing moral principles and consider long-term consequences."]);
   ("The Scientist",
    ["The evidence regarding " +:+ topic +:+ " requires rigorous analysis of peer-reviewed research and empirical data before we can reach valid conclusions.";
     "From a scientific perspective, we need more controlled studies and data collection to fully understand the implications of " +:+ topic +:+ ".";
     "The methodology for evaluating " +:+ topic +:+ " must be based on reproducible experiments and statistical significance."]);
   ("The Advocate",
    ["We must examine how " +:+ topic +:+ " impacts marginalized communities and ensure that justice and equality remain our guiding principles.";
     "The human rights implications of " +:+ topic +:+ " cannot be ignored - we must protect the most vulnerable in our society.";
     "Social justice demands that we consider " +:+ topic +:+ " through the lens of equity and fairness for all people."]);
   ("The Pragmatist",
    ["The practical implementation of policies regarding " +:+ topic +:+ " must consider cost-effectiveness, resource allocation, and real-world feasibility.";
     "Let's focus on actionable solutions for " +:+ topic +:+ " that can be implemented efficiently and measured for success.";
     "The bottom line on " +:+ topic +:+ " is what actually works in practice, not just what sounds good in theory."]);
   ("The Contrarian",
    ["Popular opinion about " +:+ topic +:+ " may be fundamentally misguided - we should question our assumptions and consider alternative perspectives.";
     "The conventional wisdom regarding " +:+ topic +:+ " deserves skeptical examination. What if the majority view is wrong?";
     "Before accepting mainstream conclusions about " +:+ topic +:+ ", let's challenge the underlying premises and explore contrarian viewpoints."]);
   ("The Historian",
    ["History shows us clear patterns regarding " +:+ topic +:+ " that we can learn from to avoid repeating past mistakes.";
     "Looking at historical precedents for " +:+ topic +:+ ", we can see how similar situations have played out across different eras and cultures.";
     "The lessons of history regarding " +:+ topic +:+ " remind us that those who ignore the past are doomed to repeat its errors."])].

Definition default_template (personality : AIPersonality.t) : string :=
  "This is an important topic that deserves thoughtful consideration from multiple perspectives, including the unique viewpoint I bring as " +:+ AIPersonality.name personality +:+ ".".

Fixpoint lookup_templates (name : string) (table : list (string * list string))
    : option (list string) :=
  match table with
  | [] => None
  | (key, templates) :: rest =>
      if String.eqb key name then Some templates
      else lookup_templates name rest
  end.

(** [_generate_fallback_argument]; [i] is the speaker's number. *)
Definition _generate_fallback_argument (e : env) (i : nat)
    (personality : AIPersonality.t) (topic : string) (round_number : Z) : string :=
  let templates :=
    match lookup_templates (AIPersonality.name personality)
            (fallback_templates topic) with
    | Some templates => templates
    | None => [default_template personality]
    end in
  nth (choice e i mod length templates)%nat templates EmptyString.

Definition _create_fallback_argument (e : env) (i : nat) (now : Z)
    (personality : AIPersonality.t) (topic : string) (round_number : Z)
    : DebateArgument.t :=
  let fallback_text :=
    _generate_fallback_argument e i personality topic round_number in
  DebateArgument.init (fresh e i) now (AIPersonality.name personality)
    fallback_text round_number.

Definition _get_round_context (round_number : Z) : string :=
  if round_number =? 1 then
    "ROUND 1: Present your opening argument and establish your position."
  else if round_number =? 2 then
    "ROUND 2: Respond to previous arguments and strengthen your position."
  else
    "ROUND " +:+ str_of_int round_number
    +:+ ": Final arguments - make your strongest case.".

Definition context_line (arg : DebateArgument.t) : string :=
  "Round " +:+ str_of_int (DebateArgument.round_number arg) +:+ " - "
  +:+ DebateArgument.personality_id arg +:+ ": "
  +:+ slice_to 150 (DebateArgument.content arg) +:+ "...".

Definition _build_context (debate : Debate.t) (current_round : Z) : string :=
  if current_round =? 1 then EmptyString
  else
    let context_parts :=
      map context_line
        (List.filter
           (fun arg => DebateArgument.round_number arg <? current_round)
           (Debate.arguments debate)) in
    match context_parts with
    | [] => EmptyString
    | _ =>
        newline +:+ "PREVIOUS ROUNDS:" +:+ newline
        +:+ str_join newline (last_n 8 context_parts)
    end.

Definition current_round_line (arg : DebateArgument.t) : string :=
  "- " +:+ DebateArgument.personality_id arg +:+ ": "
  +:+ slice_to 100 (DebateArgument.content arg) +:+ "..." +:+ newline.

Definition _build_enhanced_prompt (personality : AIPersonality.t)
    (topic context : string) (round_number : Z)
    (current_round_args : list DebateArgument.t) : string :=
  let round_context := _get_round_context round_number in
  let current_round_context :=
    match current_round_args with
    | [] => EmptyString
    | _ =>
        newline +:+ newline +:+ "Other participants in this round have said:"
        +:+ newline
        +:+ String.concat EmptyString
              (map current_round_line (last_n 2 current_round_args))
    end in
  let prompt :=
    AIPersonality.system_prompt personality +:+ newline
    +:+ newline
    +:+ "DEBATE TOPIC: " +:+ topic +:+ newline
    +:+ round_context +:+ newline
    +:+ newline
    +:+ context +:+ newline
    +:+ current_round_context +:+ newline
    +:+ newline
    +:+ "As " +:+ AIPersonality.name personality +:+ ", provide your "
    +:+ str_of_int round_number
    +:+ " argument. Be specific, compelling, and stay true to your personality. "
    +:+ newline
    +:+ "Argument:" in
  str_strip prompt.

(** [_generate_argument]; [i] is the speaker's number. *)
Definition _generate_argument (e : env) (i : nat)
    (personality : AIPersonality.t) (topic context : string)
    (round_number : Z) (current_round_args : list DebateArgument.t) : string :=
  let prompt :=
    _build_enhanced_prompt personality topic context round_number
      current_round_args in
  match generator e with
  | None => _generate_fallback_argument e i personality topic round_number
  | Some generate =>
      match generate i prompt with
      | None => _generate_fallback_argument e i personality topic round_number
      | Some generated_text =>
          let argument := str_strip (slice_from (len prompt) generated_text) in
          let argument := _clean_and_validate_argument argument in
          if len argument <? 20 then
            _generate_fallback_argument e i personality topic round_number
          else if Config.MAX_ARGUMENT_LENGTH <? len argument then
            slice_to (Config.MAX_ARGUMENT_LENGTH - 3) argument +:+ "..."
          else argument
      end
  end.

(** One iteration of the loop of [generate_debate_round]: the speaker's
    number is the number of arguments produced so far. *)
Definition speak (e : env) (now : Z) (topic previous_context : string)
    (round_number : Z) (arguments : list DebateArgument.t)
    (personality : AIPersonality.t) : list DebateArgument.t :=
  let i := length arguments in
  if raises e i then
    arguments
    ++ [_create_fallback_argument e i now personality topic round_number]
  else
    let argument_text :=
      _generate_argument e i personality topic previous_context round_number
        arguments in
    arguments
    ++ [DebateArgument.init (fresh e i) now (AIPersonality.name personality)
          argument_text round_number].

Definition generate_debate_round (e : env) (now : Z) (db : Mongo.db)
    (debate : Debate.t) (round_number : Z) : list DebateArgument.t :=
  let personalities := PersonalityService.get_debate_personalities db in
  let personalities := shuffle (shuffle_draws e) personalities in
  let previous_context := _build_context debate round_number in
  fold_left (speak e now (Debate.topic debate) previous_context round_number)
    personalities [].

End AIService.

(** ** services/debate_service.py *)

Module DebateService.

(** [DebateService(db)]: the constructor builds a [PersonalityService]. *)
Definition init (now : Z) (db : Mongo.db) : Mongo.db :=
  PersonalityService.init now db.

(** [create_debate]: [fresh] is the [ObjectId()] drawn by [Debate.__init__];
    [insert_one] raises on a duplicate [_id] and the exception is re-raised
    ([None]). *)
Definition create_debate (fresh : ObjectId.t) (now : Z) (topic : string)
    (creator_id : option string) (db : Mongo.db) : Mongo.db * option Debate.t :=
  let debate := Debate.init fresh now topic creator_id in
  let personalities := PersonalityService.get_debate_personalities db in
  let debate := Debate.set_participants (map AIPersonality.name personalities) debate in
  match Mongo.debates db !! fresh with
  | Some _ => (db, None)
  | None =>
      (Mongo.set_debates (<[fresh := Debate._dict debate]> (Mongo.debates db)) db,
       Some debate)
  end.

Definition get_debate (debate_id : string) (db : Mongo.db) : option Debate.t :=
  oid ← ObjectId.of_str debate_id;
  debate_data ← Mongo.debates db !! oid;
  Some (Debate.from_dict debate_data).

(** One conditional [update_one] on the debate, shared by the methods below:
    an invalid id raises inside the [try] and counts as no modification. *)
Definition update_debate (debate_id : string) (filter : DebateDoc.t -> bool)
    (update : DebateDoc.t -> DebateDoc.t) (db : Mongo.db) : Mongo.db * Z :=
  match ObjectId.of_str debate_id with
  | None => (db, 0)
  | Some oid =>
      let '(c, modified_count) :=
        Mongo.update_one oid filter update (Mongo.debates db) in
      (Mongo.set_debates c db, modified_count)
  end.

Definition status_is (s : Status) (doc : DebateDoc.t) : bool :=
  bool_decide (DebateDoc.status doc = s).

Definition any_doc (doc : DebateDoc.t) : bool := true.

Definition start_debate (now : Z) (debate_id : string) (db : Mongo.db)
    : Mongo.db * option Debate.t :=
  let '(db', modified_count) :=
    update_debate debate_id (status_is created)
      (DebateDoc.set_status in_progress now) db in
  if 0 <? modified_count then (db', get_debate debate_id db')
  else (db', None).

Definition add_argument (now : Z) (debate_id : string)
    (argument : DebateArgument.t) (db : Mongo.db) : Mongo.db * bool :=
  let '(db', modified_count) :=
    update_debate debate_id any_doc
      (DebateDoc.push_argument (DebateArgument._dict argument) now) db in
  (db', 0 <? modified_count).

Definition add_multiple_arguments (now : Z) (debate_id : string)
    (arguments : list DebateArgument.t) (db : Mongo.db) : Mongo.db * bool :=
  let '(db', modified_count) :=
    update_debate debate_id any_doc
      (DebateDoc.push_arguments (map DebateArgument._dict arguments) now) db in
  (db', 0 <? modified_count).

Definition update_round (now : Z) (debate_id : string) (round_number : Z)
    (db : Mongo.db) : Mongo.db * bool :=
  let '(db', modified_count) :=
    update_debate debate_id any_doc
      (DebateDoc.set_current_round round_number now) db in
  (db', 0 <? modified_count).

Definition end_debate (now : Z) (debate_id : string) (db : Mongo.db)
    : Mongo.db * bool :=
  let '(db', modified_count) :=
    update_debate debate_id any_doc (DebateDoc.set_status completed now) db in
  (db', 0 <? modified_count).

(** The loop of [judge_debate] over the other participants. *)
Definition update_losers (now : Z) (winner : string) (participants : list string)
    (db : Mongo.db) : Mongo.db :=
  fold_left
    (fun db participant =>
       if String.eqb participant winner then db
       else PersonalityService.update_personality_stats now participant false 0 db)
    participants db.

Definition judge_debate (now : Z) (debate_id winner reasoning : string)
    (judge_id : option string) (db : Mongo.db) : Mongo.db * bool :=
  let '(db1, modified_count) :=
    update_debate debate_id any_doc
      (DebateDoc.set_judged winner reasoning judge_id now) db in
  if 0 <? modified_count then
    let db2 := PersonalityService.update_personality_stats now winner true 0 db1 in
    match get_debate debate_id db2 with
    | Some debate => (update_losers now winner (Debate.participants debate) db2, true)
    | None => (db2, true)
    end
  else (db1, false).

Definition add_vote (now : Z) (debate_id personality_id voter_id : string)
    (db : Mongo.db) : Mongo.db * bool :=
  match get_debate debate_id db with
  | None => (db, false)
  | Some debate =>
      let voter_records :=
        match Debate.voter_records_attr debate with
        | None => ∅
        | Some recorded => recorded
        end in
      if FieldPath.has_key voter_id voter_records then (db, false)
      else
        let '(db', modified_count) :=
          update_debate debate_id any_doc
            (DebateDoc.record_vote personality_id voter_id now) db in
        (db', 0 <? modified_count)
  end.

Definition delete_debate (debate_id : string) (db : Mongo.db) : Mongo.db * bool :=
  match ObjectId.of_str debate_id with
  | None => (db, false)
  | Some oid =>
      match Mongo.debates db !! oid with
      | Some _ => (Mongo.set_debates (delete oid (Mongo.debates db)) db, true)
      | None => (db, false)
      end
  end.

(** The counting loops of [get_debate_analytics]:
    [counts[key] = counts.get(key, 0) + 1] for each argument in turn. *)
Definition count_by `{Countable K} (key : DebateArgument.t -> K)
    (arguments : list DebateArgument.t) : gmap K Z :=
  fold_left
    (fun counts arg => <[key arg := default 0 (counts !! key arg) + 1]> counts)
    arguments ∅.

(** The dict [get_debate_analytics] returns for a debate it finds. *)
Record analytics := mk_analytics {
  total_arguments : Z;
  arguments_by_round : gmap Z Z;
  arguments_by_personality : gmap string Z;
  total_votes : Z;
  vote_distribution : FieldPath.doc Z;
  duration_minutes : PyNum.t
}.

(** [get_debate_analytics]; [None] is the empty dict returned when the
    debate is not found. The clock counts milliseconds, the resolution at
    which the database keeps a [datetime]; [total_seconds()] divides the
    microseconds of the difference by 10^6. *)
Definition get_debate_analytics (debate_id : string) (db : Mongo.db)
    : option analytics :=
  debate ← get_debate debate_id db;
  Some {| total_arguments := Z.of_nat (length (Debate.arguments debate));
          arguments_by_round :=
            count_by DebateArgument.round_number (Debate.arguments debate);
          arguments_by_personality :=
            count_by DebateArgument.personality_id (Debate.arguments debate);
          total_votes := Debate.total_votes debate;
          vote_distribution := Debate.votes debate;
          duration_minutes :=
            match Debate.status debate with
            | completed | judged =>
                PyNum.Float
                  (PyFloat.round2
                     (PyFloat.div
                        (PyFloat.quotient
                           ((Debate.updated_at debate - Debate.created_at debate)
                            * 1000) 1000000)
                        PyFloat.sixty))
            | _ => PyNum.Int 0
            end |}.

End DebateService.

(** ** routes/api.py *)

Module api.

(** A JSON response with its status code: the error message, or the debate
    (and the arguments, for the two routes that return them) with the
    message. *)
Inductive response :=
| error (code : Z) (message : string)
| success (code : Z) (debate : Debate.t)
    (arguments : option (list DebateArgument.t)) (message : string).

(** The routes are modelled for requests whose body, where they read one,
    is a JSON object that is not empty and holds strings; the parameters
    below are the values [data.get] returns for it.

    The services the two round-generating routes build before anything
    else: [DebateService(db)] and [AIService()]; both construct a
    [PersonalityService]. The other routes build [DebateService(db)]. *)
Definition services (now : Z) (db : Mongo.db) : Mongo.db :=
  DebateService.init now (PersonalityService.init now db).

(** The loop [for arg in arguments: debate_service.add_argument(...)]. *)
Definition add_arguments (now : Z) (debate_id : string)
    (arguments : list DebateArgument.t) (db : Mongo.db) : Mongo.db :=
  fold_left (fun db arg => fst (DebateService.add_argument now debate_id arg db))
    arguments db.

(** POST /debates, from the validated and sanitized topic on. *)
Definition create_debate (fresh : ObjectId.t) (now : Z) (topic : string)
    (creator_id : option string) (db : Mongo.db) : Mongo.db * response :=
  let db := DebateService.init now db in
  match DebateService.create_debate fresh now topic creator_id db with
  | (db, Some debate) => (db, success 201 debate None "Debate created successfully")
  | (db, None) => (db, error 500 "Failed to create debate")
  end.

(** POST /debates/<debate_id>/start. The round is generated and stored by
    a worker, for which the route waits 60 seconds: when the worker is
    late, [future.result] raises and the route answers 500, while the
    worker goes on and has stored the round before the next request is
    served. *)
Definition start_debate (e : AIService.env) (now : Z) (debate_id : string)
    (db : Mongo.db) : Mongo.db * response :=
  let db := services now db in
  match DebateService.get_debate debate_id db with
  | None => (db, error 404 "Debate not found")
  | Some debate =>
      if negb (bool_decide (Debate.status debate = created)) then
        (db, error 400 "Debate has already been started or completed")
      else
        match DebateService.start_debate now debate_id db with
        | (db, None) => (db, error 500 "Failed to start debate")
        | (db, Some debate) =>
            let arguments := AIService.generate_debate_round e now db debate 1 in
            let db := add_arguments now debate_id arguments db in
            if AIService.late e then (db, error 500 "Failed to start debate")
            else (db, success 200 debate (Some arguments)
                        "Debate started successfully")
        end
  end.

(** POST /debates/<debate_id>/next-round, with the same deadline for the
    worker that generates the round and updates [current_round]. *)
Definition next_round (e : AIService.env) (now : Z) (debate_id : string)
    (db : Mongo.db) : Mongo.db * response :=
  let db := services now db in
  match DebateService.get_debate debate_id db with
  | None => (db, error 404 "Debate not found")
  | Some debate =>
      if negb (bool_decide (Debate.status debate = in_progress)) then
        (db, error 400 "Debate is not in progress")
      else
        let next_round_num := Debate.current_round debate + 1 in
        if Debate.max_rounds debate <? next_round_num then
          let db := fst (DebateService.end_debate now debate_id db) in
          match DebateService.get_debate debate_id db with
          | Some updated_debate =>
              (db, success 200 updated_debate None
                     "Debate completed - all rounds finished")
          | None => (db, error 500 "Failed to proceed to next round")
          end
        else
          let arguments :=
            AIService.generate_debate_round e now db debate next_round_num in
          let db := add_arguments now debate_id arguments db in
          let db := fst (DebateService.update_round now debate_id next_round_num db) in
          if AIService.late e then
            (db, error 500 "Failed to proceed to next round")
          else
            match DebateService.get_debate debate_id db with
            | Some updated_debate =>
                (db, success 200 updated_debate (Some arguments)
                       ("Round " +:+ PyStr.str_of_int next_round_num
                        +:+ " completed"))
            | None => (db, error 500 "Failed to proceed to next round")
            end
  end.

(** POST /debates/<debate_id>/judge; [winner_personality] is
    [data.get('winner')], [reasoning] the sanitized reasoning. *)
Definition judge_debate (now : Z) (debate_id : string)
    (winner_personality : option string) (reasoning : string)
    (judge_id : option string) (db : Mongo.db) : Mongo.db * response :=
  match winner_personality with
  | None => (db, error 400 "Winner personality is required")
  | Some winner_personality =>
      if String.eqb winner_personality EmptyString then
        (db, error 400 "Winner personality is required")
      else
        let db := DebateService.init now db in
        match DebateService.get_debate debate_id db with
        | None => (db, error 404 "Debate not found")
        | Some debate =>
            if bool_decide (Debate.status debate = judged) then
              (db, error 400 "Debate already jugded.")
            else if negb (bool_decide (Debate.status debate = completed)
                          || bool_decide (Debate.status debate = in_progress)) then
              (db, error 400 "Debate must be completed before judging")
            else if negb (bool_decide (winner_personality ∈ Debate.participants debate)) then
              (db, error 400 "Winner must be a debate participant")
            else
              match DebateService.judge_debate now debate_id winner_personality
                      reasoning judge_id db with
              | (db, true) =>
                  match DebateService.get_debate debate_id db with
                  | Some updated_debate =>
                      (db, success 200 updated_debate None "Debate judged successfully")
                  | None => (db, error 500 "Failed to judge debate")
                  end
              | (db, false) => (db, error 500 "Failed to judge debate")
              end
        end
  end.

(** POST /debates/<debate_id>/vote *)
Definition vote_on_debate (now : Z) (debate_id : string)
    (personality_id voter_id : option string) (db : Mongo.db)
    : Mongo.db * response :=
  match personality_id with
  | None => (db, error 400 "Personality ID is required")
  | Some personality_id =>
      if String.eqb personality_id EmptyString then
        (db, error 400 "Personality ID is required")
      else
        let voter_id := default "anonymous" voter_id in
        let db := DebateService.init now db in
        match DebateService.add_vote now debate_id personality_id voter_id db with
        | (db, true) =>
            match DebateService.get_debate debate_id db with
            | Some updated_debate =>
                (db, success 200 updated_debate None "Vote recorded successfully")
            | None => (db, error 500 "Failed to record vote")
            end
        | (db, false) => (db, error 500 "Failed to record vote")
        end
  end.

(** The requests that change the store, and a server handling them one
    after the other. *)
Inductive request :=
| CreateDebate (fresh : ObjectId.t) (topic : string) (creator_id : option string)
| StartDebate (e : AIService.env) (debate_id : string)
| NextRound (e : AIService.env) (debate_id : string)
| JudgeDebate (debate_id : string) (winner : option string) (reasoning : string)
    (judge_id : option string)
| VoteOnDebate (debate_id : string) (personality_id voter_id : option string).

Definition handle (now : Z) (r : request) (db : Mongo.db) : Mongo.db * response :=
  match r with
  | CreateDebate fresh topic creator_id => create_debate fresh now topic creator_id db
  | StartDebate e debate_id => start_debate e now debate_id db
  | NextRound e debate_id => next_round e now debate_id db
  | JudgeDebate debate_id winner reasoning judge_id =>
      judge_debate now debate_id winner reasoning judge_id db
  | VoteOnDebate debate_id personality_id voter_id =>
      vote_on_debate now debate_id personality_id voter_id db
  end.

(** The requests arrive with the time at which they are served. *)
Fixpoint serve (requests : list (Z * request)) (db : Mongo.db)
    : Mongo.db * list response :=
  match requests with
  | [] => (db, [])
  | (now, r) :: rest =>
      let '(db1, resp) := handle now r db in
      let '(db2, resps) := serve rest db1 in
      (db2, resp :: resps)
  end.

End api.

(** ** Two clients starting one debate at the same time *)

Module Concurrent.

(** [DebateService.start_debate] reaches the store twice: the conditional
    [update_one] and, when that modified the document, the [find_one] of
    [get_debate]. The store serves each access atomically; a client is
    before its update, before its read, or has returned. *)
Inductive pc :=
| at_update
| at_read
| returned (result : option Debate.t).

Definition client_step (now : Z) (debate_id : string) (p : pc) (db : Mongo.db)
    : pc * Mongo.db :=
  match p with
  | at_update =>
      let '(db', modified_count) :=
        DebateService.update_debate debate_id (DebateService.status_is created)
          (DebateDoc.set_status in_progress now) db in
      (if 0 <? modified_count then at_read else returned None, db')
  | at_read => (returned (DebateService.get_debate debate_id db), db)
  | returned result => (returned result, db)
  end.

(** Two clients and the store they share. *)
Record config := mk {
  first : pc;
  second : pc;
  store : Mongo.db
}.

(** The scheduler lets the first ([true]) or the second ([false]) client
    take its next step. *)
Definition step (now1 now2 : Z) (debate_id : string) (c : config) (who : bool)
    : config :=
  if who then
    let '(p, db) := client_step now1 debate_id (first c) (store c) in
    {| first := p; second := second c; store := db |}
  else
    let '(p, db) := client_step now2 debate_id (second c) (store c) in
    {| first := first c; second := p; store := db |}.

Definition run (now1 now2 : Z) (debate_id : string) (schedule : list bool)
    (db : Mongo.db) : config :=
  fold_left (step now1 now2 debate_id) schedule
    {| first := at_update; second := at_update; store := db |}.

(** The call returned the started debate. *)
Definition succeeded (p : pc) : bool :=
  match p with
  | returned (Some _) => true
  | _ => false
  end.

End Concurrent.

(** ** Vocabulary of the properties *)

(** The stored status of the debate a request names, if there is one. *)
Definition status_at (debate_id : string) (db : Mongo.db) : option Status :=
  oid ← ObjectId.of_str debate_id;
  doc ← Mongo.debates db !! oid;
  Some (DebateDoc.status doc).

(** The sum of the values of a dict of counters. *)
Definition sum_counts `{Countable K} (counts : gmap K Z) : Z :=
  map_fold (fun _ count acc => count + acc) 0 counts.








(** A client of [Concurrent] holds the debate once its update has modified
    the document. *)
Definition holds (p : Concurrent.pc) : bool :=
  match p with
  | Concurrent.at_update => false
  | Concurrent.at_read => true
  | Concurrent.returned result => bool_decide (is_Some result)
  end.

(** At most one client holds the debate, and while one does the stored
    status is no longer [created]. *)
Definition exclusive (debate_id : string) (c : Concurrent.config) : Prop :=
  (holds (Concurrent.first c) && holds (Concurrent.second c) = false)
  /\ (holds (Concurrent.first c) || holds (Concurrent.second c) = true ->
      status_at debate_id (Concurrent.store c) <> Some created).

(** What judging writes: the status with the winner and the judge's
    fields. *)
Definition verdict (doc : DebateDoc.t)
    : Status * option string * option string * option string :=
  (DebateDoc.status doc, DebateDoc.winner doc, DebateDoc.judge_decision doc,
   DebateDoc.judge_id doc).

Definition verdict_at (debate_id : string) (db : Mongo.db) :=
  oid ← ObjectId.of_str debate_id;
  doc ← Mongo.debates db !! oid;
  Some (verdict doc).

(** A judge request that was answered with success. *)
Definition judgement (r : api.request) (resp : api.response) : bool :=
  match r, resp with
  | api.JudgeDebate _ _ _ _, api.success _ _ _ _ => true
  | _, _ => false
  end.

(** The same, for the debate with the given ObjectId. *)
Definition judgement_of (oid : ObjectId.t) (r : api.request)
    (resp : api.response) : bool :=
  match r with
  | api.JudgeDebate debate_id _ _ _ =>
      judgement r resp && bool_decide (ObjectId.of_str debate_id = Some oid)
  | _ => false
  end.

(** The number of successful judgements of a debate among the requests
    served. *)
Fixpoint judgements (oid : ObjectId.t) (requests : list (Z * api.request))
    (responses : list api.response) : nat :=
  match requests, responses with
  | (_, r) :: requests, resp :: responses =>
      ((if judgement_of oid r resp then 1 else 0)
       + judgements oid requests responses)%nat
  | _, _ => 0%nat
  end.

(** Every judged debate of the first store is in the second with the same
    verdict. *)
Definition keeps_verdicts (db db' : Mongo.db) : Prop :=
  forall oid doc,
    Mongo.debates db !! oid = Some doc -> DebateDoc.status doc = judged ->
    exists doc', Mongo.debates db' !! oid = Some doc' /\ verdict doc' = verdict doc.

(** The text ends with ['.'], ['!'] or ['?']. *)
Definition ends_with_terminal (s : string) : bool :=
  PyStr.endswith_terminal (PyStr.to_chars s).

(** Whitespace is collapsed: every whitespace character is a plain space
    and is not followed by another whitespace character. *)
Fixpoint collapsed (l : PyStr.chars) : bool :=
  match l with
  | [] => true
  | c :: r =>
      (if PyStr.isspace c then
         PyStr.is_char 32 c
         && match r with
            | c2 :: _ => negb (PyStr.isspace c2)
            | [] => true
            end
       else true)
      && collapsed r
  end.

Definition whitespace_collapsed (s : string) : bool :=
  collapsed (PyStr.to_chars s).

(** The text starts with a whitespace character. *)
Definition starts_with_space (l : PyStr.chars) : bool :=
  match l with
  | c :: _ => PyStr.isspace c
  | [] => false
  end.

(** What every fallback text satisfies: a terminal mark at the end and at
    least 20 characters. *)
Definition closed_and_long (s : string) : Prop :=
  ends_with_terminal s = true /\ 20 <= PyStr.len s.

(** The names of the registered personalities, in the order of the
    collection. *)
Definition registry_names (db : Mongo.db) : list string :=
  map PersonalityDoc.name (Mongo.personalities db).

(** The debate's participants are the given names and each of its
    arguments is by one of them. *)
Definition roster_ok (names : list string) (doc : DebateDoc.t) : Prop :=
  DebateDoc.participants doc = names
  /\ Forall (fun a => DebateArgument.personality_id a ∈ names)
       (DebateDoc.arguments doc).

(** Every stored debate satisfies the property. *)
Definition docs_all (P : DebateDoc.t -> Prop) (db : Mongo.db) : Prop :=
  forall oid doc, Mongo.debates db !! oid = Some doc -> P doc.

(** The registry has the given names, not none, and every debate has them
    as its roster. *)
Definition rostered (names : list string) (db : Mongo.db) : Prop :=
  registry_names db = names /\ names <> [] /\ docs_all (roster_ok names) db.

(** Every debate's roster is the current registry. *)
Definition rosters_match_registry (db : Mongo.db) : Prop :=
  docs_all (fun doc => registry_names db <> []
                       /\ roster_ok (registry_names db) doc) db.

(** ** The life of one debate, as the routes drive it *)

Module Lifecycle.

(** What a request can do to the debate it names. *)
Inductive event :=
| started (arguments : list DebateArgument.t)
| advanced (arguments : list DebateArgument.t)
| ended
| judged_with (winner reasoning : string) (judge_id : option string)
| voted (personality_id voter_id : string).

(** The arguments pushed one by one, as [api.add_arguments] does. *)
Definition appended (arguments : list DebateArgument.t) (now : Z)
    (doc : DebateDoc.t) : DebateDoc.t :=
  fold_left (fun doc a => DebateDoc.push_argument a now doc) arguments doc.

Definition apply (now : Z) (ev : event) (doc : DebateDoc.t) : DebateDoc.t :=
  match ev with
  | started arguments =>
      appended arguments now (DebateDoc.set_status in_progress now doc)
  | advanced arguments =>
      DebateDoc.set_current_round (DebateDoc.current_round doc + 1) now
        (appended arguments now doc)
  | ended => DebateDoc.set_status completed now doc
  | judged_with winner reasoning judge_id =>
      DebateDoc.set_judged winner reasoning judge_id now doc
  | voted personality_id voter_id =>
      DebateDoc.record_vote personality_id voter_id now doc
  end.

(** One round: an argument by each of the names, all for round [r]. *)
Definition round_of (names : list string) (r : Z)
    (arguments : list DebateArgument.t) : Prop :=
  map DebateArgument.personality_id arguments ≡ₚ names
  /\ Forall (fun a => DebateArgument.round_number a = r) arguments.

(** When the routes let the event happen; [names] is the registry at that
    time. *)
Definition enabled (names : list string) (ev : event) (doc : DebateDoc.t) : Prop :=
  match ev with
  | started arguments =>
      DebateDoc.status doc = created /\ round_of names 1 arguments
  | advanced arguments =>
      DebateDoc.status doc = in_progress
      /\ DebateDoc.current_round doc + 1 <= DebateDoc.max_rounds doc
      /\ round_of names (DebateDoc.current_round doc + 1) arguments
  | ended =>
      DebateDoc.status doc = in_progress
      /\ DebateDoc.max_rounds doc < DebateDoc.current_round doc + 1
  | judged_with winner _ _ =>
      (DebateDoc.status doc = in_progress \/ DebateDoc.status doc = completed)
      /\ winner <> EmptyString /\ winner ∈ DebateDoc.participants doc
  | voted personality_id voter_id =>
      personality_id <> EmptyString
      /\ is_Some (DebateDoc.vote_fields personality_id voter_id doc)
  end.

(** The document [Debate(topic, creator_id)._dict()] with the roster. *)
Definition fresh_doc (fresh : ObjectId.t) (now : Z) (topic : string)
    (creator_id : option string) (names : list string) : DebateDoc.t :=
  Debate._dict
    (Debate.set_participants names (Debate.init fresh now topic creator_id)).

Definition rank (s : Status) : Z :=
  match s with
  | created => 0
  | in_progress => 1
  | completed => 2
  | judged => 3
  end.

(** The second document is a later state of the first. *)
Definition evolves (doc doc' : DebateDoc.t) : Prop :=
  DebateDoc._id doc' = DebateDoc._id doc
  /\ DebateDoc.topic doc' = DebateDoc.topic doc
  /\ DebateDoc.creator_id doc' = DebateDoc.creator_id doc
  /\ DebateDoc.created_at doc' = DebateDoc.created_at doc
  /\ DebateDoc.participants doc' = DebateDoc.participants doc
  /\ DebateDoc.max_rounds doc' = DebateDoc.max_rounds doc
  /\ rank (DebateDoc.status doc) <= rank (DebateDoc.status doc')
  /\ DebateDoc.arguments doc `prefix_of` DebateDoc.arguments doc'
  /\ DebateDoc.current_round doc <= DebateDoc.current_round doc'
  /\ DebateDoc.total_votes doc <= DebateDoc.total_votes doc'.

(** The arguments of the debate for round [k], as
    [Debate.get_arguments_by_round] selects them. *)
Definition in_round (k : Z) (doc : DebateDoc.t) : list DebateArgument.t :=
  List.filter (fun a => DebateArgument.round_number a =? k)
    (DebateDoc.arguments doc).

(** Rounds are complete: the current round is within bounds; a created
    debate has no argument; a started one has, for each round up to the
    current one, exactly one argument per name, and no other argument. *)
Definition rounds_complete (names : list string) (doc : DebateDoc.t) : Prop :=
  1 <= DebateDoc.current_round doc <= DebateDoc.max_rounds doc
  /\ Forall (fun a => 1 <= DebateArgument.round_number a
                           <= DebateDoc.current_round doc)
       (DebateDoc.arguments doc)
  /\ (DebateDoc.status doc = created ->
      DebateDoc.arguments doc = [] /\ DebateDoc.current_round doc = 1)
  /\ (DebateDoc.status doc <> created ->
      (forall k, 1 <= k <= DebateDoc.current_round doc ->
         map DebateArgument.personality_id (in_round k doc) ≡ₚ names)
      /\ Z.of_nat (length (DebateDoc.arguments doc))
         = Z.of_nat (length names) * DebateDoc.current_round doc).

End Lifecycle.

(** What a request does to the debates: nothing, one enabled event on one
    stored debate, or the insertion of a new debate. [names] is the registry
    the request works with. *)
Definition acts_as (names : list string) (now : Z) (before after : Mongo.db)
    : Prop :=
  Mongo.debates after = Mongo.debates before
  \/ (exists oid doc ev,
        Mongo.debates before !! oid = Some doc
        /\ Lifecycle.enabled names ev doc
        /\ Mongo.debates after
           = <[oid := Lifecycle.apply now ev doc]> (Mongo.debates before))
  \/ (exists fresh topic creator_id,
        Mongo.debates before !! fresh = None
        /\ Mongo.debates after
           = <[fresh := Lifecycle.fresh_doc fresh now topic creator_id names]>
               (Mongo.debates before)).

(** Every debate has the registry as its roster and complete rounds. *)
Definition well_run (db : Mongo.db) : Prop :=
  rosters_match_registry db
  /\ docs_all (Lifecycle.rounds_complete (registry_names db)) db.

(** A zero, a finite number or an infinity of the given sign. *)
Definition signed (sx : bool) (x : spec_float) : Prop :=
  match x with
  | S754_zero s | S754_infinity s | S754_finite s _ _ => s = sx
  | S754_nan => False
  end.

(** The average is the float [0.0] or the int [0]. *)
Definition no_votes (a : PyNum.t) : Prop :=
  a = PyNum.Float PyFloat.zero \/ a = PyNum.Int 0.

(** The running average as the specification states it,
    [(old_avg * old_n + votes_received) / new_n] with [new_n = old_n + 1],
    evaluated as Python evaluates the expression; [None] is an exception of
    the arithmetic. *)
Definition running_average (old_avg : PyNum.t) (old_n votes_received : Z)
    : option PyNum.t :=
  product ← PyNum.mul old_avg (PyNum.Int old_n);
  total ← PyNum.add product (PyNum.Int votes_received);
  PyNum.truediv total (PyNum.Int (old_n + 1)).

(** The statistics of a personality whose debates were all recorded without
    votes: one argument per debate, wins within the debates, an average
    that is still zero (the float 0.0 it starts with or the int 0 of the
    first update) and the stored win rate at its initial 0.0. *)
Definition stats_in_step (p : PersonalityDoc.t) : Prop :=
  0 <= PersonalityDoc.wins p <= PersonalityDoc.total_debates p
  /\ PersonalityDoc.total_arguments p = PersonalityDoc.total_debates p
  /\ no_votes (PersonalityDoc.average_votes p)
  /\ PersonalityDoc.win_rate p = PyFloat.zero.

(** The items of the pages [first], [first + 1], ... ([count] of them) one
    after the other; a page that cannot be computed contributes nothing. *)
Fixpoint pages_from {A} (items : list A) (per_page : Z) (first : Z)
    (count : nat) : list A :=
  match count with
  | O => []
  | S count =>
      match helpers.paginate_results items first per_page with
      | Some p => helpers.items p
      | None => []
      end ++ pages_from items per_page (first + 1) count
  end.

(** A character that [sanitize_input] never lets through: an angle
    bracket, a quote mark, or one of the control characters it removes. *)
Definition unsafe_char (c : ascii) : bool :=
  PyStr.is_char 60 c || PyStr.is_char 62 c || PyStr.isquote c
  || Sanitize.iscontrol c.

(** The text ends with a whitespace character. *)
Definition ends_with_space (l : PyStr.chars) : bool :=
  match last l with Some c => PyStr.isspace c | None => false end.

(** ** Concrete stores and inputs used by the examples *)

Definition example_id : string := "507f1f77bcf86cd799439011".

Definition example_oid : ObjectId.t :=
  Eval vm_compute in default 0%N (ObjectId.of_str example_id).

Definition example_topic : string :=
  "Should autonomous vehicles replace all human drivers?".

(** An [AIService] whose models all failed to load; every draw is 0, and
    the rounds are ready in time. *)
Definition offline_env : AIService.env :=
  AIService.mk_env None (fun _ => 0%nat) [] (fun i => N.of_nat i)
    (fun _ => false) false.

(** The same service, too slow for the deadline of the routes. *)
Definition slow_env : AIService.env :=
  AIService.mk_env None (fun _ => 0%nat) [] (fun i => N.of_nat i)
    (fun _ => false) true.

(** The database of a fresh deployment. *)
Definition empty_db : Mongo.db := Mongo.mk ∅ [].

(** After POST /debates on the fresh deployment. *)
Definition created_db : Mongo.db :=
  fst (api.create_debate example_oid 1 example_topic None empty_db).

(** After POST /debates/<id>/start. *)
Definition started_db : Mongo.db :=
  fst (api.start_debate offline_env 2 example_id created_db).


(** The started debate moved to its third and last round. *)
Definition last_round_db : Mongo.db :=
  fst (DebateService.update_round 8 example_id 3 started_db).

Definition stored (db : Mongo.db) : DebateDoc.t :=
  default (Debate._dict (Debate.init 0%N 0 EmptyString None))
    (Mongo.debates db !! example_oid).



(** The example debate judged through the API, after its three rounds. *)
Definition judged_db : Mongo.db :=
  fst (api.serve
         [(3, api.NextRound offline_env example_id);
          (4, api.NextRound offline_env example_id);
          (5, api.NextRound offline_env example_id);
          (6, api.JudgeDebate example_id (Some "The Scientist") "Sound evidence."
                (Some "judge-1"))]
         started_db).

(** A debate created, run through its three rounds, voted on and judged. *)
Definition scenario : list (Z * api.request) :=
  [(1, api.CreateDebate example_oid example_topic None);
   (2, api.StartDebate offline_env example_id);
   (3, api.NextRound offline_env example_id);
   (4, api.VoteOnDebate example_id (Some "The Historian") (Some "bob"));
   (5, api.NextRound offline_env example_id);
   (6, api.NextRound offline_env example_id);
   (7, api.JudgeDebate example_id (Some "The Historian") "Best sources." None)].

Definition scenario_db : Mongo.db := fst (api.serve scenario empty_db).

(** * Properties *)

(** ** The store *)

Section update_debate.

Context (debate_id : string) (filter : DebateDoc.t -> bool)
  (update : DebateDoc.t -> DebateDoc.t).

Lemma update_debate_personalities db :
  Mongo.personalities (fst (DebateService.update_debate debate_id filter update db))
  = Mongo.personalities db.
Proof.
  unfold DebateService.update_debate.
  destruct (ObjectId.of_str debate_id); [|done].
  by destruct (Mongo.update_one _ _ _ _).
Qed.

(** The documents after the update: the addressed one is rewritten when it
    passes the filter, every other one is kept. *)
Lemma update_debate_lookup db oid :
  Mongo.debates (fst (DebateService.update_debate debate_id filter update db)) !! oid
  = match Mongo.debates db !! oid with
    | Some doc =>
        if bool_decide (ObjectId.of_str debate_id = Some oid) && filter doc
        then Some (update doc) else Some doc
    | None => None
    end.
Proof.
  unfold DebateService.update_debate.
  destruct (ObjectId.of_str debate_id) as [oid'|] eqn:Hid; simpl.
  - unfold Mongo.update_one.
    destruct (decide (oid' = oid)) as [->|Hne].
    + rewrite bool_decide_eq_true_2 by done.
      destruct (Mongo.debates db !! oid) as [doc|] eqn:Hdoc; simpl; [|by rewrite Hdoc].
      destruct (filter doc); simpl; [|done]. by rewrite lookup_insert_eq.
    + rewrite bool_decide_eq_false_2 by congruence.
      destruct (Mongo.debates db !! oid') as [doc'|] eqn:Hdoc'; simpl.
      * destruct (filter doc'); simpl; [rewrite lookup_insert_ne by done|];
          by destruct (Mongo.debates db !! oid).
      * by destruct (Mongo.debates db !! oid).
  - by destruct (Mongo.debates db !! oid).
Qed.

Lemma update_debate_modified db :
  (0 <? snd (DebateService.update_debate debate_id filter update db)) = true ->
  exists oid doc,
    ObjectId.of_str debate_id = Some oid /\ Mongo.debates db !! oid = Some doc
    /\ filter doc = true /\ update doc <> doc.
Proof.
  unfold DebateService.update_debate.
  destruct (ObjectId.of_str debate_id) as [oid|]; simpl; [|done].
  unfold Mongo.update_one.
  destruct (Mongo.debates db !! oid) as [doc|] eqn:Hdoc; simpl; [|done].
  destruct (filter doc) eqn:Hf; simpl; [|done].
  destruct (decide (update doc = doc)); simpl; [done|].
  intros _. by exists oid, doc.
Qed.

Lemma update_debate_hit db oid doc :
  ObjectId.of_str debate_id = Some oid -> Mongo.debates db !! oid = Some doc ->
  filter doc = true -> update doc <> doc ->
  DebateService.update_debate debate_id filter update db
  = (Mongo.set_debates (<[oid := update doc]> (Mongo.debates db)) db, 1).
Proof.
  intros Hid Hdoc Hf Hne. unfold DebateService.update_debate, Mongo.update_one.
  rewrite Hid, Hdoc, Hf. by destruct (decide (update doc = doc)).
Qed.

Lemma update_debate_miss db :
  (forall oid doc, ObjectId.of_str debate_id = Some oid ->
     Mongo.debates db !! oid = Some doc -> filter doc = false) ->
  DebateService.update_debate debate_id filter update db = (db, 0).
Proof.
  intros Hmiss. unfold DebateService.update_debate, Mongo.update_one.
  destruct (ObjectId.of_str debate_id) as [oid|] eqn:Hid; [|done].
  destruct (Mongo.debates db !! oid) as [doc|] eqn:Hdoc.
  - rewrite (Hmiss oid doc eq_refl Hdoc). by destruct db.
  - by destruct db.
Qed.

End update_debate.

Lemma get_debate_lookup debate_id db oid :
  ObjectId.of_str debate_id = Some oid ->
  DebateService.get_debate debate_id db
  = Debate.from_dict <$> Mongo.debates db !! oid.
Proof.
  intros Hid. unfold DebateService.get_debate. rewrite Hid. simpl.
  by destruct (Mongo.debates db !! oid).
Qed.

(** A property of every stored debate is kept by an update that keeps it. *)
Lemma update_debate_docs_all (P : DebateDoc.t -> Prop) debate_id filter update db :
  (forall doc, P doc -> filter doc = true -> P (update doc)) ->
  docs_all P db ->
  docs_all P (fst (DebateService.update_debate debate_id filter update db)).
Proof.
  intros Hupd Hall oid doc. rewrite update_debate_lookup.
  destruct (Mongo.debates db !! oid) as [doc0|] eqn:Hdoc0; [|done].
  specialize (Hall oid doc0 Hdoc0).
  destruct (bool_decide _); simpl; [|by intros [= <-]].
  destruct (filter doc0) eqn:Hf; intros [= <-]; auto.
Qed.

(** ** Counters *)

Section counters.

Context `{Countable K}.

Lemma sum_counts_empty : sum_counts (∅ : gmap K Z) = 0.
Proof. apply map_fold_empty. Qed.

(** One more for a key raises the sum by one, whether the key was counted
    before or not. *)
Lemma sum_counts_inc (counts : gmap K Z) k :
  sum_counts (<[k := default 0 (counts !! k) + 1]> counts) = sum_counts counts + 1.
Proof.
  unfold sum_counts. destruct (counts !! k) as [count|] eqn:Hk; simpl.
  - rewrite <- insert_delete_eq.
    rewrite map_fold_insert_L; [|intros; lia|apply lookup_delete_eq].
    rewrite (map_fold_delete_L _ _ k count counts); [lia|intros; lia|done].
  - rewrite map_fold_insert_L; [lia|intros; lia|done].
Qed.

End counters.

(** ** Update paths *)

Section paths.

Context {A : Type}.
Implicit Types d : gmap (list string) A.

Lemma elem_of_paths d key : key ∈ FieldPath.paths d <-> is_Some (d !! key).
Proof.
  unfold FieldPath.paths. rewrite list_elem_of_fmap. split.
  - intros ([k v] & -> & Hkv). apply (elem_of_map_to_list d k v) in Hkv. eauto.
  - intros [v Hv]. exists (key, v). split; [done|].
    by apply (elem_of_map_to_list d key v).
Qed.

Lemma existsb_paths_false (f : list string -> bool) d :
  (forall key v, d !! key = Some v -> f key = false) ->
  existsb f (FieldPath.paths d) = false.
Proof.
  intros Hf. destruct (existsb f (FieldPath.paths d)) eqn:Hex; [|done].
  apply existsb_exists in Hex as (key & Hin & Hkey).
  apply list_elem_of_In, elem_of_paths in Hin as [v Hv].
  by rewrite (Hf key v Hv) in Hkey.
Qed.




Lemma flat_not_blocked name d :
  FieldPath.flat d -> FieldPath.blocked [name] d = false.
Proof.
  intros Hflat. apply existsb_paths_false. intros key v Hv.
  destruct (Hflat key v Hv) as [k ->]. unfold FieldPath.proper_prefix.
  apply bool_decide_eq_false. intros [Hne [rest Hrest]].
  simpl in Hrest. congruence.
Qed.

Lemma flat_not_document name d :
  FieldPath.flat d -> FieldPath.is_document [name] d = false.
Proof.
  intros Hflat. apply existsb_paths_false. intros key v Hv.
  destruct (Hflat key v Hv) as [k ->]. unfold FieldPath.proper_prefix.
  apply bool_decide_eq_false. intros [Hne [rest Hrest]].
  simpl in Hrest. injection Hrest as -> Hrest. done.
Qed.

Lemma plain_segments name :
  FieldPath.plain name = true ->
  FieldPath.segments name = [name] /\ FieldPath.valid_segment name = true.
Proof.
  unfold FieldPath.plain. intros [Hs Hv]%andb_prop.
  by apply bool_decide_eq_true in Hs.
Qed.

(** A plain name on a flat document: the value is written at the name. *)
Lemma set_plain name (v : A) d :
  FieldPath.plain name = true -> FieldPath.flat d ->
  FieldPath.set name v d = Some (<[[name] := v]> d).
Proof.
  intros [Hs Hv]%plain_segments Hflat. unfold FieldPath.set.
  rewrite Hs. cbn [forallb]. rewrite Hv, (flat_not_blocked name d Hflat). simpl.
  f_equal. apply map_eq. intros path.
  destruct (decide (path = [name])) as [->|Hne].
  - by rewrite !lookup_insert_eq.
  - rewrite !lookup_insert_ne by done.
    destruct (d !! path) as [w|] eqn:Hw.
    + apply map_lookup_filter_Some. split; [done|]. simpl.
      destruct (Hflat path w Hw) as [k ->]. intros [rest Hrest].
      simpl in Hrest. congruence.
    + apply map_lookup_filter_None. left. done.
Qed.

End paths.

Lemma inc_plain (name : string) (d : FieldPath.doc Z) :
  FieldPath.plain name = true -> FieldPath.flat d ->
  FieldPath.inc name d = Some (<[[name] := default 0 (d !! [name]) + 1]> d).
Proof.
  intros [Hs Hv]%plain_segments Hflat. unfold FieldPath.inc.
  rewrite Hs. cbn [forallb].
  by rewrite Hv, (flat_not_blocked name d Hflat), (flat_not_document name d Hflat).
Qed.

(** ** Votes *)



(** What the update of a vote with plain ids writes to a document with
    flat votes. *)
Lemma vote_fields_plain personality_id voter_id doc :
  FieldPath.plain personality_id = true -> FieldPath.plain voter_id = true ->
  FieldPath.flat (DebateDoc.votes doc) ->
  FieldPath.flat (DebateDoc.voter_records doc) ->
  DebateDoc.vote_fields personality_id voter_id doc
  = Some (<[[personality_id] :=
              default 0 (DebateDoc.votes doc !! [personality_id]) + 1]>
            (DebateDoc.votes doc),
          <[[voter_id] := personality_id]> (DebateDoc.voter_records doc)).
Proof.
  intros Hp Hv Hvotes Hrecords. unfold DebateDoc.vote_fields.
  rewrite (inc_plain _ _ Hp Hvotes). simpl.
  by rewrite (set_plain _ _ _ Hv Hrecords).
Qed.

Lemma vote_update_changes personality_id voter_id now doc doc' :
  DebateDoc.vote_update personality_id voter_id now doc = Some doc' -> doc' <> doc.
Proof.
  unfold DebateDoc.vote_update.
  destruct (DebateDoc.vote_fields personality_id voter_id doc); simpl; [|done].
  intros [= <-] Heq. apply (f_equal DebateDoc.total_votes) in Heq.
  simpl in Heq. lia.
Qed.

(** What [add_vote] does on an existing debate, whoever the voter is: the
    instance read back by [get_debate] has no [voter_records] attribute, so
    the membership test runs on an empty dict and the update is sent; the
    vote is recorded unless the server refuses the update. *)
Lemma add_vote_existing now debate_id personality_id voter_id db oid doc :
  ObjectId.of_str debate_id = Some oid ->
  Mongo.debates db !! oid = Some doc ->
  DebateService.add_vote now debate_id personality_id voter_id db
  = match DebateDoc.vote_update personality_id voter_id now doc with
    | Some doc' =>
        (Mongo.set_debates (<[oid := doc']> (Mongo.debates db)) db, true)
    | None => (db, false)
    end.
Proof.
  intros Hid Hdoc. unfold DebateService.add_vote.
  rewrite (get_debate_lookup _ _ _ Hid), Hdoc. simpl.
  unfold DebateService.update_debate, Mongo.update_one. rewrite Hid, Hdoc. simpl.
  unfold DebateDoc.record_vote.
  destruct (DebateDoc.vote_update personality_id voter_id now doc) as [doc'|]
    eqn:Hupdate; simpl.
  - destruct (decide (doc' = doc)) as [Heq|_]; [|done].
    by apply vote_update_changes in Hupdate.
  - destruct (decide (doc = doc)); [|done]. simpl.
    rewrite insert_id by done. by destruct db.
Qed.


Lemma add_vote_missing now debate_id personality_id voter_id db :
  DebateService.get_debate debate_id db = None ->
  DebateService.add_vote now debate_id personality_id voter_id db = (db, false).
Proof. intros Hnone. unfold DebateService.add_vote. by rewrite Hnone. Qed.

(** ** The invariant [total_votes == sum(votes.values())] *)





Lemma update_personality_stats_debates now name won votes_received db :
  Mongo.debates (PersonalityService.update_personality_stats now name won votes_received db)
  = Mongo.debates db.
Proof.
  unfold PersonalityService.update_personality_stats.
  by destruct (Mongo.find_one_by_name _ _).
Qed.

Lemma personality_service_debates now db :
  Mongo.debates (PersonalityService.init now db) = Mongo.debates db.
Proof.
  unfold PersonalityService.init, PersonalityService._initialize_personalities.
  destruct (_ =? _)%nat; [|done]. by destruct (mapM _ _).
Qed.

Lemma update_losers_debates now winner participants db :
  Mongo.debates (DebateService.update_losers now winner participants db)
  = Mongo.debates db.
Proof.
  unfold DebateService.update_losers. revert db.
  induction participants as [|p ps IH]; intros db; simpl; [done|].
  rewrite IH. destruct (String.eqb p winner); [done|].
  apply update_personality_stats_debates.
Qed.



(** ** Routes: the services they construct *)

Lemma debate_service_debates now db :
  Mongo.debates (DebateService.init now db) = Mongo.debates db.
Proof. apply personality_service_debates. Qed.

Lemma services_debates now db :
  Mongo.debates (api.services now db) = Mongo.debates db.
Proof.
  unfold api.services.
  by rewrite debate_service_debates, personality_service_debates.
Qed.

(** Seeding only happens on an empty collection. *)
Lemma personality_service_seeded now db :
  Mongo.personalities db <> [] -> PersonalityService.init now db = db.
Proof.
  unfold PersonalityService.init, PersonalityService._initialize_personalities.
  destruct db as [debates [|p ps]]; simpl; done.
Qed.

Lemma services_seeded now db :
  Mongo.personalities db <> [] -> api.services now db = db.
Proof.
  intros Hne. unfold api.services, DebateService.init.
  rewrite (personality_service_seeded now db Hne).
  apply (personality_service_seeded now db Hne).
Qed.

(** The store a route leaves does not depend on the answer it gives. *)
Lemma fst_if {A B} (b : bool) (x : A) (y z : B) :
  fst (if b then (x, y) else (x, z)) = x.
Proof. by destruct b. Qed.

(** ** Starting a debate *)

Lemma status_at_lookup debate_id db oid :
  ObjectId.of_str debate_id = Some oid ->
  status_at debate_id db = DebateDoc.status <$> Mongo.debates db !! oid.
Proof.
  intros Hid. unfold status_at. rewrite Hid. simpl.
  by destruct (Mongo.debates db !! oid).
Qed.

Lemma status_at_get_debate debate_id db :
  status_at debate_id db = Debate.status <$> DebateService.get_debate debate_id db.
Proof.
  unfold status_at, DebateService.get_debate.
  destruct (ObjectId.of_str debate_id) as [oid|]; simpl; [|done].
  by destruct (Mongo.debates db !! oid).
Qed.

Lemma status_at_services now debate_id db :
  status_at debate_id (api.services now db) = status_at debate_id db.
Proof. unfold status_at. by rewrite services_debates. Qed.

(** The conditional update of [start_debate] modifies the document exactly
    when its stored status is [created]. *)
Lemma start_update_created now debate_id db :
  status_at debate_id db = Some created ->
  exists oid doc,
    ObjectId.of_str debate_id = Some oid /\ Mongo.debates db !! oid = Some doc
    /\ DebateService.update_debate debate_id (DebateService.status_is created)
         (DebateDoc.set_status in_progress now) db
       = (Mongo.set_debates
            (<[oid := DebateDoc.set_status in_progress now doc]> (Mongo.debates db))
            db, 1).
Proof.
  unfold status_at. intros Hst.
  destruct (ObjectId.of_str debate_id) as [oid|] eqn:Hid; simpl in Hst; [|done].
  destruct (Mongo.debates db !! oid) as [doc|] eqn:Hdoc; simpl in Hst; [|done].
  injection Hst as Hst. exists oid, doc. split; [done|]. split; [done|].
  apply update_debate_hit; [done|done| |].
  - unfold DebateService.status_is. by rewrite bool_decide_eq_true.
  - intros Heq. apply (f_equal DebateDoc.status) in Heq. simpl in Heq. congruence.
Qed.

Lemma start_update_not_created now debate_id db :
  status_at debate_id db <> Some created ->
  DebateService.update_debate debate_id (DebateService.status_is created)
    (DebateDoc.set_status in_progress now) db
  = (db, 0).
Proof.
  intros Hst. apply update_debate_miss. intros oid doc Hid Hdoc.
  unfold DebateService.status_is. apply bool_decide_eq_false. intros Hcreated.
  apply Hst. rewrite (status_at_lookup _ _ _ Hid), Hdoc. simpl. by rewrite Hcreated.
Qed.

Lemma status_at_after_start now debate_id db oid doc :
  ObjectId.of_str debate_id = Some oid ->
  status_at debate_id
    (Mongo.set_debates
       (<[oid := DebateDoc.set_status in_progress now doc]> (Mongo.debates db)) db)
  = Some in_progress.
Proof.
  intros Hid. rewrite (status_at_lookup _ _ _ Hid). simpl.
  by rewrite lookup_insert_eq.
Qed.

(** *** Interleavings of two clients *)

Section interleaving.

Context (now1 now2 : Z) (debate_id : string).

Lemma client_step_holds now p db :
  let '(p', db') := Concurrent.client_step now debate_id p db in
  (holds p = true -> db' = db)
  /\ (holds p = false ->
      (holds p' = false /\ db' = db
       /\ (p = Concurrent.at_update -> status_at debate_id db <> Some created))
      \/ (holds p' = true /\ status_at debate_id db = Some created
          /\ status_at debate_id db' = Some in_progress)).
Proof.
  destruct p as [| |result]; simpl.
  - destruct (decide (status_at debate_id db = Some created)) as [Hc|Hc].
    + destruct (start_update_created now debate_id db Hc)
        as (oid & doc & Hid & Hdoc & ->). simpl.
      split; [done|]. intros _. right. split; [done|]. split; [done|].
      by apply status_at_after_start.
    + rewrite (start_update_not_created now debate_id db Hc). simpl.
      split; [done|]. intros _. by left.
  - by split.
  - split; [done|]. intros Hh. left. by repeat split.
Qed.

Lemma step_exclusive c who :
  exclusive debate_id c -> exclusive debate_id (Concurrent.step now1 now2 debate_id c who).
Proof.
  intros [Hone Hstatus]. unfold Concurrent.step.
  destruct c as [p1 p2 db]. simpl in *.
  destruct who.
  - pose proof (client_step_holds now1 p1 db) as Hstep.
    destruct (Concurrent.client_step now1 debate_id p1 db) as [p1' db'].
    destruct Hstep as [Hkeep Hgain]. unfold exclusive. simpl.
    destruct (holds p1) eqn:H1.
    + rewrite (Hkeep eq_refl). split.
      * destruct (holds p1'); [exact Hone|done].
      * intros _. by apply Hstatus.
    + destruct (Hgain eq_refl) as [(-> & -> & _)|(-> & Hc & Hp)].
      * simpl. split; [done|]. intros H2. apply Hstatus. by rewrite H2.
      * destruct (holds p2) eqn:H2.
        -- exfalso. by apply Hstatus.
        -- simpl. split; [done|]. intros _. by rewrite Hp.
  - pose proof (client_step_holds now2 p2 db) as Hstep.
    destruct (Concurrent.client_step now2 debate_id p2 db) as [p2' db'].
    destruct Hstep as [Hkeep Hgain]. unfold exclusive. simpl.
    destruct (holds p2) eqn:H2.
    + rewrite (Hkeep eq_refl). split.
      * destruct (holds p2'); [exact Hone|by rewrite andb_false_r].
      * intros _. apply Hstatus. by rewrite orb_true_r.
    + destruct (Hgain eq_refl) as [(-> & -> & _)|(-> & Hc & Hp)].
      * rewrite !andb_false_r, !orb_false_r in *. split; [done|].
        intros H1. apply Hstatus. by rewrite H1.
      * destruct (holds p1) eqn:H1.
        -- exfalso. by apply Hstatus.
        -- simpl. split; [done|]. intros _. by rewrite Hp.
Qed.

Lemma run_exclusive schedule db :
  exclusive debate_id (Concurrent.run now1 now2 debate_id schedule db).
Proof.
  unfold Concurrent.run.
  assert (exclusive debate_id {| Concurrent.first := Concurrent.at_update;
                       Concurrent.second := Concurrent.at_update;
                       Concurrent.store := db |}) as Hinit by (split; done).
  revert Hinit. generalize ({| Concurrent.first := Concurrent.at_update;
                               Concurrent.second := Concurrent.at_update;
                               Concurrent.store := db |}).
  induction schedule as [|who schedule IH]; intros c Hc; simpl; [done|].
  apply IH. by apply step_exclusive.
Qed.

Lemma succeeded_holds p : Concurrent.succeeded p = true -> holds p = true.
Proof. destruct p as [| |[d|]]; simpl; try done. Qed.

End interleaving.

(** A client running alone performs [DebateService.start_debate]. *)
Lemma client_alone_is_start_debate now debate_id db :
  let '(p1, db1) := Concurrent.client_step now debate_id Concurrent.at_update db in
  let '(p2, db2) := Concurrent.client_step now debate_id p1 db1 in
  (db2, p2)
  = (fst (DebateService.start_debate now debate_id db),
     Concurrent.returned (snd (DebateService.start_debate now debate_id db))).
Proof.
  unfold DebateService.start_debate. simpl.
  destruct (DebateService.update_debate _ _ _ _) as [db1 m].
  by destruct (0 <? m).
Qed.

Lemma start_debate_not_created now debate_id db :
  status_at debate_id db <> Some created ->
  DebateService.start_debate now debate_id db = (db, None).
Proof.
  intros Hst. unfold DebateService.start_debate.
  by rewrite (start_update_not_created now debate_id db Hst).
Qed.

Lemma start_debate_some now debate_id db db' debate :
  DebateService.start_debate now debate_id db = (db', Some debate) ->
  status_at debate_id db = Some created
  /\ status_at debate_id db' = Some in_progress
  /\ Debate.status debate = in_progress.
Proof.
  intros Hstart.
  destruct (decide (status_at debate_id db = Some created)) as [Hc|Hc].
  - split; [done|]. unfold DebateService.start_debate in Hstart.
    destruct (start_update_created now debate_id db Hc)
      as (oid & doc & Hid & Hdoc & Hupd).
    rewrite Hupd in Hstart. simpl in Hstart.
    rewrite (get_debate_lookup _ _ _ Hid) in Hstart. simpl in Hstart.
    rewrite lookup_insert_eq in Hstart. simpl in Hstart.
    injection Hstart as <- <-. split; [|done].
    by apply status_at_after_start.
  - by rewrite (start_debate_not_created now debate_id db Hc) in Hstart.
Qed.

Lemma start_route_not_created e now debate_id db s :
  status_at debate_id db = Some s -> s <> created ->
  api.start_debate e now debate_id db
  = (api.services now db,
     api.error 400 "Debate has already been started or completed").
Proof.
  intros Hst Hs. unfold api.start_debate.
  pose proof (status_at_services now debate_id db) as Hsrv.
  rewrite Hst, status_at_get_debate in Hsrv.
  destruct (DebateService.get_debate debate_id (api.services now db))
    as [debate|]; simpl in Hsrv; [|done].
  injection Hsrv as Hsrv. rewrite Hsrv.
  by rewrite bool_decide_eq_false_2.
Qed.

(** ** Statistics *)



(** The arithmetic is the one of doubles: 23 wins in 160 debates give
    14.374999999999998 before rounding, and the rate is 14.37. *)
Lemma win_rate_23_of_160 :
  helpers.calculate_win_rate 23 160 = Some (PyFloat.quotient 1437 100)
  /\ PyFloat.quotient 1437 100 <> PyFloat.quotient 1438 100.
Proof. split; [vm_compute; reflexivity|vm_compute; discriminate]. Qed.

(** *** Converting an int gives a number of its sign *)

Lemma shr_1_nonneg mrs : 0 <= shr_m mrs -> 0 <= shr_m (shr_1 mrs).
Proof.
  destruct mrs as [m r s]. simpl.
  destruct m as [|[p|p|]|[p|p|]]; simpl; lia.
Qed.

Lemma iter_shr_1_nonneg n mrs :
  0 <= shr_m mrs -> 0 <= shr_m (SpecFloat.iter_pos shr_1 n mrs).
Proof.
  revert mrs. induction n as [n IH|n IH|]; intros mrs Hm; simpl.
  - apply IH, IH. by apply shr_1_nonneg.
  - by apply IH, IH.
  - by apply shr_1_nonneg.
Qed.

Lemma shr_fexp_nonneg prec emax m e l :
  0 <= m -> 0 <= shr_m (fst (shr_fexp prec emax m e l)).
Proof.
  intros Hm. unfold shr_fexp, shr.
  assert (0 <= shr_m (shr_record_of_loc m l)) as Hrec
    by (by destruct l as [|[]]).
  destruct (_ - e); simpl; [done| |done]. by apply iter_shr_1_nonneg.
Qed.

Lemma binary_round_aux_signed prec emax sx mx ex lx :
  0 <= mx -> signed sx (binary_round_aux prec emax sx mx ex lx).
Proof.
  intros Hm. unfold binary_round_aux.
  pose proof (shr_fexp_nonneg prec emax mx ex lx Hm) as H1.
  destruct (shr_fexp prec emax mx ex lx) as [mrs' e']. simpl in H1.
  set (m1 := round_nearest_even (shr_m mrs') (loc_of_shr_record mrs')).
  assert (0 <= m1) as Hm1.
  { unfold m1, round_nearest_even.
    destruct (loc_of_shr_record mrs') as [|[]]; try done; [|lia].
    destruct (Z.even (shr_m mrs')); lia. }
  pose proof (shr_fexp_nonneg prec emax m1 e' loc_Exact Hm1) as H2.
  destruct (shr_fexp prec emax m1 e' loc_Exact) as [mrs'' e'']. simpl in H2.
  destruct (shr_m mrs''); [done| |lia].
  by destruct (e'' <=? emax - prec).
Qed.

(** [float(n)] of an int that is not negative is [+0.0] or a positive
    finite number. *)
Lemma of_int_nonneg n x :
  0 <= n -> PyFloat.of_int n = Some x ->
  x = PyFloat.zero \/ exists m e, x = S754_finite false m e.
Proof.
  intros Hn. unfold PyFloat.of_int.
  assert (signed false (binary_normalize PyFloat.prec PyFloat.emax n 0 false))
    as Hsigned.
  { unfold binary_normalize, binary_round.
    destruct n as [|p|p]; [done| |lia].
    destruct (shl_align _ _ _) as [mz ez].
    by apply binary_round_aux_signed. }
  destruct (binary_normalize PyFloat.prec PyFloat.emax n 0 false)
    as [s|s| |s m e]; simpl in Hsigned; try done; intros [= <-]; subst s.
  - by left.
  - right. by exists m, e.
Qed.

(** *** A running average without votes stays zero *)

Lemma new_average_votes_zero data a :
  0 <= PersonalityDoc.total_arguments data ->
  no_votes (PersonalityDoc.average_votes data) ->
  PersonalityService.new_average_votes data 0 = Some a ->
  no_votes (PyNum.round2 a).
Proof.
  intros Hn Hzero H. unfold PersonalityService.new_average_votes in H.
  destruct (1 <? PersonalityDoc.total_arguments data + 1) eqn:Hlt;
    [|injection H as <-; by right].
  apply Z.ltb_lt in Hlt. left.
  destruct Hzero as [Hzero|Hzero]; rewrite Hzero in H.
  - unfold PyNum.mul, PyNum.add, PyNum.truediv, PyNum.to_float in H.
    destruct (PyFloat.of_int (PersonalityDoc.total_arguments data)) as [f|]
      eqn:Hf; [|done].
    assert (PyFloat.mul PyFloat.zero f = PyFloat.zero) as Hmul.
    { by destruct (of_int_nonneg _ _ Hn Hf) as [-> | (m & e & ->)]. }
    cbn [mbind option_bind] in H. rewrite Hmul in H.
    change (PyFloat.of_int 0) with (Some PyFloat.zero) in H.
    cbn [mbind option_bind] in H.
    change (PyFloat.add PyFloat.zero PyFloat.zero) with PyFloat.zero in H.
    destruct (PyFloat.of_int (PersonalityDoc.total_arguments data + 1)) as [g|]
      eqn:Hg; [|done].
    cbn [mbind option_bind] in H.
    destruct (of_int_nonneg (PersonalityDoc.total_arguments data + 1) g
                ltac:(lia) Hg) as [-> | (m & e & ->)];
      simpl in H; [done|].
    by injection H as <-.
  - simpl in H. unfold PyFloat.truediv in H.
    destruct (_ =? 0) eqn:Hz; [done|]. injection H as <-.
    unfold PyFloat.quotient.
    by destruct (PersonalityDoc.total_arguments data + 1 <? 0) eqn:Hneg;
      [apply Z.ltb_lt in Hneg; lia|].
Qed.

(** The personalities collection under [update_one_by_name]. *)
Lemma find_update_one_by_name name update c :
  (forall p, PersonalityDoc.name (update p) = PersonalityDoc.name p) ->
  Mongo.find_one_by_name name (Mongo.update_one_by_name name update c)
  = update <$> Mongo.find_one_by_name name c.
Proof.
  intros Hname. unfold Mongo.find_one_by_name.
  induction c as [|p c IH]; simpl; [done|].
  destruct (String.eqb (PersonalityDoc.name p) name) eqn:Hp; simpl.
  - by rewrite Hname, Hp.
  - by rewrite Hp.
Qed.

Lemma names_update_one_by_name name update c :
  (forall p, PersonalityDoc.name (update p) = PersonalityDoc.name p) ->
  map PersonalityDoc.name (Mongo.update_one_by_name name update c)
  = map PersonalityDoc.name c.
Proof.
  intros Hname. induction c as [|p c IH]; simpl; [done|].
  destruct (String.eqb (PersonalityDoc.name p) name); simpl.
  - by rewrite Hname.
  - by rewrite IH.
Qed.

(** What the update stores when the arithmetic raises nothing. *)
Lemma stats_update_stores now won votes_received data a :
  PersonalityService.new_average_votes data votes_received = Some a ->
  PersonalityService.stats_update now won votes_received data
  = PersonalityDoc.set_stats (PersonalityDoc.total_debates data + 1)
      (PersonalityDoc.total_arguments data + 1)
      (PersonalityDoc.wins data + (if won then 1 else 0))
      (PyNum.round2 a) now data.
Proof. intros Ha. unfold PersonalityService.stats_update. by rewrite Ha. Qed.

Lemma stats_update_name now won votes_received data :
  PersonalityDoc.name (PersonalityService.stats_update now won votes_received data)
  = PersonalityDoc.name data.
Proof.
  unfold PersonalityService.stats_update.
  by destruct (PersonalityService.new_average_votes data votes_received).
Qed.

(** The arithmetic is the one of doubles: with an average of 3.28 over 7
    arguments and 5 votes received, [(3.28 * 7 + 5) / 8] is
    3.4949999999999997 and the stored average is 3.49. *)
Lemma stored_average_in_doubles now won data :
  PersonalityDoc.average_votes data = PyNum.Float (PyFloat.quotient 328 100) ->
  PersonalityDoc.total_arguments data = 7 ->
  PersonalityDoc.average_votes (PersonalityService.stats_update now won 5 data)
  = PyNum.Float (PyFloat.quotient 349 100).
Proof.
  intros Havg Hn. unfold PersonalityService.stats_update,
    PersonalityService.new_average_votes. rewrite Havg, Hn.
  vm_compute. reflexivity.
Qed.

(** The average the service computes is the stated formula once there is
    an argument on record, and the votes received before that. *)
Lemma new_average_votes_formula data votes_received :
  PersonalityService.new_average_votes data votes_received
  = if 1 <? PersonalityDoc.total_arguments data + 1
    then running_average (PersonalityDoc.average_votes data)
           (PersonalityDoc.total_arguments data) votes_received
    else Some (PyNum.Int votes_received).
Proof. reflexivity. Qed.


(** ** Judging *)

Lemma keeps_verdicts_refl db : keeps_verdicts db db.
Proof. intros oid doc Hdoc _. by exists doc. Qed.

Lemma keeps_verdicts_trans db1 db2 db3 :
  keeps_verdicts db1 db2 -> keeps_verdicts db2 db3 -> keeps_verdicts db1 db3.
Proof.
  intros H12 H23 oid doc Hdoc Hj.
  destruct (H12 oid doc Hdoc Hj) as (doc2 & Hdoc2 & Hv2).
  assert (DebateDoc.status doc2 = judged) as Hj2.
  { unfold verdict in Hv2. injection Hv2 as -> _ _ _. done. }
  destruct (H23 oid doc2 Hdoc2 Hj2) as (doc3 & Hdoc3 & Hv3).
  exists doc3. split; [done|]. congruence.
Qed.

Lemma keeps_verdicts_same_debates db db' :
  Mongo.debates db' = Mongo.debates db -> keeps_verdicts db db'.
Proof. intros Heq oid doc Hdoc _. exists doc. by rewrite Heq. Qed.

(** An update that leaves the verdict of the judged documents it can reach
    as it is. *)
Lemma update_debate_keeps_verdicts debate_id filter update db :
  (forall doc, filter doc = true -> DebateDoc.status doc = judged ->
     verdict (update doc) = verdict doc) ->
  keeps_verdicts db (fst (DebateService.update_debate debate_id filter update db)).
Proof.
  intros Hupd oid doc Hdoc Hj. rewrite update_debate_lookup, Hdoc.
  destruct (bool_decide _); simpl; [|by exists doc].
  destruct (filter doc) eqn:Hf; [|by exists doc].
  exists (update doc). split; [done|]. by apply Hupd.
Qed.

(** Any update of a debate that is not judged. *)
Lemma update_debate_keeps_other debate_id filter update db :
  status_at debate_id db <> Some judged ->
  keeps_verdicts db (fst (DebateService.update_debate debate_id filter update db)).
Proof.
  intros Hst oid doc Hdoc Hj. rewrite update_debate_lookup, Hdoc.
  destruct (bool_decide _) eqn:Hid; simpl; [|by exists doc].
  apply bool_decide_eq_true in Hid. exfalso. apply Hst.
  rewrite (status_at_lookup _ _ _ Hid), Hdoc. simpl. by rewrite Hj.
Qed.

Lemma add_arguments_keeps_verdicts now debate_id arguments db :
  keeps_verdicts db (api.add_arguments now debate_id arguments db).
Proof.
  unfold api.add_arguments. revert db.
  induction arguments as [|a arguments IH]; intros db; simpl.
  - apply keeps_verdicts_refl.
  - eapply keeps_verdicts_trans; [|apply IH].
    unfold DebateService.add_argument.
    pose proof (update_debate_keeps_verdicts debate_id DebateService.any_doc
      (DebateDoc.push_argument (DebateArgument._dict a) now) db
      (fun doc _ _ => eq_refl)) as Hk.
    by destruct (DebateService.update_debate _ _ _ _).
Qed.

Lemma services_keeps_verdicts now db : keeps_verdicts db (api.services now db).
Proof. apply keeps_verdicts_same_debates, services_debates. Qed.

Lemma debate_service_keeps_verdicts now db :
  keeps_verdicts db (DebateService.init now db).
Proof. apply keeps_verdicts_same_debates, debate_service_debates. Qed.

Lemma status_at_debate_service now debate_id db :
  status_at debate_id (DebateService.init now db) = status_at debate_id db.
Proof. unfold status_at. by rewrite debate_service_debates. Qed.

Lemma judge_service_debates now debate_id winner reasoning judge_id db :
  Mongo.debates
    (fst (DebateService.judge_debate now debate_id winner reasoning judge_id db))
  = Mongo.debates
      (fst (DebateService.update_debate debate_id DebateService.any_doc
              (DebateDoc.set_judged winner reasoning judge_id now) db)).
Proof.
  unfold DebateService.judge_debate.
  destruct (DebateService.update_debate _ _ _ _) as [db1 m]. simpl.
  destruct (0 <? m); [|done].
  destruct (DebateService.get_debate _ _); simpl.
  - by rewrite update_losers_debates, update_personality_stats_debates.
  - by rewrite update_personality_stats_debates.
Qed.

Lemma record_vote_verdict personality_id voter_id now doc :
  verdict (DebateDoc.record_vote personality_id voter_id now doc) = verdict doc.
Proof.
  unfold DebateDoc.record_vote, DebateDoc.vote_update.
  by destruct (DebateDoc.vote_fields personality_id voter_id doc).
Qed.

(** Every route keeps the verdict of every judged debate. *)
Lemma handle_keeps_verdicts now r db :
  keeps_verdicts db (fst (api.handle now r db)).
Proof.
  destruct r as [fresh topic creator_id|e debate_id|e debate_id
                |debate_id winner reasoning judge_id
                |debate_id personality_id voter_id]; simpl.
  - (* create *)
    unfold api.create_debate.
    eapply keeps_verdicts_trans; [apply (debate_service_keeps_verdicts now)|].
    generalize (DebateService.init now db). clear db. intros db.
    unfold DebateService.create_debate.
    destruct (Mongo.debates db !! fresh) eqn:Hfresh; simpl.
    + apply keeps_verdicts_refl.
    + intros oid doc Hdoc _. exists doc. split; [|done]. simpl.
      rewrite lookup_insert_ne; [done|]. intros ->. congruence.
  - (* start *)
    unfold api.start_debate.
    eapply keeps_verdicts_trans; [apply (services_keeps_verdicts now)|].
    generalize (api.services now db). clear db. intros db.
    destruct (DebateService.get_debate debate_id db) as [debate|];
      [|apply keeps_verdicts_refl].
    destruct (negb _); [apply keeps_verdicts_refl|].
    unfold DebateService.start_debate.
    pose proof (update_debate_keeps_verdicts debate_id
      (DebateService.status_is created) (DebateDoc.set_status in_progress now) db)
      as Hk.
    destruct (DebateService.update_debate _ _ _ _) as [db1 m]. simpl in Hk.
    assert (keeps_verdicts db db1) as Hk1.
    { apply Hk. intros doc Hf Hj. unfold DebateService.status_is in Hf.
      apply bool_decide_eq_true in Hf. congruence. }
    destruct (0 <? m); [|done].
    destruct (DebateService.get_debate debate_id db1); simpl; [|done].
    assert (keeps_verdicts db
      (api.add_arguments now debate_id
         (AIService.generate_debate_round e now db1 t 1) db1)) as Hk2
      by (eapply keeps_verdicts_trans;
          [exact Hk1|apply add_arguments_keeps_verdicts]).
    by destruct (AIService.late e).
  - (* next round *)
    unfold api.next_round.
    eapply keeps_verdicts_trans; [apply (services_keeps_verdicts now)|].
    generalize (api.services now db). clear db. intros db.
    destruct (DebateService.get_debate debate_id db) as [debate|] eqn:Hget;
      [|apply keeps_verdicts_refl].
    destruct (bool_decide (Debate.status debate = in_progress)) eqn:Hst; simpl;
      [|apply keeps_verdicts_refl].
    apply bool_decide_eq_true in Hst.
    assert (status_at debate_id db <> Some judged) as Hnot.
    { rewrite status_at_get_debate, Hget. simpl. rewrite Hst. discriminate. }
    destruct (Debate.max_rounds debate <? Debate.current_round debate + 1).
    + unfold DebateService.end_debate.
      pose proof (update_debate_keeps_other debate_id DebateService.any_doc
        (DebateDoc.set_status completed now) db Hnot) as Hk.
      destruct (DebateService.update_debate _ _ _ _) as [db1 m]. simpl in *.
      by destruct (DebateService.get_debate debate_id db1).
    + set (arguments := AIService.generate_debate_round _ _ _ _ _).
      pose proof (add_arguments_keeps_verdicts now debate_id arguments db) as Hk1.
      set (db1 := api.add_arguments now debate_id arguments db) in *.
      unfold DebateService.update_round.
      pose proof (update_debate_keeps_verdicts debate_id DebateService.any_doc
        (DebateDoc.set_current_round (Debate.current_round debate + 1) now) db1
        (fun doc _ _ => eq_refl)) as Hk2.
      destruct (DebateService.update_debate _ _ _ _) as [db2 m]. simpl in *.
      assert (keeps_verdicts db db2) by (by eapply keeps_verdicts_trans).
      destruct (AIService.late e); [done|].
      by destruct (DebateService.get_debate debate_id db2).
  - (* judge *)
    unfold api.judge_debate.
    destruct winner as [winner|]; [|apply keeps_verdicts_refl].
    destruct (String.eqb winner EmptyString); [apply keeps_verdicts_refl|].
    eapply keeps_verdicts_trans; [apply (debate_service_keeps_verdicts now)|].
    generalize (DebateService.init now db). clear db. intros db.
    destruct (DebateService.get_debate debate_id db) as [debate|] eqn:Hget;
      [|apply keeps_verdicts_refl].
    destruct (bool_decide (Debate.status debate = judged)) eqn:Hst;
      [apply keeps_verdicts_refl|].
    apply bool_decide_eq_false in Hst.
    destruct (negb (_ || _)); [apply keeps_verdicts_refl|].
    destruct (negb (bool_decide (winner ∈ _))); [apply keeps_verdicts_refl|].
    assert (status_at debate_id db <> Some judged) as Hnot.
    { rewrite status_at_get_debate, Hget. simpl. congruence. }
    pose proof (update_debate_keeps_other debate_id DebateService.any_doc
      (DebateDoc.set_judged winner reasoning judge_id now) db Hnot) as Hk.
    pose proof (judge_service_debates now debate_id winner reasoning judge_id db)
      as Hdebs.
    destruct (DebateService.judge_debate _ _ _ _ _ _) as [db1 ok]. simpl in Hdebs.
    assert (keeps_verdicts db db1) as Hk1.
    { intros oid doc Hdoc Hj. rewrite Hdebs. by apply Hk. }
    destruct ok; [|done].
    by destruct (DebateService.get_debate debate_id db1).
  - (* vote *)
    unfold api.vote_on_debate.
    destruct personality_id as [personality_id|]; [|apply keeps_verdicts_refl].
    destruct (String.eqb personality_id EmptyString); [apply keeps_verdicts_refl|].
    eapply keeps_verdicts_trans; [apply (debate_service_keeps_verdicts now)|].
    generalize (DebateService.init now db). clear db. intros db.
    assert (keeps_verdicts db
              (fst (DebateService.add_vote now debate_id personality_id
                      (default "anonymous" voter_id) db))) as Hk.
    { unfold DebateService.add_vote.
      destruct (DebateService.get_debate _ _); [|apply keeps_verdicts_refl].
      destruct (FieldPath.has_key _ _); [apply keeps_verdicts_refl|].
      pose proof (update_debate_keeps_verdicts debate_id DebateService.any_doc
        (DebateDoc.record_vote personality_id (default "anonymous" voter_id) now)
        db (fun doc _ _ => record_vote_verdict _ _ _ doc)) as Hk.
      by destruct (DebateService.update_debate _ _ _ _). }
    destruct (DebateService.add_vote _ _ _ _ _) as [db1 ok]. simpl in Hk.
    destruct ok; [|done].
    by destruct (DebateService.get_debate debate_id db1).
Qed.

Lemma serve_keeps_verdicts requests db :
  keeps_verdicts db (fst (api.serve requests db)).
Proof.
  revert db. induction requests as [|[now r] requests IH]; intros db; simpl.
  - apply keeps_verdicts_refl.
  - pose proof (handle_keeps_verdicts now r db) as Hk.
    destruct (api.handle now r db) as [db1 resp]. simpl in Hk.
    specialize (IH db1). destruct (api.serve requests db1) as [db2 resps].
    simpl in *. by eapply keeps_verdicts_trans.
Qed.

Lemma keeps_verdicts_at debate_id db db' :
  keeps_verdicts db db' -> status_at debate_id db = Some judged ->
  verdict_at debate_id db' = verdict_at debate_id db
  /\ status_at debate_id db' = Some judged.
Proof.
  unfold status_at, verdict_at. intros Hk Hst.
  destruct (ObjectId.of_str debate_id) as [oid|]; simpl in *; [|done].
  destruct (Mongo.debates db !! oid) as [doc|] eqn:Hdoc; simpl in *; [|done].
  injection Hst as Hst.
  destruct (Hk oid doc Hdoc Hst) as (doc' & -> & Hv). simpl.
  split; [by rewrite Hv|]. unfold verdict in Hv. injection Hv as -> _ _ _.
  by rewrite Hst.
Qed.

(** The judge route on a judged debate. *)
Lemma judge_route_judged now debate_id winner reasoning judge_id db :
  status_at debate_id db = Some judged -> winner <> EmptyString ->
  api.judge_debate now debate_id (Some winner) reasoning judge_id db
  = (DebateService.init now db, api.error 400 "Debate already jugded.").
Proof.
  intros Hst Hw. unfold api.judge_debate.
  destruct (String.eqb winner EmptyString) eqn:Heq;
    [by apply String.eqb_eq in Heq|].
  pose proof (status_at_debate_service now debate_id db) as Hsrv.
  rewrite Hst, status_at_get_debate in Hsrv.
  destruct (DebateService.get_debate _ _) as [debate|]; simpl in Hsrv; [|done].
  injection Hsrv as ->. done.
Qed.

(** The route answers "already judged" for nothing else. *)
Lemma judge_route_signal now debate_id winner reasoning judge_id db :
  snd (api.judge_debate now debate_id winner reasoning judge_id db)
  = api.error 400 "Debate already jugded." ->
  status_at debate_id db = Some judged.
Proof.
  unfold api.judge_debate.
  destruct winner as [winner|]; [|done].
  destruct (String.eqb winner EmptyString); [done|].
  rewrite <- (status_at_debate_service now debate_id db), status_at_get_debate.
  destruct (DebateService.get_debate _ _) as [debate|]; simpl; [|done].
  destruct (bool_decide (Debate.status debate = judged)) eqn:Hj.
  { apply bool_decide_eq_true in Hj. by rewrite Hj. }
  destruct (negb (_ || _)); [done|].
  destruct (negb (bool_decide (winner ∈ _))); [done|].
  destruct (DebateService.judge_debate _ _ _ _ _ _) as [db1 [|]]; simpl; [|done].
  by destruct (DebateService.get_debate debate_id db1).
Qed.

(** When the service reports a judgement, the debate is stored as judged
    with the winner and the judge's fields of the call. *)
Lemma judge_service_true now debate_id winner reasoning judge_id db :
  snd (DebateService.judge_debate now debate_id winner reasoning judge_id db)
  = true ->
  verdict_at debate_id
    (fst (DebateService.judge_debate now debate_id winner reasoning judge_id db))
  = Some (judged, Some winner, Some reasoning, judge_id).
Proof.
  intros Hok. unfold verdict_at.
  rewrite judge_service_debates.
  unfold DebateService.judge_debate in Hok.
  pose proof (update_debate_modified debate_id DebateService.any_doc
    (DebateDoc.set_judged winner reasoning judge_id now) db) as Hmod.
  pose proof (update_debate_lookup debate_id DebateService.any_doc
    (DebateDoc.set_judged winner reasoning judge_id now) db) as Hlook.
  destruct (DebateService.update_debate _ _ _ _) as [db1 m]. simpl in *.
  destruct (0 <? m); [|done].
  destruct (Hmod eq_refl) as (oid & doc & Hid & Hdoc & _ & _).
  rewrite Hid. simpl. rewrite Hlook, Hdoc.
  by rewrite bool_decide_eq_true_2.
Qed.

Lemma verdict_at_status debate_id db s w r j :
  verdict_at debate_id db = Some (s, w, r, j) -> status_at debate_id db = Some s.
Proof.
  unfold verdict_at, status_at.
  destruct (ObjectId.of_str debate_id) as [oid|]; simpl; [|done].
  destruct (Mongo.debates db !! oid) as [doc|]; simpl; [|done].
  unfold verdict. by intros [= -> _ _ _].
Qed.

Lemma judge_service_false now debate_id winner reasoning judge_id db :
  snd (DebateService.judge_debate now debate_id winner reasoning judge_id db)
  = false ->
  Mongo.personalities
    (fst (DebateService.judge_debate now debate_id winner reasoning judge_id db))
  = Mongo.personalities db.
Proof.
  unfold DebateService.judge_debate.
  pose proof (update_debate_personalities debate_id DebateService.any_doc
    (DebateDoc.set_judged winner reasoning judge_id now) db) as Hp.
  destruct (DebateService.update_debate _ _ _ _) as [db1 m]. simpl in *.
  destruct (0 <? m); [|done].
  by destruct (DebateService.get_debate _ _).
Qed.

(** A judge request answered with success leaves its debate judged. *)
Lemma judge_route_success now debate_id winner reasoning judge_id db :
  judgement (api.JudgeDebate debate_id winner reasoning judge_id)
    (snd (api.judge_debate now debate_id winner reasoning judge_id db)) = true ->
  status_at debate_id
    (fst (api.judge_debate now debate_id winner reasoning judge_id db))
  = Some judged.
Proof.
  unfold api.judge_debate.
  destruct winner as [winner|]; [|done].
  destruct (String.eqb winner EmptyString); [done|].
  generalize (DebateService.init now db). clear db. intros db.
  destruct (DebateService.get_debate debate_id db) as [debate|]; [|done].
  destruct (bool_decide (Debate.status debate = judged)); [done|].
  destruct (negb (_ || _)); [done|].
  destruct (negb (bool_decide (winner ∈ _))); [done|].
  pose proof (judge_service_true now debate_id winner reasoning judge_id db) as Ht.
  destruct (DebateService.judge_debate _ _ _ _ _ _) as [db1 [|]]; simpl in *;
    [|done].
  apply verdict_at_status in Ht; [|done].
  by destruct (DebateService.get_debate debate_id db1).
Qed.

(** Seeding twice is seeding once. *)
Lemma personality_service_idempotent now now' db :
  PersonalityService.init now' (PersonalityService.init now db)
  = PersonalityService.init now db.
Proof.
  destruct db as [debates [|p ps]].
  - reflexivity.
  - apply personality_service_seeded. rewrite personality_service_seeded; done.
Qed.

Lemma services_personalities now db :
  api.services now db = PersonalityService.init now db.
Proof. apply personality_service_idempotent. Qed.

Lemma add_arguments_personalities now debate_id arguments db :
  Mongo.personalities (api.add_arguments now debate_id arguments db)
  = Mongo.personalities db.
Proof.
  unfold api.add_arguments. revert db.
  induction arguments as [|a arguments IH]; intros db; simpl; [done|].
  rewrite IH. unfold DebateService.add_argument.
  pose proof (update_debate_personalities debate_id DebateService.any_doc
    (DebateDoc.push_argument (DebateArgument._dict a) now) db) as Hp.
  by destruct (DebateService.update_debate _ _ _ _).
Qed.

(** The statistics change in a successful judgement only: after any other
    request the registry is the one the request found, seeded if it was
    empty. *)
Lemma handle_statistics now r db :
  judgement r (snd (api.handle now r db)) = false ->
  Mongo.personalities (fst (api.handle now r db)) = Mongo.personalities db
  \/ Mongo.personalities (fst (api.handle now r db))
     = Mongo.personalities (PersonalityService.init now db).
Proof.
  destruct r as [fresh topic creator_id|e debate_id|e debate_id
                |debate_id winner reasoning judge_id
                |debate_id personality_id voter_id]; simpl; intros Hj.
  - right. unfold api.create_debate, DebateService.create_debate, DebateService.init.
    by destruct (Mongo.debates (PersonalityService.init now db) !! fresh).
  - right. unfold api.start_debate. rewrite services_personalities.
    generalize (PersonalityService.init now db). clear db Hj. intros db.
    destruct (DebateService.get_debate debate_id db) as [debate|]; [|done].
    destruct (negb _); [done|].
    unfold DebateService.start_debate.
    pose proof (update_debate_personalities debate_id
      (DebateService.status_is created) (DebateDoc.set_status in_progress now) db)
      as Hp.
    destruct (DebateService.update_debate _ _ _ _) as [db1 m]. simpl in Hp.
    destruct (0 <? m); [|done].
    destruct (DebateService.get_debate debate_id db1); simpl; [|done].
    destruct (AIService.late e); simpl; by rewrite add_arguments_personalities.
  - right. unfold api.next_round. rewrite services_personalities.
    generalize (PersonalityService.init now db). clear db Hj. intros db.
    destruct (DebateService.get_debate debate_id db) as [debate|]; [|done].
    destruct (negb _); [done|].
    destruct (Debate.max_rounds debate <? Debate.current_round debate + 1).
    + unfold DebateService.end_debate.
      pose proof (update_debate_personalities debate_id DebateService.any_doc
        (DebateDoc.set_status completed now) db) as Hp.
      destruct (DebateService.update_debate _ _ _ _) as [db1 m]. simpl in *.
      by destruct (DebateService.get_debate debate_id db1).
    + set (arguments := AIService.generate_debate_round _ _ _ _ _).
      pose proof (add_arguments_personalities now debate_id arguments db) as Hp1.
      set (db1 := api.add_arguments now debate_id arguments db) in *.
      unfold DebateService.update_round.
      pose proof (update_debate_personalities debate_id DebateService.any_doc
        (DebateDoc.set_current_round (Debate.current_round debate + 1) now) db1)
        as Hp2.
      destruct (DebateService.update_debate _ _ _ _) as [db2 m]. simpl in *.
      rewrite Hp1 in Hp2.
      destruct (AIService.late e); [done|].
      by destruct (DebateService.get_debate debate_id db2).
  - unfold api.judge_debate in *.
    destruct winner as [winner|]; [|by left].
    destruct (String.eqb winner EmptyString); [by left|].
    right. fold (PersonalityService.init now db). unfold DebateService.init in *.
    generalize dependent (PersonalityService.init now db). clear db. intros db.
    destruct (DebateService.get_debate debate_id db) as [debate|]; [|done].
    destruct (bool_decide (Debate.status debate = judged)); [done|].
    destruct (negb (_ || _)); [done|].
    destruct (negb (bool_decide (winner ∈ _))); [done|].
    pose proof (judge_service_true now debate_id winner reasoning judge_id db) as Ht.
    pose proof (judge_service_false now debate_id winner reasoning judge_id db) as Hf.
    destruct (DebateService.judge_debate _ _ _ _ _ _) as [db1 [|]]; simpl in *.
    + apply verdict_at_status in Ht; [|done].
      rewrite status_at_get_debate in Ht.
      by destruct (DebateService.get_debate debate_id db1).
    + intros _. by apply Hf.
  - unfold api.vote_on_debate.
    destruct personality_id as [personality_id|]; [|by left].
    destruct (String.eqb personality_id EmptyString); [by left|].
    right. unfold DebateService.init.
    generalize (PersonalityService.init now db). clear db Hj. intros db.
    assert (Mongo.personalities
              (fst (DebateService.add_vote now debate_id personality_id
                      (default "anonymous" voter_id) db))
            = Mongo.personalities db) as Hp.
    { unfold DebateService.add_vote.
      destruct (DebateService.get_debate _ _); [|done].
      destruct (FieldPath.has_key _ _); [done|].
      pose proof (update_debate_personalities debate_id DebateService.any_doc
        (DebateDoc.record_vote personality_id (default "anonymous" voter_id) now)
        db) as Hp.
      by destruct (DebateService.update_debate _ _ _ _). }
    destruct (DebateService.add_vote _ _ _ _ _) as [db1 [|]]; simpl in *; [|done].
    by destruct (DebateService.get_debate debate_id db1).
Qed.

(** Once a debate is judged, no request served later is a successful
    judgement of it. *)
Lemma judgements_after_judged oid debate_id requests db :
  ObjectId.of_str debate_id = Some oid ->
  status_at debate_id db = Some judged ->
  judgements oid requests (snd (api.serve requests db)) = 0%nat.
Proof.
  intros Hid. revert db.
  induction requests as [|[now r] requests IH]; intros db Hst; simpl; [done|].
  pose proof (handle_keeps_verdicts now r db) as Hk.
  assert (judgement_of oid r (snd (api.handle now r db)) = false) as Hnot.
  { destruct r as [| | |debate_id' winner reasoning judge_id|]; simpl; try done.
    destruct (bool_decide (ObjectId.of_str debate_id' = Some oid)) eqn:Hsame;
      [|by rewrite andb_false_r].
    apply bool_decide_eq_true in Hsame. rewrite andb_true_r.
    assert (status_at debate_id' db = Some judged) as Hst'.
    { rewrite (status_at_lookup _ _ _ Hsame).
      by rewrite <- (status_at_lookup _ _ _ Hid). }
    destruct winner as [winner|]; [|done].
    destruct (decide (winner = EmptyString)) as [->|Hw]; [done|].
    by rewrite (judge_route_judged _ _ _ _ _ _ Hst' Hw). }
  destruct (api.handle now r db) as [db1 resp]. simpl in *.
  destruct (keeps_verdicts_at debate_id db db1 Hk Hst) as [_ Hst1].
  specialize (IH db1 Hst1).
  destruct (api.serve requests db1) as [db2 resps]. simpl in *.
  by rewrite Hnot, IH.
Qed.

Lemma judgements_at_most_one oid requests db :
  (judgements oid requests (snd (api.serve requests db)) <= 1)%nat.
Proof.
  revert db. induction requests as [|[now r] requests IH]; intros db; simpl; [lia|].
  destruct (judgement_of oid r (snd (api.handle now r db))) eqn:Hj.
  - assert (exists debate_id,
              ObjectId.of_str debate_id = Some oid
              /\ status_at debate_id (fst (api.handle now r db)) = Some judged)
      as (debate_id & Hid & Hst).
    { destruct r as [| | |debate_id winner reasoning judge_id|]; simpl in Hj;
        try done.
      apply andb_prop in Hj as [Hj Hid]. apply bool_decide_eq_true in Hid.
      exists debate_id. split; [done|]. by apply judge_route_success. }
    pose proof (judgements_after_judged oid debate_id requests
                  (fst (api.handle now r db)) Hid Hst) as Hrest.
    destruct (api.handle now r db) as [db1 resp]. simpl in *.
    destruct (api.serve requests db1) as [db2 resps]. simpl in *.
    rewrite Hj, Hrest. lia.
  - specialize (IH (fst (api.handle now r db))).
    destruct (api.handle now r db) as [db1 resp]. simpl in *.
    destruct (api.serve requests db1) as [db2 resps]. simpl in *.
    rewrite Hj. lia.
Qed.

(** ** Text *)

Section chars.

Import PyStr.

Lemma to_chars_of_chars l : to_chars (of_chars l) = l.
Proof. apply list_ascii_of_string_of_list_ascii. Qed.

Lemma of_chars_to_chars s : of_chars (to_chars s) = s.
Proof. apply string_of_list_ascii_of_string. Qed.

Lemma to_chars_app s1 s2 : to_chars (s1 +:+ s2) = to_chars s1 ++ to_chars s2.
Proof. induction s1 as [|c s1 IH]; simpl; [done|]. by rewrite IH. Qed.

Lemma length_to_chars s : length (to_chars s) = String.length s.
Proof. induction s as [|c s IH]; simpl; [done|]. by rewrite IH. Qed.

Lemma len_of_chars l : len (of_chars l) = Z.of_nat (length l).
Proof. unfold len. by rewrite <- length_to_chars, to_chars_of_chars. Qed.

Lemma len_app s1 s2 : len (s1 +:+ s2) = len s1 + len s2.
Proof.
  unfold len. rewrite <- !length_to_chars, to_chars_app, length_app. lia.
Qed.

Lemma len_nonneg s : 0 <= len s.
Proof. unfold len. lia. Qed.

(** *** Prefixes and suffixes *)

Lemma dropwhile_suffix P l : dropwhile P l `suffix_of` l.
Proof.
  induction l as [|c l IH]; simpl; [done|].
  destruct (P c); [by apply suffix_cons_r|done].
Qed.

Lemma rstrip_prefix l : rstrip l `prefix_of` l.
Proof.
  unfold rstrip. destruct (dropwhile_suffix isspace (rev l)) as [k Hk].
  exists (rev k). apply (f_equal (@rev ascii)) in Hk.
  rewrite rev_involutive, rev_app_distr in Hk. done.
Qed.

(** *** Collapsed whitespace *)

Lemma collapsed_app_l l1 l2 : collapsed (l1 ++ l2) = true -> collapsed l1 = true.
Proof.
  induction l1 as [|c l1 IH]; simpl; [done|].
  intros [Hc Hr]%andb_prop. rewrite (IH Hr), andb_true_r.
  destruct (isspace c); [|done].
  apply andb_prop in Hc as [-> Hnext]. simpl.
  destruct l1 as [|c2 l1]; [done|]. done.
Qed.

Lemma collapsed_app_r l1 l2 : collapsed (l1 ++ l2) = true -> collapsed l2 = true.
Proof.
  induction l1 as [|c l1 IH]; simpl; [done|].
  intros [_ Hr]%andb_prop. by apply IH.
Qed.

Lemma collapsed_prefix l1 l2 :
  l1 `prefix_of` l2 -> collapsed l2 = true -> collapsed l1 = true.
Proof. intros [k ->]. apply collapsed_app_l. Qed.

Lemma collapsed_suffix l1 l2 :
  l1 `suffix_of` l2 -> collapsed l2 = true -> collapsed l1 = true.
Proof. intros [k ->]. apply collapsed_app_r. Qed.

(** Appending text that does not start with whitespace. *)
Lemma collapsed_app l1 l2 :
  collapsed l1 = true -> collapsed l2 = true -> starts_with_space l2 = false ->
  collapsed (l1 ++ l2) = true.
Proof.
  intros H1 H2 Hs. induction l1 as [|c l1 IH]; simpl; [done|].
  simpl in H1. apply andb_prop in H1 as [Hc Hr]. rewrite (IH Hr), andb_true_r.
  destruct (isspace c); [|done].
  apply andb_prop in Hc as [-> Hnext]. simpl.
  destruct l1 as [|c2 l1]; simpl; [|done].
  destruct l2 as [|c2 l2]; [done|]. simpl in Hs. by rewrite Hs.
Qed.

(** [re.sub(r'\s+', ' ', s)] leaves collapsed whitespace. *)
Lemma sub_runs_collapsed in_run l :
  collapsed (Re.sub_runs isspace in_run l) = true
  /\ (in_run = true -> starts_with_space (Re.sub_runs isspace in_run l) = false).
Proof.
  revert in_run. induction l as [|c l IH]; intros in_run; simpl; [done|].
  destruct (isspace c) eqn:Hc.
  - destruct (IH true) as [Hcol Hstart]. specialize (Hstart eq_refl).
    destruct in_run; [done|]. split; [|done]. simpl.
    rewrite Hcol, andb_true_r.
    destruct (Re.sub_runs isspace true l) as [|c2 r]; [done|].
    simpl in Hstart. by rewrite Hstart.
  - destruct (IH false) as [Hcol _]. simpl. rewrite Hc. simpl. by split.
Qed.

Lemma sub_whitespace_collapsed l : collapsed (Re.sub_whitespace l) = true.
Proof. apply sub_runs_collapsed. Qed.

(** *** The self-reference pattern removes a prefix *)

Lemma match_literal_suffix lit l r :
  Re.match_literal lit l = Some r -> r `suffix_of` l.
Proof.
  revert l. induction lit as [|a lit IH]; intros l; simpl.
  - by intros [= ->].
  - destruct l as [|c l]; [done|].
    destruct (Ascii.eqb _ _); [|done].
    intros Hm. by apply suffix_cons_r, IH.
Qed.

Lemma match_reference_tail_suffix l r :
  Re.match_reference_tail l = Some r -> r `suffix_of` l.
Proof.
  unfold Re.match_reference_tail.
  destruct l as [|c l0]; [done|]. cbv beta iota zeta.
  set (l := c :: l0).
  destruct (isspace c); [|done].
  assert (dropwhile isspace l `suffix_of` l) as H1 by apply dropwhile_suffix.
  destruct (dropwhile isspace l) as [|w l1'] eqn:Hl1; [done|].
  destruct (isword w); [|done].
  assert (dropwhile isword (w :: l1') `suffix_of` (w :: l1')) as H2
    by apply dropwhile_suffix.
  set (l2 := dropwhile isword (w :: l1')) in *.
  assert (match l2 with
          | p :: r0 => if is_char 44 p || is_char 58 p then r0 else l2
          | [] => []
          end `suffix_of` l2) as H3.
  { destruct l2 as [|p r0]; [done|].
    destruct (_ || _); [by apply suffix_cons_r|done]. }
  intros [= <-].
  etrans; [apply dropwhile_suffix|]. etrans; [exact H3|]. by etrans.
Qed.

Lemma first_match_suffix openers l r :
  Re.first_match openers l = Some r -> r `suffix_of` l.
Proof.
  induction openers as [|lit openers IH]; simpl; [done|].
  destruct (Re.match_literal lit l) as [l1|] eqn:Hlit; simpl; [|exact IH].
  destruct (Re.match_reference_tail l1) as [l2|] eqn:Htail; [|exact IH].
  intros [= <-]. etrans; [by apply match_reference_tail_suffix|].
  by apply (match_literal_suffix lit).
Qed.

Lemma sub_self_reference_suffix l : Re.sub_self_reference l `suffix_of` l.
Proof.
  unfold Re.sub_self_reference.
  destruct (Re.first_match _ l) as [r|] eqn:Hm; [|done].
  by apply (first_match_suffix Re.reference_openers).
Qed.

(** *** Splitting into sentences and joining them again *)

Lemma is_char_eq n c : is_char n c = true -> c = ascii_of_N n.
Proof.
  unfold is_char, code. intros Hc%N.eqb_eq. rewrite <- Hc.
  symmetry. apply ascii_N_embedding.
Qed.

Lemma split_dot_space_step c c2 r :
  split_dot_space (c :: c2 :: r)
  = if is_char 46 c && is_char 32 c2 then [] :: split_dot_space r
    else match split_dot_space (c2 :: r) with
         | piece :: pieces => (c :: piece) :: pieces
         | [] => [[c]]
         end.
Proof. reflexivity. Qed.

Lemma split_dot_space_nonempty l : split_dot_space l <> [].
Proof.
  destruct l as [|c [|c2 r]]; [done|done|].
  rewrite split_dot_space_step.
  destruct (_ && _); [done|]. by destruct (split_dot_space (c2 :: r)).
Qed.

Lemma join_dot_space_cons c piece pieces :
  join_dot_space ((c :: piece) :: pieces) = c :: join_dot_space (piece :: pieces).
Proof. by destruct pieces. Qed.

Lemma join_dot_space_nil_cons pieces :
  pieces <> [] ->
  join_dot_space ([] :: pieces) = dot :: space :: join_dot_space pieces.
Proof. by destruct pieces. Qed.

Lemma join_split_pair l :
  join_dot_space (split_dot_space l) = l
  /\ forall c, join_dot_space (split_dot_space (c :: l)) = c :: l.
Proof.
  induction l as [|c2 r IH]; [by split|].
  destruct IH as [IH1 IH2]. split; [apply IH2|].
  intros c. rewrite split_dot_space_step.
  destruct (is_char 46 c && is_char 32 c2) eqn:Hsep.
  - apply andb_prop in Hsep as [->%is_char_eq ->%is_char_eq].
    rewrite join_dot_space_nil_cons by apply split_dot_space_nonempty.
    by rewrite IH1.
  - specialize (IH2 c2).
    destruct (split_dot_space (c2 :: r)) as [|piece pieces] eqn:Hs;
      rewrite ?Hs in IH2.
    + by apply split_dot_space_nonempty in Hs.
    + rewrite join_dot_space_cons. f_equal. exact IH2.
Qed.

Lemma join_split l : join_dot_space (split_dot_space l) = l.
Proof. apply join_split_pair. Qed.

Lemma join_removelast_prefix pieces :
  join_dot_space (removelast pieces) `prefix_of` join_dot_space pieces.
Proof.
  induction pieces as [|p [|q rest] IH]; [done|by apply prefix_nil|].
  change (removelast (p :: q :: rest)) with (p :: removelast (q :: rest)).
  change (join_dot_space (p :: q :: rest))
    with (p ++ dot :: space :: join_dot_space (q :: rest)).
  destruct (removelast (q :: rest)) as [|q' rest'] eqn:Hr.
  - simpl. by apply prefix_app_r.
  - change (join_dot_space (p :: q' :: rest'))
      with (p ++ dot :: space :: join_dot_space (q' :: rest')).
    apply prefix_app, prefix_cons, prefix_cons, IH.
Qed.

(** The separator between two texts separates their sentences. *)
Lemma split_app_pair l b :
  split_dot_space (l ++ dot :: space :: b) = split_dot_space l ++ split_dot_space b
  /\ forall c,
       split_dot_space ((c :: l) ++ dot :: space :: b)
       = split_dot_space (c :: l) ++ split_dot_space b.
Proof.
  induction l as [|c2 r IH].
  - split; [done|]. intros c. simpl.
    replace (is_char 46 c && is_char 32 dot) with false
      by (by rewrite andb_false_r).
    done.
  - destruct IH as [IH1 IH2]. split; [apply IH2|].
    intros c.
    change ((c :: c2 :: r) ++ dot :: space :: b)
      with (c :: c2 :: (r ++ dot :: space :: b)).
    rewrite !split_dot_space_step.
    destruct (is_char 46 c && is_char 32 c2).
    + by rewrite IH1.
    + specialize (IH2 c2).
      change ((c2 :: r) ++ dot :: space :: b)
        with (c2 :: (r ++ dot :: space :: b)) in IH2.
      rewrite IH2.
      destruct (split_dot_space (c2 :: r)) as [|piece pieces] eqn:Hs; [|done].
      by apply split_dot_space_nonempty in Hs.
Qed.

Lemma split_app l b :
  split_dot_space (l ++ dot :: space :: b) = split_dot_space l ++ split_dot_space b.
Proof. apply split_app_pair. Qed.

(** *** The cleaning steps *)

Lemma quote_not_newline c : isquote c = true -> isnewline c = false.
Proof.
  unfold isquote, isnewline. intros [Hc|Hc]%orb_prop;
    apply is_char_eq in Hc; by subst c.
Qed.

Lemma sub_closing_quote_snoc body q :
  isquote q = true -> Re.sub_closing_quote (body ++ [q]) = body.
Proof.
  intros Hq. induction body as [|c body IH]; simpl.
  - by rewrite Hq.
  - rewrite IH.
    replace (Re.at_end (body ++ [q])) with false; [by rewrite andb_false_r|].
    destruct body as [|c2 [|c3 body]]; simpl; try done.
    symmetry. by apply quote_not_newline.
Qed.

Lemma endswith_terminal_snoc l : endswith_terminal (l ++ [dot]) = true.
Proof. unfold endswith_terminal. by rewrite last_snoc. Qed.

Lemma nonempty_false l : AIService.nonempty l = false -> l = [].
Proof. by destruct l. Qed.

(** The sentence step returns the text, or a prefix of it that may be
    closed with a dot. *)
Lemma drop_unfinished_sentence_shape l :
  exists p, p `prefix_of` l
    /\ (AIService.drop_unfinished_sentence l = p
        \/ AIService.drop_unfinished_sentence l = p ++ [dot]).
Proof.
  unfold AIService.drop_unfinished_sentence.
  destruct (1 <? length (split_dot_space l))%nat; [|by exists l; split; [|left]].
  destruct (negb _); [|by exists l; split; [|left]].
  exists (join_dot_space (removelast (split_dot_space l))). split.
  - rewrite <- (join_split l) at 2. apply join_removelast_prefix.
  - destruct (_ && _); [by right|by left].
Qed.

Lemma collapsed_snoc_dot l : collapsed l = true -> collapsed (l ++ [dot]) = true.
Proof. intros Hl. by apply collapsed_app. Qed.

Lemma drop_unfinished_sentence_collapsed l :
  collapsed l = true -> collapsed (AIService.drop_unfinished_sentence l) = true.
Proof.
  intros Hl. destruct (drop_unfinished_sentence_shape l) as (p & Hp & [->| ->]).
  - by apply (collapsed_prefix p l).
  - by apply collapsed_snoc_dot, (collapsed_prefix p l).
Qed.

Lemma strip_collapsed l : collapsed l = true -> collapsed (strip l) = true.
Proof.
  intros Hl. unfold strip, lstrip.
  apply (collapsed_suffix _ (rstrip l)); [apply dropwhile_suffix|].
  by apply (collapsed_prefix _ l); [apply rstrip_prefix|].
Qed.

Lemma ensure_terminal_collapsed l :
  collapsed l = true -> collapsed (AIService.ensure_terminal l) = true.
Proof.
  intros Hl. unfold AIService.ensure_terminal.
  destruct (_ && _); [apply collapsed_snoc_dot|]; by apply strip_collapsed.
Qed.

Lemma ensure_terminal_ends l :
  AIService.ensure_terminal l = []
  \/ endswith_terminal (AIService.ensure_terminal l) = true.
Proof.
  unfold AIService.ensure_terminal.
  destruct (AIService.nonempty (strip l)) eqn:Hne; simpl.
  - right. destruct (endswith_terminal (strip l)) eqn:Hend; simpl; [done|].
    apply endswith_terminal_snoc.
  - left. by apply nonempty_false.
Qed.

(** The cleaned text has collapsed whitespace, and ends with a terminal mark
    unless it is empty. *)
Lemma clean_chars_collapsed l : collapsed (AIService.clean_chars l) = true.
Proof.
  unfold AIService.clean_chars. destruct l as [|c l]; [done|].
  apply ensure_terminal_collapsed, drop_unfinished_sentence_collapsed.
  apply (collapsed_suffix _ _ (sub_self_reference_suffix _)).
  apply sub_whitespace_collapsed.
Qed.

Lemma clean_chars_ends l :
  AIService.clean_chars l = []
  \/ endswith_terminal (AIService.clean_chars l) = true.
Proof.
  unfold AIService.clean_chars. destruct l as [|c l]; [by left|].
  apply ensure_terminal_ends.
Qed.

Lemma dropwhile_head P l :
  match dropwhile P l with c :: _ => P c = false | [] => True end.
Proof.
  induction l as [|c l IH]; simpl; [done|].
  destruct (P c) eqn:Hc; [exact IH|exact Hc].
Qed.

Lemma strip_no_leading_space l : starts_with_space (strip l) = false.
Proof.
  unfold strip, lstrip. pose proof (dropwhile_head isspace (rstrip l)) as Hh.
  by destruct (dropwhile isspace (rstrip l)).
Qed.

Lemma clean_chars_no_leading_space l :
  starts_with_space (AIService.clean_chars l) = false.
Proof.
  unfold AIService.clean_chars. destruct l as [|c l]; [done|].
  unfold AIService.ensure_terminal.
  set (stripped := strip _).
  pose proof (strip_no_leading_space
                (AIService.drop_unfinished_sentence
                   (Re.sub_self_reference
                      (Re.sub_whitespace
                         (Re.sub_newlines
                            (Re.sub_surrounding_quotes (c :: l))))))) as Hs.
  fold stripped in Hs.
  destruct (_ && _); [|done]. by destruct stripped.
Qed.

End chars.

(** ** Fallback texts and generated texts *)

Section strings.

Import PyStr.

Lemma ends_with_terminal_app s1 s2 :
  ends_with_terminal s2 = true -> ends_with_terminal (s1 +:+ s2) = true.
Proof.
  unfold ends_with_terminal, endswith_terminal.
  rewrite to_chars_app, last_app. by destruct (last (to_chars s2)).
Qed.

(** A template: the topic (or the name) between two literal parts. *)
Lemma template_closed_and_long before inserted after :
  ends_with_terminal after = true -> 20 <= len before + len after ->
  closed_and_long (before +:+ inserted +:+ after).
Proof.
  intros Hend Hlen. split.
  - by apply ends_with_terminal_app, ends_with_terminal_app.
  - rewrite !len_app. pose proof (len_nonneg inserted). lia.
Qed.

Lemma fallback_templates_closed_and_long topic :
  Forall (fun entry => snd entry <> [] /\ Forall closed_and_long (snd entry))
    (AIService.fallback_templates topic).
Proof.
  unfold AIService.fallback_templates.
  repeat (apply List.Forall_cons;
          [split; [done|];
           repeat (apply List.Forall_cons;
                   [apply template_closed_and_long; [reflexivity|by vm_compute]|]);
           apply List.Forall_nil|]).
  apply List.Forall_nil.
Qed.

Lemma lookup_templates_closed_and_long name table templates :
  Forall (fun entry => snd entry <> [] /\ Forall closed_and_long (snd entry)) table ->
  AIService.lookup_templates name table = Some templates ->
  templates <> [] /\ Forall closed_and_long templates.
Proof.
  induction 1 as [|[key ts] table Hhead _ IH]; simpl; [done|].
  destruct (String.eqb key name); [|exact IH]. by intros [= <-].
Qed.

(** The fallback text always ends with a terminal mark and has at least 20
    characters. *)
Lemma fallback_closed_and_long e i personality topic round_number :
  closed_and_long
    (AIService._generate_fallback_argument e i personality topic round_number).
Proof.
  unfold AIService._generate_fallback_argument.
  set (templates := match AIService.lookup_templates _ _ with
                    | Some templates => templates
                    | None => [AIService.default_template personality]
                    end).
  assert (templates <> [] /\ Forall closed_and_long templates) as [Hne Hall].
  { unfold templates.
    destruct (AIService.lookup_templates _ _) as [ts|] eqn:Hlook.
    - eapply lookup_templates_closed_and_long;
        [apply fallback_templates_closed_and_long|exact Hlook].
    - split; [done|]. apply List.Forall_cons; [|apply List.Forall_nil].
      apply template_closed_and_long; [reflexivity|by vm_compute]. }
  apply (proj1 (List.Forall_nth closed_and_long templates) Hall).
  apply Nat.mod_upper_bound. by destruct templates.
Qed.

(** The cleaned text, as a string. *)
Lemma clean_whitespace_collapsed argument :
  whitespace_collapsed (AIService._clean_and_validate_argument argument) = true.
Proof.
  unfold whitespace_collapsed, AIService._clean_and_validate_argument.
  rewrite to_chars_of_chars. apply clean_chars_collapsed.
Qed.

Lemma clean_ends_with_terminal argument :
  AIService._clean_and_validate_argument argument = EmptyString
  \/ ends_with_terminal (AIService._clean_and_validate_argument argument) = true.
Proof.
  unfold ends_with_terminal, AIService._clean_and_validate_argument.
  rewrite to_chars_of_chars.
  destruct (clean_chars_ends (to_chars argument)) as [->|Hend]; [by left|by right].
Qed.

(** Cutting at the maximum length. *)
Lemma truncated_contract cleaned :
  whitespace_collapsed cleaned = true ->
  Config.MAX_ARGUMENT_LENGTH < len cleaned ->
  let content := slice_to (Config.MAX_ARGUMENT_LENGTH - 3) cleaned +:+ "..." in
  ends_with_terminal content = true
  /\ len content = Config.MAX_ARGUMENT_LENGTH
  /\ whitespace_collapsed content = true.
Proof.
  intros Hcol Hlen content. unfold content. split; [|split].
  - by apply ends_with_terminal_app.
  - rewrite len_app. unfold slice_to. rewrite len_of_chars, length_take.
    unfold len in Hlen. rewrite <- length_to_chars in Hlen.
    unfold Config.MAX_ARGUMENT_LENGTH in *. change (len "...") with 3.
    change (Z.to_nat (500 - 3)) with 497%nat. lia.
  - unfold whitespace_collapsed, slice_to. rewrite to_chars_app, to_chars_of_chars.
    apply collapsed_app; [|done|done].
    apply (collapsed_prefix _ (to_chars cleaned)); [apply prefix_take|done].
Qed.

End strings.

(** ** One round of arguments *)

Lemma shuffle_permutation {A} (draws : list nat) (l : list A) :
  AIService.shuffle draws l ≡ₚ l.
Proof.
  revert draws. induction l as [|x r IH]; intros draws; simpl; [done|].
  rewrite <- Permutation_middle, take_drop. by rewrite IH.
Qed.

Lemma shuffle_length {A} (draws : list nat) (l : list A) :
  length (AIService.shuffle draws l) = length l.
Proof. apply Permutation_length, shuffle_permutation. Qed.

Lemma shuffle_map {A B} (f : A -> B) (draws : list nat) (l : list A) :
  map f (AIService.shuffle draws l) = AIService.shuffle draws (map f l).
Proof.
  revert draws. induction l as [|x r IH]; intros draws; simpl; [done|].
  rewrite map_app. simpl. rewrite <- firstn_map, <- skipn_map, IH.
  by rewrite !shuffle_length, length_map.
Qed.

(** The text of a generated argument: see [generate_argument_contract]
    below for the statement on [_generate_argument]. *)
Lemma generate_argument_closed_and_long e i personality topic context
    round_number current_round_args :
  closed_and_long
    (AIService._generate_argument e i personality topic context round_number
       current_round_args).
Proof.
  unfold AIService._generate_argument.
  destruct (AIService.generator e) as [generate|];
    [|apply fallback_closed_and_long].
  destruct (generate i _) as [generated_text|]; [|apply fallback_closed_and_long].
  set (cleaned := AIService._clean_and_validate_argument _).
  destruct (PyStr.len cleaned <? 20) eqn:Hshort; [apply fallback_closed_and_long|].
  apply Z.ltb_ge in Hshort.
  destruct (Config.MAX_ARGUMENT_LENGTH <? PyStr.len cleaned) eqn:Hlong.
  - apply Z.ltb_lt in Hlong.
    destruct (truncated_contract cleaned (clean_whitespace_collapsed _) Hlong)
      as (Hend & Hlen & _).
    split; [exact Hend|]. rewrite Hlen. by vm_compute.
  - split; [|done].
    destruct (clean_ends_with_terminal
                (PyStr.str_strip
                   (PyStr.slice_from
                      (PyStr.len
                         (AIService._build_enhanced_prompt personality topic
                            context round_number current_round_args))
                      generated_text))) as [Hempty|Hend]; [|exact Hend].
    fold cleaned in Hempty. rewrite Hempty in Hshort. by vm_compute in Hshort.
Qed.

(** One speaker adds one argument, its own, for the requested round. *)
Lemma speak_one e now topic previous_context round_number arguments p :
  exists a,
    AIService.speak e now topic previous_context round_number arguments p
    = arguments ++ [a]
    /\ DebateArgument.personality_id a = AIPersonality.name p
    /\ DebateArgument.round_number a = round_number
    /\ DebateArgument.timestamp a = now
    /\ DebateArgument.votes a = 0
    /\ closed_and_long (DebateArgument.content a).
Proof.
  unfold AIService.speak.
  destruct (AIService.raises e (length arguments)); eexists; (split; [done|]);
    simpl; repeat split; try done.
  - apply fallback_closed_and_long.
  - apply fallback_closed_and_long.
  - apply generate_argument_closed_and_long.
  - apply generate_argument_closed_and_long.
Qed.

(** The loop of [generate_debate_round] adds one argument per personality, in
    order, each for the requested round and by that personality. *)
Lemma speak_all e now topic previous_context round_number personalities arguments :
  exists added,
    fold_left (AIService.speak e now topic previous_context round_number)
      personalities arguments
    = arguments ++ added
    /\ map DebateArgument.personality_id added
       = map AIPersonality.name personalities
    /\ Forall (fun a => DebateArgument.round_number a = round_number
                        /\ DebateArgument.timestamp a = now
                        /\ DebateArgument.votes a = 0
                        /\ closed_and_long (DebateArgument.content a)) added.
Proof.
  revert arguments.
  induction personalities as [|p personalities IH]; intros arguments; simpl.
  - exists []. by rewrite app_nil_r.
  - destruct (speak_one e now topic previous_context round_number arguments p)
      as (a & -> & Hpid & Hround & Htime & Hvotes & Hcontent).
    destruct (IH (arguments ++ [a])) as (added & -> & Hnames & Hall).
    exists (a :: added). rewrite <- app_assoc. split; [done|].
    split; [simpl; by rewrite Hpid, Hnames|].
    by apply List.Forall_cons.
Qed.

(** The arguments of one round. *)
Lemma generate_debate_round_added e now db debate round_number :
  let arguments := AIService.generate_debate_round e now db debate round_number in
  map DebateArgument.personality_id arguments
    = AIService.shuffle (AIService.shuffle_draws e)
        (map PersonalityDoc.name (Mongo.personalities db))
  /\ map DebateArgument.personality_id arguments
     ≡ₚ map PersonalityDoc.name (Mongo.personalities db)
  /\ length arguments = length (Mongo.personalities db)
  /\ Forall (fun a => DebateArgument.round_number a = round_number
                      /\ DebateArgument.timestamp a = now
                      /\ DebateArgument.votes a = 0
                      /\ closed_and_long (DebateArgument.content a)) arguments.
Proof.
  intros arguments. unfold arguments, AIService.generate_debate_round.
  destruct (speak_all e now (Debate.topic debate)
              (AIService._build_context debate round_number) round_number
              (AIService.shuffle (AIService.shuffle_draws e)
                 (PersonalityService.get_debate_personalities db)) [])
    as (added & -> & Hnames & Hall).
  simpl.
  assert (map DebateArgument.personality_id added
          = AIService.shuffle (AIService.shuffle_draws e)
              (map PersonalityDoc.name (Mongo.personalities db))) as Hpids.
  { rewrite Hnames. unfold PersonalityService.get_debate_personalities.
    rewrite shuffle_map, map_map. f_equal. }
  split; [exact Hpids|].
  split; [rewrite Hpids; apply shuffle_permutation|].
  split; [|exact Hall].
  rewrite <- (length_map DebateArgument.personality_id), Hpids.
  rewrite (Permutation_length (shuffle_permutation _ _)). by rewrite length_map.
Qed.

(** ** Rosters *)

Lemma update_debate_registry_names debate_id filter update db :
  registry_names (fst (DebateService.update_debate debate_id filter update db))
  = registry_names db.
Proof. unfold registry_names. by rewrite update_debate_personalities. Qed.

Lemma update_debate_rostered names debate_id filter update db :
  (forall doc, roster_ok names doc -> roster_ok names (update doc)) ->
  rostered names db ->
  rostered names (fst (DebateService.update_debate debate_id filter update db)).
Proof.
  intros Hupd (Hnames & Hne & Hall). split; [|split; [done|]].
  - by rewrite update_debate_registry_names.
  - apply update_debate_docs_all; auto.
Qed.

Lemma update_personality_stats_names now name won votes_received db :
  registry_names
    (PersonalityService.update_personality_stats now name won votes_received db)
  = registry_names db.
Proof.
  unfold registry_names, PersonalityService.update_personality_stats.
  destruct (Mongo.find_one_by_name _ _); [|done]. simpl.
  apply names_update_one_by_name. intros p. apply stats_update_name.
Qed.

Lemma update_losers_names now winner participants db :
  registry_names (DebateService.update_losers now winner participants db)
  = registry_names db.
Proof.
  unfold DebateService.update_losers. revert db.
  induction participants as [|p ps IH]; intros db; simpl; [done|].
  rewrite IH. destruct (String.eqb p winner); [done|].
  apply update_personality_stats_names.
Qed.

Lemma rostered_same_debates names db db' :
  Mongo.debates db' = Mongo.debates db -> registry_names db' = registry_names db ->
  rostered names db -> rostered names db'.
Proof.
  intros Hd Hn (Hnames & Hne & Hall). split; [congruence|]. split; [done|].
  intros oid doc. rewrite Hd. apply Hall.
Qed.

Lemma start_debate_rostered names now debate_id db :
  rostered names db ->
  rostered names (fst (DebateService.start_debate now debate_id db)).
Proof.
  intros Hr. unfold DebateService.start_debate.
  pose proof (update_debate_rostered names debate_id
    (DebateService.status_is created) (DebateDoc.set_status in_progress now) db
    (fun doc H => H) Hr) as Hr1.
  destruct (DebateService.update_debate _ _ _ _) as [db1 m].
  by destruct (0 <? m).
Qed.

Lemma add_argument_rostered names now debate_id a db :
  DebateArgument.personality_id a ∈ names ->
  rostered names db ->
  rostered names (fst (DebateService.add_argument now debate_id a db)).
Proof.
  intros Ha Hr. unfold DebateService.add_argument.
  pose proof (update_debate_rostered names debate_id DebateService.any_doc
    (DebateDoc.push_argument (DebateArgument._dict a) now) db) as Hr1.
  destruct (DebateService.update_debate _ _ _ _) as [db1 m]. apply Hr1; [|done].
  intros doc [Hp Hargs]. split; [done|]. simpl.
  apply Forall_app. split; [done|]. by apply List.Forall_cons.
Qed.

Lemma add_arguments_rostered names now debate_id arguments db :
  Forall (fun a => DebateArgument.personality_id a ∈ names) arguments ->
  rostered names db ->
  rostered names (api.add_arguments now debate_id arguments db).
Proof.
  unfold api.add_arguments. intros Hargs. revert db.
  induction Hargs as [|a arguments Ha _ IH]; intros db Hr; simpl; [done|].
  by apply IH, add_argument_rostered.
Qed.

Lemma update_round_rostered names now debate_id r db :
  rostered names db ->
  rostered names (fst (DebateService.update_round now debate_id r db)).
Proof.
  intros Hr. unfold DebateService.update_round.
  pose proof (update_debate_rostered names debate_id DebateService.any_doc
    (DebateDoc.set_current_round r now) db (fun doc H => H) Hr) as Hr1.
  by destruct (DebateService.update_debate _ _ _ _).
Qed.

Lemma end_debate_rostered names now debate_id db :
  rostered names db ->
  rostered names (fst (DebateService.end_debate now debate_id db)).
Proof.
  intros Hr. unfold DebateService.end_debate.
  pose proof (update_debate_rostered names debate_id DebateService.any_doc
    (DebateDoc.set_status completed now) db (fun doc H => H) Hr) as Hr1.
  by destruct (DebateService.update_debate _ _ _ _).
Qed.

Lemma judge_debate_rostered names now debate_id winner reasoning judge_id db :
  rostered names db ->
  rostered names
    (fst (DebateService.judge_debate now debate_id winner reasoning judge_id db)).
Proof.
  intros Hr. unfold DebateService.judge_debate.
  pose proof (update_debate_rostered names debate_id DebateService.any_doc
    (DebateDoc.set_judged winner reasoning judge_id now) db (fun doc H => H) Hr)
    as Hr1.
  destruct (DebateService.update_debate _ _ _ _) as [db1 m]. simpl in Hr1.
  destruct (0 <? m); [|done].
  destruct (DebateService.get_debate _ _); simpl;
    eapply rostered_same_debates; try exact Hr1.
  - by rewrite update_losers_debates, update_personality_stats_debates.
  - by rewrite update_losers_names, update_personality_stats_names.
  - by rewrite update_personality_stats_debates.
  - by rewrite update_personality_stats_names.
Qed.

Lemma record_vote_roster names personality_id voter_id now doc :
  roster_ok names doc ->
  roster_ok names (DebateDoc.record_vote personality_id voter_id now doc).
Proof.
  unfold DebateDoc.record_vote, DebateDoc.vote_update.
  by destruct (DebateDoc.vote_fields personality_id voter_id doc).
Qed.

Lemma add_vote_rostered names now debate_id personality_id voter_id db :
  rostered names db ->
  rostered names
    (fst (DebateService.add_vote now debate_id personality_id voter_id db)).
Proof.
  intros Hr. unfold DebateService.add_vote.
  destruct (DebateService.get_debate _ _); [|done].
  destruct (FieldPath.has_key _ _); [done|].
  pose proof (update_debate_rostered names debate_id DebateService.any_doc
    (DebateDoc.record_vote personality_id voter_id now) db
    (fun doc => record_vote_roster names _ _ _ doc) Hr) as Hr1.
  by destruct (DebateService.update_debate _ _ _ _).
Qed.

Lemma get_debate_personalities_names db :
  map AIPersonality.name (PersonalityService.get_debate_personalities db)
  = registry_names db.
Proof.
  unfold PersonalityService.get_debate_personalities, registry_names.
  rewrite map_map. done.
Qed.

Lemma create_debate_rostered names fresh now topic creator_id db :
  rostered names db ->
  rostered names
    (fst (DebateService.create_debate fresh now topic creator_id db)).
Proof.
  intros (Hnames & Hne & Hall). unfold DebateService.create_debate.
  destruct (Mongo.debates db !! fresh) eqn:Hfresh; simpl; [done|].
  split; [done|]. split; [done|].
  intros oid doc. simpl. destruct (decide (fresh = oid)) as [->|Hneq].
  - rewrite lookup_insert_eq. intros [= <-]. split; simpl; [|done].
    by rewrite get_debate_personalities_names.
  - rewrite lookup_insert_ne by done. apply Hall.
Qed.

(** The registry is never empty once a [PersonalityService] was built. *)
Lemma personality_service_nonempty now db :
  Mongo.personalities (PersonalityService.init now db) <> [].
Proof. destruct db as [debates [|p ps]]; done. Qed.

Lemma generated_by_registered e now db debate round_number :
  Forall (fun a => DebateArgument.personality_id a ∈ registry_names db)
    (AIService.generate_debate_round e now db debate round_number).
Proof.
  destruct (generate_debate_round_added e now db debate round_number)
    as (_ & Hperm & _).
  apply Forall_forall. intros a Ha.
  rewrite <- Hperm. apply list_elem_of_In, in_map. by apply list_elem_of_In.
Qed.

Lemma rostered_seeded names now db :
  rostered names db ->
  PersonalityService.init now db = db /\ DebateService.init now db = db
  /\ api.services now db = db.
Proof.
  intros (Hnames & Hne & _).
  assert (Mongo.personalities db <> []) as Hp.
  { intros Hp. apply Hne. rewrite <- Hnames. unfold registry_names. by rewrite Hp. }
  split; [by apply personality_service_seeded|].
  split; [by apply personality_service_seeded|by apply services_seeded].
Qed.

(** Every route keeps the rosters. *)
Lemma handle_rostered names now r db :
  rostered names db -> rostered names (fst (api.handle now r db)).
Proof.
  intros Hr. destruct (rostered_seeded names now db Hr) as (_ & Hinit & Hsrv).
  destruct r as [fresh topic creator_id|e debate_id|e debate_id
                |debate_id winner reasoning judge_id
                |debate_id personality_id voter_id]; simpl.
  - unfold api.create_debate. rewrite Hinit.
    pose proof (create_debate_rostered names fresh now topic creator_id db Hr) as H1.
    by destruct (DebateService.create_debate _ _ _ _ _) as [db1 [d|]].
  - unfold api.start_debate. rewrite Hsrv.
    destruct (DebateService.get_debate debate_id db) as [debate|]; [|done].
    destruct (negb _); [done|].
    pose proof (start_debate_rostered names now debate_id db Hr) as H1.
    destruct (DebateService.start_debate now debate_id db) as [db1 [d|]];
      simpl in *; [|done].
    destruct (AIService.late e); simpl;
      (apply add_arguments_rostered; [|done]);
      destruct H1 as (<- & _ & _); apply generated_by_registered.
  - unfold api.next_round. rewrite Hsrv.
    destruct (DebateService.get_debate debate_id db) as [debate|]; [|done].
    destruct (negb _); [done|].
    destruct (Debate.max_rounds debate <? Debate.current_round debate + 1).
    + pose proof (end_debate_rostered names now debate_id db Hr) as H1.
      destruct (DebateService.end_debate now debate_id db) as [db1 ok].
      simpl in *. by destruct (DebateService.get_debate debate_id db1).
    + set (arguments := AIService.generate_debate_round _ _ _ _ _).
      assert (rostered names (api.add_arguments now debate_id arguments db)) as H1.
      { apply add_arguments_rostered; [|done].
        destruct Hr as (<- & _ & _). apply generated_by_registered. }
      pose proof (update_round_rostered names now debate_id
                    (Debate.current_round debate + 1) _ H1) as H2.
      destruct (DebateService.update_round _ _ _ _) as [db2 ok]. simpl in *.
      destruct (AIService.late e); [done|].
      by destruct (DebateService.get_debate debate_id db2).
  - unfold api.judge_debate.
    destruct winner as [winner|]; [|done].
    destruct (String.eqb winner EmptyString); [done|]. rewrite Hinit.
    destruct (DebateService.get_debate debate_id db) as [debate|]; [|done].
    destruct (bool_decide (Debate.status debate = judged)); [done|].
    destruct (negb (_ || _)); [done|].
    destruct (negb (bool_decide (winner ∈ _))); [done|].
    pose proof (judge_debate_rostered names now debate_id winner reasoning
                  judge_id db Hr) as H1.
    destruct (DebateService.judge_debate _ _ _ _ _ _) as [db1 [|]];
      simpl in *; [|done].
    by destruct (DebateService.get_debate debate_id db1).
  - unfold api.vote_on_debate.
    destruct personality_id as [personality_id|]; [|done].
    destruct (String.eqb personality_id EmptyString); [done|]. rewrite Hinit.
    pose proof (add_vote_rostered names now debate_id personality_id
                  (default "anonymous" voter_id) db Hr) as H1.
    destruct (DebateService.add_vote _ _ _ _ _) as [db1 [|]]; simpl in *; [|done].
    by destruct (DebateService.get_debate debate_id db1).
Qed.

(** A route either returns before it builds its services, or runs as on
    the store in which the registry has been seeded. *)
Lemma handle_after_seeding now r db :
  fst (api.handle now r db) = db
  \/ fst (api.handle now r db)
     = fst (api.handle now r (PersonalityService.init now db)).
Proof.
  destruct r as [fresh topic creator_id|e debate_id|e debate_id
                |debate_id winner reasoning judge_id
                |debate_id personality_id voter_id]; simpl.
  - right. unfold api.create_debate, DebateService.init.
    by rewrite personality_service_idempotent.
  - right. unfold api.start_debate, api.services, DebateService.init.
    by rewrite !personality_service_idempotent.
  - right. unfold api.next_round, api.services, DebateService.init.
    by rewrite !personality_service_idempotent.
  - unfold api.judge_debate.
    destruct winner as [winner|]; [|by left].
    destruct (String.eqb winner EmptyString); [by left|].
    right. unfold DebateService.init. by rewrite personality_service_idempotent.
  - unfold api.vote_on_debate.
    destruct personality_id as [personality_id|]; [|by left].
    destruct (String.eqb personality_id EmptyString); [by left|].
    right. unfold DebateService.init. by rewrite personality_service_idempotent.
Qed.

Lemma rostered_matches names db : rostered names db -> rosters_match_registry db.
Proof.
  intros (Hnames & Hne & Hall) oid doc Hdoc. rewrite Hnames. split; [done|].
  by apply (Hall oid).
Qed.

Lemma matches_rostered_after_seeding now db :
  rosters_match_registry db ->
  rostered (registry_names (PersonalityService.init now db))
    (PersonalityService.init now db).
Proof.
  intros Hm. split; [done|]. split.
  - unfold registry_names. pose proof (personality_service_nonempty now db).
    by destruct (Mongo.personalities (PersonalityService.init now db)).
  - intros oid doc. rewrite personality_service_debates. intros Hdoc.
    destruct (Hm oid doc Hdoc) as [Hne Hok].
    rewrite personality_service_seeded; [done|].
    intros Hp. apply Hne. unfold registry_names. by rewrite Hp.
Qed.

Lemma handle_rosters_match now r db :
  rosters_match_registry db -> rosters_match_registry (fst (api.handle now r db)).
Proof.
  intros Hm. destruct (handle_after_seeding now r db) as [->| ->]; [done|].
  eapply rostered_matches, handle_rostered.
  by apply matches_rostered_after_seeding.
Qed.

Lemma serve_rosters_match requests db :
  rosters_match_registry db -> rosters_match_registry (fst (api.serve requests db)).
Proof.
  revert db. induction requests as [|[now r] requests IH]; intros db Hm; simpl;
    [done|].
  pose proof (handle_rosters_match now r db Hm) as H1.
  destruct (api.handle now r db) as [db1 resp]. simpl in H1.
  specialize (IH db1 H1). by destruct (api.serve requests db1).
Qed.

(** ** Requests as events of one debate *)

Lemma push_argument_changes a now doc : DebateDoc.push_argument a now doc <> doc.
Proof.
  intros Heq. apply (f_equal (fun d => length (DebateDoc.arguments d))) in Heq.
  simpl in Heq. rewrite length_app in Heq. simpl in Heq. lia.
Qed.

Lemma appended_cons a arguments now doc :
  Lifecycle.appended (a :: arguments) now doc
  = Lifecycle.appended arguments now (DebateDoc.push_argument a now doc).
Proof. reflexivity. Qed.

(** Pushing the arguments one by one stores what one [$push] with [$each]
    stores, when there is an argument to push. *)
Lemma appended_push_arguments arguments now doc :
  Lifecycle.appended arguments now doc
  = match arguments with
    | [] => doc
    | _ => DebateDoc.push_arguments arguments now doc
    end.
Proof.
  revert doc. induction arguments as [|a arguments IH]; intros doc; [done|].
  rewrite appended_cons, IH. destruct arguments as [|b arguments]; [done|].
  unfold DebateDoc.push_arguments, DebateDoc.push_argument. simpl.
  by rewrite <- app_assoc.
Qed.

Lemma add_arguments_existing now debate_id arguments db oid doc :
  ObjectId.of_str debate_id = Some oid ->
  Mongo.debates db !! oid = Some doc ->
  api.add_arguments now debate_id arguments db
  = Mongo.set_debates
      (<[oid := Lifecycle.appended arguments now doc]> (Mongo.debates db)) db.
Proof.
  intros Hid. unfold api.add_arguments. revert db doc.
  induction arguments as [|a arguments IH]; intros db doc Hdoc; simpl.
  - rewrite insert_id by done. by destruct db.
  - unfold DebateService.add_argument at 2.
    rewrite (update_debate_hit _ _ _ db oid doc Hid Hdoc eq_refl
               (push_argument_changes _ _ _)). simpl.
    rewrite (IH _ (DebateDoc.push_argument (DebateArgument._dict a) now doc)).
    + simpl. by rewrite insert_insert_eq.
    + simpl. by rewrite lookup_insert_eq.
Qed.

Lemma add_arguments_missing now debate_id arguments db :
  DebateService.get_debate debate_id db = None ->
  api.add_arguments now debate_id arguments db = db.
Proof.
  intros Hnone. unfold api.add_arguments.
  induction arguments as [|a arguments IH]; simpl; [done|].
  unfold DebateService.add_argument at 2.
  rewrite update_debate_miss; [exact IH|].
  intros oid doc Hid Hdoc. unfold DebateService.get_debate in Hnone.
  rewrite Hid in Hnone. simpl in Hnone. by rewrite Hdoc in Hnone.
Qed.

Lemma get_debate_some debate_id db debate :
  DebateService.get_debate debate_id db = Some debate ->
  exists oid doc,
    ObjectId.of_str debate_id = Some oid /\ Mongo.debates db !! oid = Some doc
    /\ debate = Debate.from_dict doc.
Proof.
  unfold DebateService.get_debate.
  destruct (ObjectId.of_str debate_id) as [oid|]; simpl; [|done].
  destruct (Mongo.debates db !! oid) as [doc|] eqn:Hdoc; simpl; [|done].
  intros [= <-]. by exists oid, doc.
Qed.

Lemma set_status_changes s now doc :
  DebateDoc.status doc <> s -> DebateDoc.set_status s now doc <> doc.
Proof.
  intros Hs Heq. apply (f_equal DebateDoc.status) in Heq. simpl in Heq. congruence.
Qed.

Lemma set_judged_changes winner reasoning judge_id now doc :
  DebateDoc.status doc <> judged ->
  DebateDoc.set_judged winner reasoning judge_id now doc <> doc.
Proof.
  intros Hs Heq. apply (f_equal DebateDoc.status) in Heq. simpl in Heq. congruence.
Qed.

Lemma registry_names_set_debates c db :
  registry_names (Mongo.set_debates c db) = registry_names db.
Proof. reflexivity. Qed.

Lemma acts_as_same_debates names now before after after' :
  Mongo.debates after' = Mongo.debates after ->
  acts_as names now before after -> acts_as names now before after'.
Proof. unfold acts_as. intros ->. done. Qed.

(** Each route, on the debates. *)
Lemma create_debate_acts_as fresh now topic creator_id db :
  acts_as (registry_names (PersonalityService.init now db)) now db
    (fst (api.create_debate fresh now topic creator_id db)).
Proof.
  unfold api.create_debate, DebateService.init, DebateService.create_debate.
  rewrite personality_service_debates.
  destruct (Mongo.debates db !! fresh) eqn:Hfresh; simpl.
  - left. apply personality_service_debates.
  - right. right. exists fresh, topic, creator_id. split; [done|].
    unfold Lifecycle.fresh_doc. by rewrite get_debate_personalities_names.
Qed.

Lemma generated_round_of e now db debate round_number :
  Lifecycle.round_of (registry_names db) round_number
    (AIService.generate_debate_round e now db debate round_number).
Proof.
  destruct (generate_debate_round_added e now db debate round_number)
    as (_ & Hperm & _ & Hall).
  split; [exact Hperm|]. eapply Forall_impl; [exact Hall|]. by intros a [? _].
Qed.

Lemma start_debate_acts_as e now debate_id db :
  acts_as (registry_names (PersonalityService.init now db)) now db
    (fst (api.start_debate e now debate_id db)).
Proof.
  unfold api.start_debate. rewrite services_personalities.
  pose proof (personality_service_debates now db) as Hdebates.
  set (db1 := PersonalityService.init now db) in *.
  destruct (DebateService.get_debate debate_id db1) as [debate|] eqn:Hget;
    [|by left].
  destruct (bool_decide (Debate.status debate = created)) eqn:Hst; simpl;
    [|by left].
  apply bool_decide_eq_true in Hst.
  destruct (get_debate_some _ _ _ Hget) as (oid & doc & Hid & Hdoc & ->).
  simpl in Hst. unfold DebateService.start_debate.
  rewrite (update_debate_hit _ _ _ db1 oid doc Hid Hdoc).
  2: { unfold DebateService.status_is. by apply bool_decide_eq_true. }
  2: { apply set_status_changes. rewrite Hst. discriminate. }
  simpl. rewrite (get_debate_lookup _ _ _ Hid). simpl.
  rewrite lookup_insert_eq. simpl.
  set (doc2 := DebateDoc.set_status in_progress now doc).
  set (db2 := Mongo.set_debates (<[oid := doc2]> (Mongo.debates db1)) db1).
  set (arguments := AIService.generate_debate_round e now db2 _ 1).
  rewrite (add_arguments_existing now debate_id arguments db2 oid doc2 Hid)
    by apply lookup_insert_eq.
  rewrite fst_if.
  right. left. exists oid, doc, (Lifecycle.started arguments).
  split; [by rewrite <- Hdebates|].
  split; [split; [done|apply (generated_round_of e now db2)]|].
  simpl. by rewrite insert_insert_eq, Hdebates.
Qed.

Lemma next_round_acts_as e now debate_id db :
  acts_as (registry_names (PersonalityService.init now db)) now db
    (fst (api.next_round e now debate_id db)).
Proof.
  unfold api.next_round. rewrite services_personalities.
  pose proof (personality_service_debates now db) as Hdebates.
  set (db1 := PersonalityService.init now db) in *.
  destruct (DebateService.get_debate debate_id db1) as [debate|] eqn:Hget;
    [|by left].
  destruct (bool_decide (Debate.status debate = in_progress)) eqn:Hst; simpl;
    [|by left].
  apply bool_decide_eq_true in Hst.
  destruct (get_debate_some _ _ _ Hget) as (oid & doc & Hid & Hdoc & ->).
  simpl in Hst. simpl.
  destruct (DebateDoc.max_rounds doc <? DebateDoc.current_round doc + 1) eqn:Hlast.
  - apply Z.ltb_lt in Hlast. unfold DebateService.end_debate.
    rewrite (update_debate_hit _ _ _ db1 oid doc Hid Hdoc eq_refl).
    2: { apply set_status_changes. rewrite Hst. discriminate. }
    simpl. rewrite (get_debate_lookup _ _ _ Hid). simpl.
    rewrite lookup_insert_eq. simpl.
    right. left. exists oid, doc, Lifecycle.ended.
    split; [by rewrite <- Hdebates|]. split; [done|].
    simpl. by rewrite Hdebates.
  - apply Z.ltb_ge in Hlast.
    set (arguments := AIService.generate_debate_round e now db1 _ _).
    rewrite (add_arguments_existing now debate_id arguments db1 oid doc Hid Hdoc).
    set (doc2 := Lifecycle.appended arguments now doc).
    set (db2 := Mongo.set_debates (<[oid := doc2]> (Mongo.debates db1)) db1).
    assert (DebateDoc.current_round doc2 = DebateDoc.current_round doc) as Hround.
    { unfold doc2. rewrite appended_push_arguments. by destruct arguments. }
    assert (DebateService.update_round now debate_id
              (DebateDoc.current_round doc + 1) db2
            = (Mongo.set_debates
                 (<[oid := DebateDoc.set_current_round
                             (DebateDoc.current_round doc + 1) now doc2]>
                    (Mongo.debates db2)) db2, true)) as ->.
    { unfold DebateService.update_round.
      rewrite (update_debate_hit _ _ _ db2 oid doc2 Hid); [done| |done|].
      - apply lookup_insert_eq.
      - intros Heq. apply (f_equal DebateDoc.current_round) in Heq.
        simpl in Heq. lia. }
    simpl. rewrite (get_debate_lookup _ _ _ Hid). simpl.
    rewrite lookup_insert_eq. simpl. rewrite fst_if.
    right. left. exists oid, doc, (Lifecycle.advanced arguments).
    split; [by rewrite <- Hdebates|].
    split; [split; [done|split; [done|apply (generated_round_of e now db1)]]|].
    simpl. by rewrite insert_insert_eq, Hdebates.
Qed.

Lemma judge_debate_acts_as now debate_id winner reasoning judge_id db :
  acts_as (registry_names (PersonalityService.init now db)) now db
    (fst (api.judge_debate now debate_id winner reasoning judge_id db)).
Proof.
  unfold api.judge_debate.
  destruct winner as [winner|]; [|by left].
  destruct (String.eqb winner EmptyString) eqn:Hw; [by left|].
  apply String.eqb_neq in Hw.
  unfold DebateService.init.
  pose proof (personality_service_debates now db) as Hdebates.
  set (db1 := PersonalityService.init now db) in *.
  destruct (DebateService.get_debate debate_id db1) as [debate|] eqn:Hget;
    [|by left].
  destruct (get_debate_some _ _ _ Hget) as (oid & doc & Hid & Hdoc & ->).
  simpl.
  destruct (bool_decide (DebateDoc.status doc = judged)) eqn:Hj; [by left|].
  apply bool_decide_eq_false in Hj.
  destruct (bool_decide (DebateDoc.status doc = completed)
            || bool_decide (DebateDoc.status doc = in_progress)) eqn:Hst;
    simpl; [|by left].
  destruct (bool_decide (winner ∈ DebateDoc.participants doc)) eqn:Hin;
    simpl; [|by left].
  apply bool_decide_eq_true in Hin.
  pose proof (judge_service_debates now debate_id winner reasoning judge_id db1)
    as Hjd.
  rewrite (update_debate_hit _ _ _ db1 oid doc Hid Hdoc eq_refl
             (set_judged_changes _ _ _ _ _ Hj)) in Hjd. simpl in Hjd.
  revert Hjd.
  destruct (DebateService.judge_debate _ _ _ _ _ _) as [db2 ok]. simpl.
  intros Hjd.
  apply (acts_as_same_debates _ _ _ db2).
  { destruct ok; simpl; [|done].
    by destruct (DebateService.get_debate debate_id db2). }
  right. left. exists oid, doc, (Lifecycle.judged_with winner reasoning judge_id).
  split; [by rewrite <- Hdebates|]. split.
  - split; [|done]. apply orb_prop in Hst as [Hc|Hp];
      apply bool_decide_eq_true in Hc || apply bool_decide_eq_true in Hp; auto.
  - by rewrite Hjd, Hdebates.
Qed.

Lemma vote_on_debate_acts_as now debate_id personality_id voter_id db :
  acts_as (registry_names (PersonalityService.init now db)) now db
    (fst (api.vote_on_debate now debate_id personality_id voter_id db)).
Proof.
  unfold api.vote_on_debate.
  destruct personality_id as [personality_id|]; [|by left].
  destruct (String.eqb personality_id EmptyString) eqn:Hp; [by left|].
  apply String.eqb_neq in Hp.
  unfold DebateService.init.
  pose proof (personality_service_debates now db) as Hdebates.
  set (db1 := PersonalityService.init now db) in *.
  destruct (DebateService.get_debate debate_id db1) as [debate|] eqn:Hget.
  - destruct (get_debate_some _ _ _ Hget) as (oid & doc & Hid & Hdoc & ->).
    rewrite (add_vote_existing now debate_id personality_id
               (default "anonymous" voter_id) db1 oid doc Hid Hdoc).
    destruct (DebateDoc.vote_update personality_id
                (default "anonymous" voter_id) now doc) as [doc'|] eqn:Hupdate;
      [|by left].
    rewrite (get_debate_lookup _ _ _ Hid). simpl. rewrite lookup_insert_eq. simpl.
    right. left.
    exists oid, doc,
      (Lifecycle.voted personality_id (default "anonymous" voter_id)).
    split; [by rewrite <- Hdebates|]. split.
    + split; [done|]. unfold DebateDoc.vote_update in Hupdate.
      by destruct (DebateDoc.vote_fields _ _ _).
    + simpl. unfold DebateDoc.record_vote. by rewrite Hupdate, Hdebates.
  - rewrite (add_vote_missing _ _ _ _ _ Hget). by left.
Qed.

(** Every request is nothing, one enabled event, or one insertion. *)
Lemma handle_acts_as now r db :
  acts_as (registry_names (PersonalityService.init now db)) now db
    (fst (api.handle now r db)).
Proof.
  destruct r; simpl.
  - apply create_debate_acts_as.
  - apply start_debate_acts_as.
  - apply next_round_acts_as.
  - apply judge_debate_acts_as.
  - apply vote_on_debate_acts_as.
Qed.

(** *** Documents only move forward *)

Lemma evolves_refl doc : Lifecycle.evolves doc doc.
Proof. unfold Lifecycle.evolves. repeat split; try done; lia. Qed.

Lemma evolves_trans doc1 doc2 doc3 :
  Lifecycle.evolves doc1 doc2 -> Lifecycle.evolves doc2 doc3 ->
  Lifecycle.evolves doc1 doc3.
Proof.
  unfold Lifecycle.evolves.
  intros (?&?&?&?&?&?&?&?&?&?) (?&?&?&?&?&?&?&?&?&?).
  repeat split; try congruence; try lia. by etrans.
Qed.

Lemma appended_evolves arguments now doc :
  Lifecycle.evolves doc (Lifecycle.appended arguments now doc).
Proof.
  rewrite appended_push_arguments. destruct arguments as [|a arguments];
    [apply evolves_refl|].
  unfold Lifecycle.evolves. simpl. repeat split; try done; try lia.
  by apply prefix_app_r.
Qed.

Lemma apply_evolves names now ev doc :
  Lifecycle.enabled names ev doc -> Lifecycle.evolves doc (Lifecycle.apply now ev doc).
Proof.
  destruct ev as [arguments|arguments| |winner reasoning judge_id
                 |personality_id voter_id]; simpl.
  - intros [Hst _]. eapply evolves_trans; [|apply appended_evolves].
    unfold Lifecycle.evolves. simpl. rewrite Hst. repeat split; try done; lia.
  - intros _. eapply evolves_trans; [apply (appended_evolves arguments now)|].
    unfold Lifecycle.evolves. simpl. repeat split; try done; try lia.
    rewrite appended_push_arguments. destruct arguments; simpl; lia.
  - intros [Hst _]. unfold Lifecycle.evolves. simpl. rewrite Hst.
    repeat split; try done; lia.
  - intros _. unfold Lifecycle.evolves. simpl.
    repeat split; try done; try lia. destruct (DebateDoc.status doc); simpl; lia.
  - intros _. unfold Lifecycle.evolves, DebateDoc.record_vote,
      DebateDoc.vote_update.
    destruct (DebateDoc.vote_fields personality_id voter_id doc); simpl;
      repeat split; try done; lia.
Qed.

Lemma acts_as_evolves names now db db' :
  acts_as names now db db' ->
  forall oid doc,
    Mongo.debates db !! oid = Some doc ->
    exists doc', Mongo.debates db' !! oid = Some doc' /\ Lifecycle.evolves doc doc'.
Proof.
  intros [Hsame|[(oid0 & doc0 & ev & Hdoc0 & Hen & Hafter)
                |(fresh & topic & creator_id & Hfresh & Hafter)]] oid doc Hdoc.
  - exists doc. rewrite Hsame. split; [done|apply evolves_refl].
  - rewrite Hafter. destruct (decide (oid0 = oid)) as [->|Hne].
    + rewrite lookup_insert_eq. eexists. split; [done|].
      rewrite Hdoc in Hdoc0. injection Hdoc0 as <-. by eapply apply_evolves.
    + rewrite lookup_insert_ne by done. exists doc. split; [done|apply evolves_refl].
  - rewrite Hafter. rewrite lookup_insert_ne by congruence.
    exists doc. split; [done|apply evolves_refl].
Qed.

(** *** Complete rounds *)

Lemma filter_all {A} (f : A -> bool) l :
  Forall (fun a => f a = true) l -> List.filter f l = l.
Proof. induction 1 as [|a l Ha _ IH]; simpl; [done|]. by rewrite Ha, IH. Qed.

Lemma filter_none {A} (f : A -> bool) l :
  Forall (fun a => f a = false) l -> List.filter f l = [].
Proof. induction 1 as [|a l Ha _ IH]; simpl; [done|]. by rewrite Ha, IH. Qed.

Lemma round_of_length names r arguments :
  Lifecycle.round_of names r arguments -> length arguments = length names.
Proof.
  intros [Hperm _]. apply Permutation_length in Hperm.
  by rewrite length_map in Hperm.
Qed.

Lemma round_of_filter names r arguments k :
  Lifecycle.round_of names r arguments ->
  List.filter (fun a => DebateArgument.round_number a =? k) arguments
  = if k =? r then arguments else [].
Proof.
  intros [_ Hall]. destruct (k =? r) eqn:Hk.
  - apply Z.eqb_eq in Hk. subst k. apply filter_all.
    eapply Forall_impl; [exact Hall|]. intros a ->. apply Z.eqb_refl.
  - apply Z.eqb_neq in Hk. apply filter_none.
    eapply Forall_impl; [exact Hall|]. intros a ->. apply Z.eqb_neq. congruence.
Qed.

Lemma fresh_doc_rounds_complete fresh now topic creator_id names :
  Lifecycle.rounds_complete names
    (Lifecycle.fresh_doc fresh now topic creator_id names).
Proof.
  unfold Lifecycle.rounds_complete. simpl. split; [lia|]. split; [done|].
  split; [done|]. done.
Qed.

Lemma apply_rounds_complete names now ev doc :
  Lifecycle.enabled names ev doc ->
  Lifecycle.rounds_complete names doc ->
  Lifecycle.rounds_complete names (Lifecycle.apply now ev doc).
Proof.
  unfold Lifecycle.rounds_complete, Lifecycle.in_round.
  destruct ev as [arguments|arguments| |winner reasoning judge_id
                 |personality_id voter_id]; simpl.
  - intros [Hst Hround] (Hbounds & Hall & Hcreated & _).
    destruct (Hcreated Hst) as [Hnil Hone].
    rewrite appended_push_arguments.
    assert (DebateDoc.arguments
              (match arguments with
               | [] => DebateDoc.set_status in_progress now doc
               | _ :: _ =>
                   DebateDoc.push_arguments arguments now
                     (DebateDoc.set_status in_progress now doc)
               end) = arguments) as Hargs.
    { destruct arguments; simpl; [done|]. by rewrite Hnil. }
    assert (forall A (f : DebateDoc.t -> A),
              (forall l n d, f (DebateDoc.push_arguments l n d) = f d) ->
              f (match arguments with
                 | [] => DebateDoc.set_status in_progress now doc
                 | _ :: _ =>
                     DebateDoc.push_arguments arguments now
                       (DebateDoc.set_status in_progress now doc)
                 end) = f (DebateDoc.set_status in_progress now doc)) as Hsame.
    { intros A f Hf. destruct arguments; [done|apply Hf]. }
    rewrite Hargs.
    rewrite (Hsame _ DebateDoc.current_round (fun _ _ _ => eq_refl)).
    rewrite (Hsame _ DebateDoc.max_rounds (fun _ _ _ => eq_refl)).
    rewrite (Hsame _ DebateDoc.status (fun _ _ _ => eq_refl)). simpl.
    split; [done|]. split.
    { destruct Hround as [_ Hr]. eapply Forall_impl; [exact Hr|].
      intros a ->. lia. }
    split; [done|]. intros _. split.
    + intros k Hk. rewrite (round_of_filter names 1 arguments k Hround).
      replace (k =? 1) with true by (symmetry; apply Z.eqb_eq; lia).
      apply Hround.
    + rewrite (round_of_length _ _ _ Hround). lia.
  - intros (Hst & Hmax & Hround) (Hbounds & Hall & _ & Hstarted).
    destruct Hstarted as [Hrounds Hcount]; [rewrite Hst; discriminate|].
    assert (DebateDoc.arguments (Lifecycle.appended arguments now doc)
            = DebateDoc.arguments doc ++ arguments) as Hargs.
    { rewrite appended_push_arguments. destruct arguments; simpl; [|done].
      by rewrite app_nil_r. }
    assert (DebateDoc.max_rounds (Lifecycle.appended arguments now doc)
            = DebateDoc.max_rounds doc
            /\ DebateDoc.status (Lifecycle.appended arguments now doc)
               = DebateDoc.status doc) as [Hm Hs].
    { rewrite appended_push_arguments. by destruct arguments. }
    rewrite Hargs, Hm, Hs. split; [lia|]. split.
    { apply Forall_app. split.
      - eapply Forall_impl; [exact Hall|]. intros a Ha. simpl in Ha. lia.
      - destruct Hround as [_ Hr]. eapply Forall_impl; [exact Hr|].
        intros a ->. lia. }
    split; [rewrite Hst; discriminate|]. intros _. split.
    + intros k Hk. rewrite List.filter_app.
      rewrite (round_of_filter names _ arguments k Hround).
      destruct (k =? DebateDoc.current_round doc + 1) eqn:Hlast.
      * apply Z.eqb_eq in Hlast. subst k.
        rewrite filter_none; [apply Hround|].
        eapply Forall_impl; [exact Hall|]. intros a Ha. simpl in Ha.
        apply Z.eqb_neq. lia.
      * apply Z.eqb_neq in Hlast. rewrite app_nil_r. apply Hrounds. lia.
    + rewrite length_app, (round_of_length _ _ _ Hround). lia.
  - intros [Hst _] (Hbounds & Hall & _ & Hstarted).
    split; [done|]. split; [done|]. split; [done|]. intros _.
    apply Hstarted. rewrite Hst. discriminate.
  - intros [Hst _] (Hbounds & Hall & _ & Hstarted).
    split; [done|]. split; [done|]. split; [done|]. intros _.
    apply Hstarted. destruct Hst as [-> | ->]; discriminate.
  - intros _ H. unfold DebateDoc.record_vote, DebateDoc.vote_update.
    by destruct (DebateDoc.vote_fields personality_id voter_id doc).
Qed.

Lemma acts_as_rounds_complete names now db db' :
  acts_as names now db db' ->
  docs_all (Lifecycle.rounds_complete names) db ->
  docs_all (Lifecycle.rounds_complete names) db'.
Proof.
  intros [Hsame|[(oid0 & doc0 & ev & Hdoc0 & Hen & Hafter)
                |(fresh & topic & creator_id & Hfresh & Hafter)]] Hall oid doc.
  - rewrite Hsame. apply Hall.
  - rewrite Hafter. destruct (decide (oid0 = oid)) as [->|Hne].
    + rewrite lookup_insert_eq. intros [= <-].
      apply apply_rounds_complete; [done|]. by apply (Hall oid).
    + rewrite lookup_insert_ne by done. apply Hall.
  - rewrite Hafter. destruct (decide (fresh = oid)) as [->|Hne].
    + rewrite lookup_insert_eq. intros [= <-]. apply fresh_doc_rounds_complete.
    + rewrite lookup_insert_ne by done. apply Hall.
Qed.

Lemma handle_well_run now r db :
  well_run db -> well_run (fst (api.handle now r db)).
Proof.
  intros [Hm Hrounds].
  destruct (handle_after_seeding now r db) as [Hsame|Hseeded].
  { rewrite Hsame. by split. }
  pose proof (matches_rostered_after_seeding now db Hm) as Hr1.
  pose proof (handle_rostered _ now r (PersonalityService.init now db) Hr1) as Hr2.
  rewrite Hseeded. split; [by eapply rostered_matches|].
  destruct Hr2 as (-> & _ & _).
  pose proof (handle_acts_as now r (PersonalityService.init now db)) as Hact.
  rewrite personality_service_idempotent in Hact.
  eapply acts_as_rounds_complete; [exact Hact|].
  intros oid doc. rewrite personality_service_debates.
  intros Hdoc. destruct (Hm oid doc Hdoc) as [Hne _].
  rewrite personality_service_seeded; [by apply (Hrounds oid)|].
  intros Hp. apply Hne. unfold registry_names. by rewrite Hp.
Qed.

Lemma serve_well_run requests db :
  well_run db -> well_run (fst (api.serve requests db)).
Proof.
  revert db. induction requests as [|[now r] requests IH]; intros db Hw; simpl;
    [done|].
  pose proof (handle_well_run now r db Hw) as H1.
  destruct (api.handle now r db) as [db1 resp]. simpl in H1.
  specialize (IH db1 H1). by destruct (api.serve requests db1).
Qed.

Lemma no_debates_well_run db : Mongo.debates db = ∅ -> well_run db.
Proof.
  intros Hempty. split; intros oid doc; rewrite Hempty, lookup_empty; done.
Qed.

(** ** The service methods on one debate *)

Lemma missing_debate_miss debate_id db filter update :
  DebateService.get_debate debate_id db = None ->
  DebateService.update_debate debate_id filter update db = (db, 0).
Proof.
  intros Hnone. unfold DebateService.update_debate, Mongo.update_one.
  unfold DebateService.get_debate in Hnone.
  destruct (ObjectId.of_str debate_id) as [oid|]; simpl in Hnone; [|done].
  destruct (Mongo.debates db !! oid); [done|]. by destruct db.
Qed.

(** The registry under one statistics update. *)
Lemma find_update_other name name' update c :
  name <> name' ->
  (forall p, PersonalityDoc.name (update p) = PersonalityDoc.name p) ->
  Mongo.find_one_by_name name' (Mongo.update_one_by_name name update c)
  = Mongo.find_one_by_name name' c.
Proof.
  intros Hne Hname. unfold Mongo.find_one_by_name.
  induction c as [|p c IH]; simpl; [done|].
  destruct (String.eqb (PersonalityDoc.name p) name) eqn:Hp; simpl.
  - rewrite Hname. apply String.eqb_eq in Hp.
    destruct (String.eqb (PersonalityDoc.name p) name') eqn:Hp'; [|done].
    apply String.eqb_eq in Hp'. congruence.
  - by rewrite IH.
Qed.

Lemma update_personality_stats_find now name won votes_received db name' :
  Mongo.find_one_by_name name'
    (Mongo.personalities
       (PersonalityService.update_personality_stats now name won votes_received db))
  = if bool_decide (name' = name)
    then PersonalityService.stats_update now won votes_received
           <$> Mongo.find_one_by_name name' (Mongo.personalities db)
    else Mongo.find_one_by_name name' (Mongo.personalities db).
Proof.
  unfold PersonalityService.update_personality_stats.
  destruct (decide (name' = name)) as [->|Hne].
  - rewrite bool_decide_eq_true_2 by done.
    destruct (Mongo.find_one_by_name name (Mongo.personalities db)) eqn:Hfind;
      simpl; [|by rewrite Hfind].
    rewrite find_update_one_by_name by (intros p; apply stats_update_name).
    by rewrite Hfind.
  - rewrite bool_decide_eq_false_2 by done.
    destruct (Mongo.find_one_by_name name (Mongo.personalities db)); [|done].
    simpl. apply find_update_other; [done|]. intros p. apply stats_update_name.
Qed.

(** The loop over the losers updates each participant other than the winner
    once, when no participant is listed twice. *)
Lemma update_losers_find now winner participants db name :
  NoDup participants ->
  Mongo.find_one_by_name name
    (Mongo.personalities (DebateService.update_losers now winner participants db))
  = if bool_decide (name ∈ participants /\ name <> winner)
    then PersonalityService.stats_update now false 0
           <$> Mongo.find_one_by_name name (Mongo.personalities db)
    else Mongo.find_one_by_name name (Mongo.personalities db).
Proof.
  unfold DebateService.update_losers. intros Hnodup. revert db.
  induction Hnodup as [|p ps Hp _ IH]; intros db; cbn [fold_left].
  - rewrite bool_decide_eq_false_2; [done|]. intros [Hin _]. by apply not_elem_of_nil in Hin.
  - rewrite IH. destruct (String.eqb_spec p winner) as [->|Hpw].
    + destruct (decide (name ∈ ps /\ name <> winner)) as [[Hin Hne]|Hno].
      * rewrite !bool_decide_eq_true_2; [done| |done]. split; [by right|done].
      * rewrite !bool_decide_eq_false_2; [done| |done].
        intros [Hin Hne]. apply Hno. split; [|done].
        apply elem_of_cons in Hin as [->|Hin]; done.
    + rewrite update_personality_stats_find.
      destruct (decide (name = p)) as [->|Hnp].
      * rewrite (bool_decide_eq_false_2 (p ∈ ps /\ p <> winner)) by (by intros [? _]).
        rewrite bool_decide_eq_true_2 by done.
        rewrite bool_decide_eq_true_2; [done|]. split; [by left|done].
      * rewrite (bool_decide_eq_false_2 (name = p)) by done.
        destruct (decide (name ∈ ps /\ name <> winner)) as [[Hin Hne]|Hno].
        -- rewrite !bool_decide_eq_true_2; [done| |done]. split; [by right|done].
        -- rewrite !bool_decide_eq_false_2; [done| |done].
           intros [Hin Hne]. apply Hno. split; [|done].
           apply elem_of_cons in Hin as [->|Hin]; done.
Qed.

(** ** The registry under the API *)

Lemma update_one_by_name_all (P : PersonalityDoc.t -> Prop) name update c :
  (forall p, P p -> P (update p)) ->
  Forall P c -> Forall P (Mongo.update_one_by_name name update c).
Proof.
  intros Hupd Hall. induction Hall as [|p c Hp Hc IH]; simpl; [done|].
  destruct (String.eqb (PersonalityDoc.name p) name); constructor; auto.
Qed.

Section registry_invariant.

Context (P : PersonalityDoc.t -> Prop).
Hypothesis stats_update_keeps :
  forall now won p, P p -> P (PersonalityService.stats_update now won 0 p).

Lemma update_personality_stats_all now name won db :
  Forall P (Mongo.personalities db) ->
  Forall P (Mongo.personalities
              (PersonalityService.update_personality_stats now name won 0 db)).
Proof.
  intros Hall. unfold PersonalityService.update_personality_stats.
  destruct (Mongo.find_one_by_name name (Mongo.personalities db)); [|done].
  simpl. apply update_one_by_name_all; [|done]. intros p. apply stats_update_keeps.
Qed.

Lemma update_losers_all now winner participants db :
  Forall P (Mongo.personalities db) ->
  Forall P (Mongo.personalities
              (DebateService.update_losers now winner participants db)).
Proof.
  unfold DebateService.update_losers. revert db.
  induction participants as [|p ps IH]; intros db Hall; cbn [fold_left]; [done|].
  apply IH. destruct (String.eqb p winner); [done|].
  by apply update_personality_stats_all.
Qed.

Lemma judge_debate_all now debate_id winner reasoning judge_id db :
  Forall P (Mongo.personalities db) ->
  Forall P (Mongo.personalities
              (fst (DebateService.judge_debate now debate_id winner reasoning
                      judge_id db))).
Proof.
  intros Hall. unfold DebateService.judge_debate.
  pose proof (update_debate_personalities debate_id DebateService.any_doc
    (DebateDoc.set_judged winner reasoning judge_id now) db) as Hp.
  destruct (DebateService.update_debate _ _ _ _) as [db1 m]. simpl in Hp.
  rewrite <- Hp in Hall.
  destruct (0 <? m); [|done].
  destruct (DebateService.get_debate _ _); simpl.
  - by apply update_losers_all, update_personality_stats_all.
  - by apply update_personality_stats_all.
Qed.

Lemma handle_all now r db :
  Forall P (Mongo.personalities (PersonalityService.init now db)) ->
  Forall P (Mongo.personalities db) ->
  Forall P (Mongo.personalities (fst (api.handle now r db))).
Proof.
  intros Hinit Hall.
  destruct (judgement r (snd (api.handle now r db))) eqn:Hj.
  - destruct r as [fresh topic creator_id|e debate_id|e debate_id
                  |debate_id winner reasoning judge_id
                  |debate_id personality_id voter_id]; try done.
    simpl in *. unfold api.judge_debate in *.
    destruct winner as [winner|]; [|done].
    destruct (String.eqb winner EmptyString); [done|].
    unfold DebateService.init in *.
    destruct (DebateService.get_debate debate_id _); [|done].
    destruct (bool_decide (Debate.status _ = judged)); [done|].
    destruct (negb _); [done|]. destruct (negb _); [done|].
    pose proof (judge_debate_all now debate_id winner reasoning judge_id
                  (PersonalityService.init now db) Hinit) as Hjd.
    destruct (DebateService.judge_debate _ _ _ _ _ _) as [db1 [|]]; [|done].
    by destruct (DebateService.get_debate debate_id db1).
  - destruct (handle_statistics now r db Hj) as [-> | ->]; done.
Qed.

End registry_invariant.

Lemma stats_update_in_step now won p :
  stats_in_step p -> stats_in_step (PersonalityService.stats_update now won 0 p).
Proof.
  intros ((Hw0 & Hw) & Hargs & Havg & Hrate).
  unfold PersonalityService.stats_update.
  destruct (PersonalityService.new_average_votes p 0) as [a|] eqn:Ha;
    [|done].
  unfold stats_in_step. simpl.
  repeat split; try lia; [destruct won; lia|destruct won; lia| |done].
  apply (new_average_votes_zero p a); [lia|done|done].
Qed.

Lemma seeded_in_step now db :
  Forall stats_in_step (Mongo.personalities db) ->
  Forall stats_in_step (Mongo.personalities (PersonalityService.init now db)).
Proof.
  intros Hall. destruct db as [debates [|p ps]]; [|done].
  unfold PersonalityService.init, PersonalityService._initialize_personalities.
  cbn.
  repeat (apply List.Forall_cons;
          [unfold stats_in_step; simpl; repeat split;
             (lia || reflexivity || by left)|]).
  apply List.Forall_nil.
Qed.

(** ** The registry under the admin functions *)

Lemma find_one_by_name_none name c :
  Mongo.find_one_by_name name c = None <-> name ∉ map PersonalityDoc.name c.
Proof.
  unfold Mongo.find_one_by_name. induction c as [|p c IH]; simpl.
  - split; [intros _; apply not_elem_of_nil|done].
  - rewrite not_elem_of_cons.
    destruct (String.eqb_spec (PersonalityDoc.name p) name) as [Heq|Hne].
    + split; [done|]. intros [Hne _]. by destruct Hne.
    + rewrite IH. split; [intros Hout; split; [congruence|done]|by intros [_ ?]].
Qed.

Lemma find_one_by_name_app_fresh name c doc :
  Mongo.find_one_by_name name c = None -> PersonalityDoc.name doc = name ->
  Mongo.find_one_by_name name (c ++ [doc]) = Some doc.
Proof.
  unfold Mongo.find_one_by_name. intros Hnone Hname.
  induction c as [|p c IH]; simpl in *.
  - by rewrite Hname, String.eqb_refl.
  - destruct (String.eqb (PersonalityDoc.name p) name); [done|]. by apply IH.
Qed.

Lemma delete_one_by_name_app_fresh name c doc :
  Mongo.find_one_by_name name c = None -> PersonalityDoc.name doc = name ->
  PersonalityService.delete_one_by_name name (c ++ [doc]) = c.
Proof.
  unfold Mongo.find_one_by_name. intros Hnone Hname.
  induction c as [|p c IH]; simpl in *.
  - by rewrite Hname, String.eqb_refl.
  - destruct (String.eqb (PersonalityDoc.name p) name); [done|]. by rewrite IH.
Qed.

Lemma to_dict_init now name description traits style prompt :
  exists doc,
    AIPersonality.to_dict
      (AIPersonality.init now name description traits style prompt) = Some doc
    /\ PersonalityDoc.name doc = name
    /\ AIPersonality.from_dict doc
       = AIPersonality.init now name description traits style prompt.
Proof. eexists. split; [reflexivity|]. by split. Qed.

(** ** Counting and paging *)

Section counters.

Context `{Countable K}.

Context (key : DebateArgument.t -> K).

Let tally (counts : gmap K Z) (arg : DebateArgument.t) : gmap K Z :=
  <[key arg := default 0 (counts !! key arg) + 1]> counts.

Lemma tally_lookup arguments counts k :
  fold_left tally arguments counts !! k
  = match length (List.filter (fun a => bool_decide (key a = k)) arguments) with
    | O => counts !! k
    | S n => Some (default 0 (counts !! k) + Z.of_nat (S n))
    end.
Proof.
  revert counts. induction arguments as [|a arguments IH]; intros counts; [done|].
  cbn [fold_left List.filter]. rewrite IH.
  change (tally counts a)
    with (<[key a := default 0 (counts !! key a) + 1]> counts).
  destruct (decide (key a = k)) as [->|Hne].
  - rewrite bool_decide_eq_true_2 by done. rewrite lookup_insert_eq.
    cbn [length].
    destruct (length (List.filter _ arguments)); cbn [default]; unfold id; f_equal; lia.
  - rewrite bool_decide_eq_false_2 by done. by rewrite lookup_insert_ne.
Qed.

Lemma tally_sum arguments counts :
  sum_counts (fold_left tally arguments counts)
  = sum_counts counts + Z.of_nat (length arguments).
Proof.
  revert counts. induction arguments as [|a arguments IH]; intros counts.
  - simpl. lia.
  - cbn [fold_left length]. rewrite IH.
    change (tally counts a)
      with (<[key a := default 0 (counts !! key a) + 1]> counts).
    rewrite sum_counts_inc. lia.
Qed.

Lemma count_by_lookup arguments k :
  default 0 (DebateService.count_by key arguments !! k)
  = Z.of_nat (length (List.filter (fun a => bool_decide (key a = k)) arguments))
  /\ (is_Some (DebateService.count_by key arguments !! k)
      <-> List.filter (fun a => bool_decide (key a = k)) arguments <> []).
Proof.
  unfold DebateService.count_by.
  change (fun counts arg => <[key arg := default 0 (counts !! key arg) + 1]> counts)
    with tally.
  rewrite tally_lookup, lookup_empty.
  destruct (List.filter _ arguments) as [|a l]; simpl.
  - split; [done|]. split; [by intros [? ?]|done].
  - split; [lia|]. split; [done|]. intros _. eauto.
Qed.

Lemma count_by_sum arguments :
  sum_counts (DebateService.count_by key arguments) = Z.of_nat (length arguments).
Proof.
  unfold DebateService.count_by.
  change (fun counts arg => <[key arg := default 0 (counts !! key arg) + 1]> counts)
    with tally.
  rewrite tally_sum, sum_counts_empty. lia.
Qed.

End counters.

(** A page of [per_page] items, for a page number from 1 on. *)
Lemma slice_page {A} (items : list A) page per_page :
  1 <= page -> 1 <= per_page ->
  helpers.slice items ((page - 1) * per_page) ((page - 1) * per_page + per_page)
  = take (Z.to_nat per_page) (drop (Z.to_nat ((page - 1) * per_page)) items).
Proof.
  intros Hpage Hper. unfold helpers.slice.
  set (n := Z.of_nat (length items)).
  set (s := (page - 1) * per_page).
  assert (0 <= s) as Hs by (unfold s; nia).
  destruct (s <? 0) eqn:Hs0; [lia|]. destruct (s + per_page <? 0) eqn:He0; [lia|].
  destruct (Z.le_gt_cases n s) as [Hge|Hlt].
  - rewrite !Z.min_r by lia. rewrite Z.sub_diag. simpl.
    rewrite (drop_ge items (Z.to_nat s)) by (unfold n in Hge; lia).
    by rewrite take_nil.
  - rewrite (Z.min_l s n) by lia.
    destruct (Z.le_gt_cases (s + per_page) n) as [Hin|Hout].
    + rewrite Z.min_l by lia. f_equal. lia.
    + rewrite Z.min_r by lia.
      rewrite !take_ge; [done| |]; rewrite length_drop; unfold n in *; lia.
Qed.

Lemma paginate_results_page {A} (items : list A) page per_page :
  1 <= page -> 1 <= per_page ->
  helpers.items <$> helpers.paginate_results items page per_page
  = Some (take (Z.to_nat per_page)
            (drop (Z.to_nat ((page - 1) * per_page)) items)).
Proof.
  intros Hpage Hper. unfold helpers.paginate_results.
  destruct (per_page =? 0) eqn:Hz; [lia|]. simpl.
  by rewrite slice_page.
Qed.

Lemma pages_from_take {A} (items : list A) per_page first count :
  1 <= first -> 1 <= per_page ->
  pages_from items per_page first count
  = take (count * Z.to_nat per_page)
      (drop (Z.to_nat ((first - 1) * per_page)) items).
Proof.
  intros Hfirst Hper. revert first Hfirst.
  induction count as [|count IH]; intros first Hfirst.
  - by rewrite take_0.
  - cbn [pages_from].
    pose proof (paginate_results_page items first per_page Hfirst Hper) as Hp.
    destruct (helpers.paginate_results items first per_page) as [p|]; [|done].
    injection Hp as ->. rewrite IH by lia.
    replace (Z.to_nat ((first + 1 - 1) * per_page))
      with (Z.to_nat ((first - 1) * per_page) + Z.to_nat per_page)%nat by nia.
    rewrite <- drop_drop. rewrite take_take_drop. f_equal.
Qed.

(** ** Error responses *)


(** ** Sanitized input *)

Section sanitize.

Import PyStr.

Lemma escape_char_no_markup c :
  Forall (fun x => is_char 60 x || is_char 62 x || isquote x = false)
    (Html.escape_char c).
Proof.
  unfold Html.escape_char, isquote.
  destruct (is_char 38 c) eqn:H38; [by repeat constructor|].
  destruct (is_char 60 c) eqn:H60; [by repeat constructor|].
  destruct (is_char 62 c) eqn:H62; [by repeat constructor|].
  destruct (is_char 34 c) eqn:H34; [by repeat constructor|].
  destruct (is_char 39 c) eqn:H39; [by repeat constructor|].
  constructor; [|constructor]. by rewrite H60, H62, H34, H39.
Qed.

Lemma escape_no_markup l :
  Forall (fun x => is_char 60 x || is_char 62 x || isquote x = false)
    (Html.escape l).
Proof.
  unfold Html.escape. induction l as [|c l IH]; simpl; [constructor|].
  apply Forall_app. split; [apply escape_char_no_markup|exact IH].
Qed.

(** Neither pattern matches where the subject does not start with ['<']. *)
Lemma match_script_needs_angle c r :
  is_char 60 c = false -> Sanitize.match_script (c :: r) = None.
Proof.
  intros Hc. unfold Sanitize.match_script.
  cbn [to_chars list_ascii_of_string Re.match_literal].
  replace (Ascii.eqb (lower "<") (lower c)) with false; [done|].
  symmetry. revert Hc.
  destruct c as [[] [] [] [] [] [] [] []]; vm_compute; congruence.
Qed.

Lemma match_tag_needs_angle c r :
  is_char 60 c = false -> Sanitize.match_tag (c :: r) = None.
Proof.
  intros Hc. unfold Sanitize.match_tag. destruct r as [|c2 r]; [done|].
  by rewrite Hc.
Qed.

Lemma sub_matches_without_angle m l :
  (forall c r, is_char 60 c = false -> m (c :: r) = None) ->
  Forall (fun x => is_char 60 x = false) l ->
  Sanitize.sub_matches m 0 l = l.
Proof.
  intros Hm Hall. induction Hall as [|c l Hc _ IH]; simpl; [done|].
  by rewrite (Hm c l Hc), IH.
Qed.

Lemma sub_runs_all (Q : ascii -> Prop) P in_run l :
  Q space -> Forall Q l -> Forall Q (Re.sub_runs P in_run l).
Proof.
  intros Hspace Hall. revert in_run.
  induction Hall as [|c l Hc _ IH]; intros in_run; simpl; [constructor|].
  destruct (P c); [destruct in_run|]; auto.
Qed.

Lemma strip_all (Q : ascii -> Prop) l : Forall Q l -> Forall Q (strip l).
Proof.
  intros Hall. unfold strip, lstrip.
  destruct (dropwhile_suffix isspace (rstrip l)) as [k1 Hk1].
  destruct (rstrip_prefix l) as [k2 Hk2].
  rewrite Hk2, Hk1 in Hall.
  apply Forall_app in Hall as [Hall _]. by apply Forall_app in Hall as [_ Hall].
Qed.

Lemma last_suffix (l k : chars) c : last (k ++ c :: l) = last (c :: l).
Proof.
  induction k as [|x k IH]; [done|].
  change ((x :: k) ++ c :: l) with (x :: (k ++ c :: l)).
  rewrite <- IH. by destruct (k ++ c :: l) eqn:Hk; [destruct k|].
Qed.

Lemma rstrip_no_trailing_space l : ends_with_space (rstrip l) = false.
Proof.
  unfold ends_with_space, rstrip.
  pose proof (dropwhile_head isspace (rev l)) as Hh.
  destruct (dropwhile isspace (rev l)) as [|c r]; [done|].
  simpl. by rewrite last_snoc.
Qed.

Lemma strip_no_trailing_space l : ends_with_space (strip l) = false.
Proof.
  pose proof (rstrip_no_trailing_space l) as Hr. unfold strip, lstrip.
  destruct (dropwhile_suffix isspace (rstrip l)) as [k Hk].
  destruct (dropwhile isspace (rstrip l)) as [|c r] eqn:Hd; [done|].
  rewrite Hk in Hr. unfold ends_with_space in *. by rewrite last_suffix in Hr.
Qed.

End sanitize.
(** ** Repeat votes *)

(** C1 (the code departs from the claim). A voter votes twice in the
    debate of [started_db]. After the first call the voter is in the stored
    [voter_records]; the second call with the same voter id is accepted all
    the same and the counters rise again, where the claim requires a
    rejection and unchanged counters. *)
Lemma add_vote_repeat_voter_accepted :
  let db1 :=
    fst (DebateService.add_vote 3 example_id "The Scientist" "alice" started_db) in
  let second := DebateService.add_vote 4 example_id "The Scientist" "alice" db1 in
  (DebateDoc.voter_records <$> Mongo.debates db1 !! example_oid)
    = Some {[["alice"] := "The Scientist"]}
  /\ (DebateDoc.total_votes <$> Mongo.debates db1 !! example_oid) = Some 1
  /\ snd second = true
  /\ (DebateDoc.votes <$> Mongo.debates (fst second) !! example_oid)
     = Some {[["The Scientist"] := 2]}
  /\ (DebateDoc.total_votes <$> Mongo.debates (fst second) !! example_oid) = Some 2.
Proof. cbv zeta. repeat split; vm_compute; reflexivity. Qed.

(** ** Vote totals *)




(** ** Advancing past the last round *)

(** C5. When the stored debate is in progress and its current round is its
    last one, the next-round route writes status [completed] (with the
    update time) to that debate and nothing else: its arguments are the
    ones it had, and the response carries the completed debate. *)
Theorem next_round_at_max_rounds_completes e now debate_id db oid doc :
  ObjectId.of_str debate_id = Some oid ->
  Mongo.debates db !! oid = Some doc ->
  DebateDoc.status doc = in_progress ->
  DebateDoc.current_round doc = DebateDoc.max_rounds doc ->
  exists doc',
    api.next_round e now debate_id db
    = (Mongo.set_debates (<[oid := doc']> (Mongo.debates db))
         (api.services now db),
       api.success 200 (Debate.from_dict doc') None
         "Debate completed - all rounds finished")
    /\ doc' = DebateDoc.set_status completed now doc
    /\ DebateDoc.status doc' = completed
    /\ DebateDoc.arguments doc' = DebateDoc.arguments doc.
Proof.
  intros Hid Hdoc Hstatus Hround.
  exists (DebateDoc.set_status completed now doc).
  split; [|done].
  unfold api.next_round.
  assert (Mongo.debates (api.services now db) !! oid = Some doc) as Hdoc1
    by (by rewrite services_debates).
  rewrite (get_debate_lookup _ _ _ Hid), Hdoc1. simpl.
  rewrite Hstatus, Hround. simpl.
  replace (DebateDoc.max_rounds doc <? DebateDoc.max_rounds doc + 1) with true
    by (symmetry; apply Z.ltb_lt; lia).
  unfold DebateService.end_debate.
  rewrite (update_debate_hit _ _ _ _ oid doc Hid Hdoc1 eq_refl).
  - simpl. rewrite (get_debate_lookup _ _ _ Hid). simpl.
    rewrite lookup_insert_eq. simpl. by rewrite services_debates.
  - intros Heq. apply (f_equal DebateDoc.status) in Heq. simpl in Heq. congruence.
Qed.

Lemma next_round_at_max_rounds_completes_witness :
  Mongo.debates last_round_db !! example_oid = Some (stored last_round_db)
  /\ DebateDoc.status (stored last_round_db) = in_progress
  /\ DebateDoc.current_round (stored last_round_db) = 3
  /\ DebateDoc.max_rounds (stored last_round_db) = 3
  /\ exists doc',
       api.next_round offline_env 9 example_id last_round_db
       = (Mongo.set_debates
            (<[example_oid := doc']> (Mongo.debates last_round_db))
            (api.services 9 last_round_db),
          api.success 200 (Debate.from_dict doc') None
            "Debate completed - all rounds finished")
       /\ doc' = DebateDoc.set_status completed 9 (stored last_round_db)
       /\ DebateDoc.status doc' = completed
       /\ DebateDoc.arguments doc'
          = DebateDoc.arguments (stored last_round_db).
Proof.
  split; [vm_compute; reflexivity|].
  split; [vm_compute; reflexivity|].
  split; [vm_compute; reflexivity|].
  split; [vm_compute; reflexivity|].
  apply (next_round_at_max_rounds_completes offline_env 9 example_id
           last_round_db example_oid (stored last_round_db));
    vm_compute; reflexivity.
Defined.

(** ** Starting once *)

(** C4. Starting succeeds only from the status [created], checked by the
    conditional update itself.
    - When the stored status is not [created], the service call changes
      nothing and returns no debate, and the route answers 400 "Debate has
      already been started or completed" without touching any debate.
    - When the service call returns a debate, the status was [created] and
      is [in_progress] afterwards.
    - When two clients run the call at the same time on one debate, the
      store serving their accesses one at a time in any order, at most one
      of them gets the debate back. A client running alone is exactly
      [DebateService.start_debate]. *)
Theorem start_only_from_created now debate_id db :
  (status_at debate_id db <> Some created ->
   DebateService.start_debate now debate_id db = (db, None))
  /\ (forall e s, status_at debate_id db = Some s -> s <> created ->
      api.start_debate e now debate_id db
      = (api.services now db,
         api.error 400 "Debate has already been started or completed")
      /\ Mongo.debates (api.services now db) = Mongo.debates db)
  /\ (forall db' debate,
      DebateService.start_debate now debate_id db = (db', Some debate) ->
      status_at debate_id db = Some created
      /\ status_at debate_id db' = Some in_progress
      /\ Debate.status debate = in_progress)
  /\ (forall now' schedule,
      let c := Concurrent.run now now' debate_id schedule db in
      Concurrent.succeeded (Concurrent.first c)
      && Concurrent.succeeded (Concurrent.second c) = false)
  /\ (let '(p1, db1) := Concurrent.client_step now debate_id Concurrent.at_update db in
      let '(p2, db2) := Concurrent.client_step now debate_id p1 db1 in
      (db2, p2)
      = (fst (DebateService.start_debate now debate_id db),
         Concurrent.returned (snd (DebateService.start_debate now debate_id db)))).
Proof.
  split; [apply start_debate_not_created|].
  split.
  { intros e s Hst Hs. split; [by apply start_route_not_created with (s := s)|].
    apply services_debates. }
  split; [apply start_debate_some|].
  split; [|apply client_alone_is_start_debate].
  intros now' schedule c.
  destruct (run_exclusive now now' debate_id schedule db) as [Hone _].
  fold c in Hone.
  destruct (Concurrent.succeeded (Concurrent.first c)) eqn:H1; [|done].
  destruct (Concurrent.succeeded (Concurrent.second c)) eqn:H2; [|done].
  apply succeeded_holds in H1, H2. by rewrite H1, H2 in Hone.
Qed.

(** The theorem at the started debate: a second start is refused by the
    service and by the route; and two clients racing on the created debate,
    the second one updating between the first one's update and read. *)
Lemma start_only_from_created_witness :
  status_at example_id started_db = Some in_progress
  /\ DebateService.start_debate 5 example_id started_db = (started_db, None)
  /\ api.start_debate offline_env 5 example_id started_db
     = (api.services 5 started_db,
        api.error 400 "Debate has already been started or completed")
  /\ Concurrent.succeeded
       (Concurrent.first
          (Concurrent.run 5 6 example_id [true; false; true; false] created_db))
     = true
  /\ Concurrent.succeeded
       (Concurrent.first
          (Concurrent.run 5 6 example_id [true; false; true; false] created_db))
     && Concurrent.succeeded
          (Concurrent.second
             (Concurrent.run 5 6 example_id [true; false; true; false]
                created_db))
     = false.
Proof.
  assert (status_at example_id started_db = Some in_progress) as Hst
    by (vm_compute; reflexivity).
  destruct (start_only_from_created 5 example_id started_db)
    as (Hservice & Hroute & _).
  split; [exact Hst|].
  split; [apply Hservice; rewrite Hst; discriminate|].
  split; [apply (Hroute offline_env in_progress Hst); discriminate|].
  split; [vm_compute; reflexivity|].
  destruct (start_only_from_created 5 example_id created_db)
    as (_ & _ & _ & Hrace & _).
  exact (Hrace 6 [true; false; true; false]).
Defined.
(** ** Win rate *)


(** ** Running average *)




(** ** Judging once *)

(** C2. On a debate stored as judged, a judge request that names a winner is
    answered 400 "Debate already jugded." and reaches the store only through
    the constructor of the service: no debate changes, and with a registry
    that is not empty nothing changes at all. The route gives that answer
    for no other reason. Whatever requests are served afterwards, the
    debate keeps its status, winner, judge_decision and judge_id; among the
    requests of any sequence at most one is a successful judgement of a
    given debate, and a request that is not a successful judgement leaves
    the statistics of the registry as they were. *)
Theorem judge_rejected_once_judged now debate_id winner reasoning judge_id db :
  status_at debate_id db = Some judged ->
  winner <> EmptyString ->
  api.judge_debate now debate_id (Some winner) reasoning judge_id db
    = (DebateService.init now db, api.error 400 "Debate already jugded.")
  /\ Mongo.debates (DebateService.init now db) = Mongo.debates db
  /\ (Mongo.personalities db <> [] -> DebateService.init now db = db)
  /\ (forall now' debate_id' winner' reasoning' judge_id' db',
        snd (api.judge_debate now' debate_id' winner' reasoning' judge_id' db')
        = api.error 400 "Debate already jugded." ->
        status_at debate_id' db' = Some judged)
  /\ (forall requests,
        verdict_at debate_id (fst (api.serve requests db))
        = verdict_at debate_id db)
  /\ (forall oid requests db',
        (judgements oid requests (snd (api.serve requests db')) <= 1)%nat)
  /\ (forall now' r db',
        judgement r (snd (api.handle now' r db')) = false ->
        Mongo.personalities (fst (api.handle now' r db'))
        = Mongo.personalities db'
        \/ Mongo.personalities (fst (api.handle now' r db'))
           = Mongo.personalities (PersonalityService.init now' db')).
Proof.
  intros Hst Hw.
  split; [by apply judge_route_judged|].
  split; [apply debate_service_debates|].
  split; [apply personality_service_seeded|].
  split; [apply judge_route_signal|].
  split.
  { intros requests.
    by destruct (keeps_verdicts_at debate_id db (fst (api.serve requests db))
                   (serve_keeps_verdicts requests db) Hst). }
  split; [intros; apply judgements_at_most_one|].
  apply handle_statistics.
Qed.

(** The theorem at the judged example debate, judged a second time with
    another winner. *)
Lemma judge_rejected_once_judged_witness :
  status_at example_id judged_db = Some judged
  /\ "The Advocate" <> EmptyString
  /\ api.judge_debate 7 example_id (Some "The Advocate") "Second thoughts."
       (Some "judge-2") judged_db
     = (judged_db, api.error 400 "Debate already jugded.")
  /\ verdict_at example_id judged_db
     = Some (judged, Some "The Scientist", Some "Sound evidence.", Some "judge-1").
Proof.
  assert (status_at example_id judged_db = Some judged) as Hst
    by (vm_compute; reflexivity).
  assert ("The Advocate" <> EmptyString) as Hw by discriminate.
  destruct (judge_rejected_once_judged 7 example_id "The Advocate"
              "Second thoughts." (Some "judge-2") judged_db Hst Hw)
    as (Hrun & _ & Hsame & _).
  split; [exact Hst|]. split; [exact Hw|].
  split.
  - rewrite Hrun. rewrite Hsame; [reflexivity|]. vm_compute. discriminate.
  - vm_compute. reflexivity.
Defined.

(** * Further properties of the code *)

(** ** Argument generation *)

(** X1. Whatever the generator does, the text [_generate_argument] returns
    ends with ['.'], ['!'] or ['?'] and has at least 20 characters; and it
    is either the fallback text, or has at most [MAX_ARGUMENT_LENGTH]
    characters and collapsed whitespace. *)
Theorem generate_argument_contract e i personality topic context round_number
    current_round_args :
  let content :=
    AIService._generate_argument e i personality topic context round_number
      current_round_args in
  ends_with_terminal content = true
  /\ 20 <= PyStr.len content
  /\ (content
      = AIService._generate_fallback_argument e i personality topic round_number
      \/ (PyStr.len content <= Config.MAX_ARGUMENT_LENGTH
          /\ whitespace_collapsed content = true)).
Proof.
  intros content.
  destruct (generate_argument_closed_and_long e i personality topic context
              round_number current_round_args) as [Hend Hlen].
  split; [exact Hend|]. split; [exact Hlen|].
  unfold content, AIService._generate_argument.
  destruct (AIService.generator e) as [generate|]; [|by left].
  destruct (generate i _) as [generated_text|]; [|by left].
  set (cleaned := AIService._clean_and_validate_argument _).
  destruct (PyStr.len cleaned <? 20); [by left|]. right.
  destruct (Config.MAX_ARGUMENT_LENGTH <? PyStr.len cleaned) eqn:Hlong.
  - apply Z.ltb_lt in Hlong.
    destruct (truncated_contract cleaned (clean_whitespace_collapsed _) Hlong)
      as (_ & Hmax & Hcol).
    split; [by rewrite Hmax|exact Hcol].
  - apply Z.ltb_ge in Hlong. split; [exact Hlong|].
    apply clean_whitespace_collapsed.
Qed.

(** X2. The text [_clean_and_validate_argument] returns has collapsed
    whitespace (single plain spaces only), does not start with whitespace,
    and is empty or ends with ['.'], ['!'] or ['?']. *)
Theorem clean_and_validate_normal_form argument :
  let cleaned := AIService._clean_and_validate_argument argument in
  whitespace_collapsed cleaned = true
  /\ starts_with_space (PyStr.to_chars cleaned) = false
  /\ (cleaned = EmptyString \/ ends_with_terminal cleaned = true).
Proof.
  intros cleaned. split; [apply clean_whitespace_collapsed|].
  split; [|apply clean_ends_with_terminal].
  unfold cleaned, AIService._clean_and_validate_argument.
  rewrite to_chars_of_chars. apply clean_chars_no_leading_space.
Qed.

(** X3. The sentence step of the cleaning: when the text after the last
    ['. '] has no ['. '] in it and does not end (trailing whitespace aside)
    with a terminal mark, that text is dropped together with the separator,
    and what is left gets a closing dot unless it is empty or has one. *)
Theorem unfinished_last_sentence_dropped (a b : PyStr.chars) :
  PyStr.split_dot_space b = [b] ->
  PyStr.endswith_terminal (PyStr.rstrip b) = false ->
  AIService.drop_unfinished_sentence (a ++ PyStr.dot :: PyStr.space :: b)
  = if AIService.nonempty a && negb (PyStr.endswith_dot a)
    then a ++ [PyStr.dot] else a.
Proof.
  intros Hb Hend. unfold AIService.drop_unfinished_sentence.
  rewrite split_app, Hb.
  replace (1 <? length (PyStr.split_dot_space a ++ [b]))%nat with true.
  - rewrite List.last_last, Hend, removelast_last, join_split. done.
  - symmetry. apply Nat.ltb_lt. rewrite length_app. simpl.
    pose proof (split_dot_space_nonempty a).
    destruct (PyStr.split_dot_space a); [done|]. simpl. lia.
Qed.

Lemma unfinished_last_sentence_dropped_witness :
  PyStr.split_dot_space (PyStr.to_chars "But then") = [PyStr.to_chars "But then"]
  /\ PyStr.endswith_terminal (PyStr.rstrip (PyStr.to_chars "But then")) = false
  /\ PyStr.of_chars
       (AIService.drop_unfinished_sentence
          (PyStr.to_chars "Cars are safe" ++ PyStr.dot :: PyStr.space
             :: PyStr.to_chars "But then"))
     = "Cars are safe.".
Proof.
  split; [reflexivity|]. split; [reflexivity|].
  rewrite (unfinished_last_sentence_dropped (PyStr.to_chars "Cars are safe")
             (PyStr.to_chars "But then")); reflexivity.
Defined.

(** X4. The quote step of the cleaning: a text that starts and ends with a
    quote mark loses these two marks and nothing else. *)
Theorem surrounding_quotes_removed (q1 q2 : ascii) (body : PyStr.chars) :
  PyStr.isquote q1 = true -> PyStr.isquote q2 = true ->
  Re.sub_surrounding_quotes (q1 :: body ++ [q2]) = body.
Proof. intros H1 H2. simpl. rewrite H1. by apply sub_closing_quote_snoc. Qed.

Lemma surrounding_quotes_removed_witness :
  PyStr.isquote (ascii_of_nat 34) = true
  /\ PyStr.isquote (ascii_of_nat 39) = true
  /\ PyStr.of_chars
       (Re.sub_surrounding_quotes
          (ascii_of_nat 34 :: PyStr.to_chars "a 'b' c" ++ [ascii_of_nat 39]))
     = "a 'b' c".
Proof.
  split; [reflexivity|]. split; [reflexivity|].
  rewrite (surrounding_quotes_removed (ascii_of_nat 34) (ascii_of_nat 39)
             (PyStr.to_chars "a 'b' c")); reflexivity.
Defined.

(** X5. [generate_debate_round] returns exactly one argument for each
    personality registered when it runs, in the shuffled order: the
    personality ids are a rearrangement of the registered names, and every
    argument carries the requested round, no votes, and a text that ends
    with a terminal mark and has at least 20 characters. *)
Theorem generate_debate_round_one_each e now db debate round_number :
  let arguments := AIService.generate_debate_round e now db debate round_number in
  map DebateArgument.personality_id arguments
    = AIService.shuffle (AIService.shuffle_draws e)
        (map PersonalityDoc.name (Mongo.personalities db))
  /\ map DebateArgument.personality_id arguments
     ≡ₚ map PersonalityDoc.name (Mongo.personalities db)
  /\ length arguments = length (Mongo.personalities db)
  /\ Forall (fun a => DebateArgument.round_number a = round_number
                      /\ DebateArgument.timestamp a = now
                      /\ DebateArgument.votes a = 0
                      /\ closed_and_long (DebateArgument.content a)) arguments.
Proof. apply generate_debate_round_added. Qed.

(** ** The debates under the API *)


(** X7. A stored debate is never lost by serving API requests, and only
    moves forward: same id, topic, creator, creation time, participants
    and max_rounds; a status that is the same or later in
    created, in_progress, completed, judged; the old arguments as a prefix
    of the new ones; current_round and total_votes not smaller. *)
Theorem served_debates_move_forward requests db oid doc :
  Mongo.debates db !! oid = Some doc ->
  exists doc',
    Mongo.debates (fst (api.serve requests db)) !! oid = Some doc'
    /\ Lifecycle.evolves doc doc'.
Proof.
  revert db doc. induction requests as [|[now r] requests IH]; intros db doc Hdoc;
    simpl.
  - exists doc. split; [done|apply evolves_refl].
  - destruct (acts_as_evolves _ now db _ (handle_acts_as now r db) oid doc Hdoc)
      as (doc1 & Hdoc1 & Hev1).
    destruct (api.handle now r db) as [db1 resp]. simpl in Hdoc1.
    destruct (IH db1 doc1 Hdoc1) as (doc2 & Hdoc2 & Hev2).
    destruct (api.serve requests db1) as [db2 resps]. simpl in *.
    exists doc2. split; [done|]. by eapply evolves_trans.
Qed.

Lemma served_debates_move_forward_witness :
  Mongo.debates started_db !! example_oid = Some (stored started_db)
  /\ exists doc',
       Mongo.debates
         (fst (api.serve [(3, api.NextRound offline_env example_id)] started_db))
         !! example_oid = Some doc'
       /\ Lifecycle.evolves (stored started_db) doc'.
Proof.
  assert (Mongo.debates started_db !! example_oid = Some (stored started_db))
    as Hdoc by (vm_compute; reflexivity).
  split; [exact Hdoc|].
  exact (served_debates_move_forward
           [(3, api.NextRound offline_env example_id)] started_db example_oid
           (stored started_db) Hdoc).
Defined.

(** X8. Starting from a store without debates, after any API requests every
    debate has the current registry as its participants, the registry is
    not empty, and every argument of the debate is by one of its
    participants. *)
Theorem served_debates_keep_roster requests db0 oid doc :
  Mongo.debates db0 = ∅ ->
  Mongo.debates (fst (api.serve requests db0)) !! oid = Some doc ->
  DebateDoc.participants doc = registry_names (fst (api.serve requests db0))
  /\ DebateDoc.participants doc <> []
  /\ Forall (fun a => DebateArgument.personality_id a ∈ DebateDoc.participants doc)
       (DebateDoc.arguments doc).
Proof.
  intros Hempty Hdoc.
  destruct (serve_well_run requests db0 (no_debates_well_run db0 Hempty))
    as [Hm _].
  destruct (Hm oid doc Hdoc) as (Hne & Hp & Hargs).
  rewrite Hp. by repeat split.
Qed.

Lemma served_debates_keep_roster_witness :
  Mongo.debates empty_db = ∅
  /\ Mongo.debates (fst (api.serve scenario empty_db)) !! example_oid
     = Some (stored scenario_db)
  /\ DebateDoc.participants (stored scenario_db)
     = registry_names (fst (api.serve scenario empty_db))
  /\ DebateDoc.participants (stored scenario_db) <> []
  /\ Forall (fun a => DebateArgument.personality_id a
                      ∈ DebateDoc.participants (stored scenario_db))
       (DebateDoc.arguments (stored scenario_db)).
Proof.
  assert (Mongo.debates empty_db = ∅) as Hempty by reflexivity.
  assert (Mongo.debates (fst (api.serve scenario empty_db)) !! example_oid
          = Some (stored scenario_db)) as Hdoc by (vm_compute; reflexivity).
  split; [exact Hempty|]. split; [exact Hdoc|].
  exact (served_debates_keep_roster scenario empty_db example_oid
           (stored scenario_db) Hempty Hdoc).
Defined.



(** ** The debate service, method by method *)

(** X10. When [get_debate] finds no debate under the id (the id is not an
    ObjectId, or no document has it), every other method of the service on
    that id fails and leaves the whole database as it was. *)
Theorem missing_debate_is_left_alone now debate_id db argument arguments
    round_number winner reasoning judge_id personality_id voter_id :
  DebateService.get_debate debate_id db = None ->
  DebateService.start_debate now debate_id db = (db, None)
  /\ DebateService.add_argument now debate_id argument db = (db, false)
  /\ DebateService.add_multiple_arguments now debate_id arguments db = (db, false)
  /\ DebateService.update_round now debate_id round_number db = (db, false)
  /\ DebateService.end_debate now debate_id db = (db, false)
  /\ DebateService.judge_debate now debate_id winner reasoning judge_id db
     = (db, false)
  /\ DebateService.add_vote now debate_id personality_id voter_id db = (db, false)
  /\ DebateService.delete_debate debate_id db = (db, false).
Proof.
  intros Hnone.
  unfold DebateService.start_debate, DebateService.add_argument,
    DebateService.add_multiple_arguments, DebateService.update_round,
    DebateService.end_debate, DebateService.judge_debate, DebateService.add_vote.
  rewrite !(missing_debate_miss debate_id db _ _ Hnone), Hnone.
  repeat split.
  unfold DebateService.delete_debate. unfold DebateService.get_debate in Hnone.
  destruct (ObjectId.of_str debate_id) as [oid|]; simpl in Hnone; [|done].
  by destruct (Mongo.debates db !! oid).
Qed.

Lemma missing_debate_is_left_alone_witness :
  DebateService.get_debate "not-an-object-id" started_db = None
  /\ DebateService.start_debate 3 "not-an-object-id" started_db = (started_db, None)
  /\ DebateService.add_argument 3 "not-an-object-id"
       (DebateArgument.init 7%N 3 "The Scientist" "Measure it first." 1) started_db
     = (started_db, false)
  /\ DebateService.add_multiple_arguments 3 "not-an-object-id" [] started_db
     = (started_db, false)
  /\ DebateService.update_round 3 "not-an-object-id" 2 started_db
     = (started_db, false)
  /\ DebateService.end_debate 3 "not-an-object-id" started_db = (started_db, false)
  /\ DebateService.judge_debate 3 "not-an-object-id" "The Scientist" "Clear."
       None started_db
     = (started_db, false)
  /\ DebateService.add_vote 3 "not-an-object-id" "The Scientist" "alice" started_db
     = (started_db, false)
  /\ DebateService.delete_debate "not-an-object-id" started_db = (started_db, false).
Proof.
  assert (DebateService.get_debate "not-an-object-id" started_db = None) as Hnone
    by (vm_compute; reflexivity).
  split; [exact Hnone|].
  exact (missing_debate_is_left_alone 3 "not-an-object-id" started_db
           (DebateArgument.init 7%N 3 "The Scientist" "Measure it first." 1) []
           2 "The Scientist" "Clear." None "The Scientist" "alice" Hnone).
Defined.

(** X11. On a stored debate, [add_multiple_arguments] with a non-empty list
    succeeds and leaves the database exactly as adding the same arguments
    one after the other with [add_argument] does: the arguments appended in
    order after the stored ones. *)
Theorem add_multiple_arguments_as_one_by_one now debate_id arguments db oid doc :
  ObjectId.of_str debate_id = Some oid ->
  Mongo.debates db !! oid = Some doc ->
  arguments <> [] ->
  DebateService.add_multiple_arguments now debate_id arguments db
  = (api.add_arguments now debate_id arguments db, true)
  /\ (DebateDoc.arguments <$>
        Mongo.debates (api.add_arguments now debate_id arguments db) !! oid)
     = Some (DebateDoc.arguments doc ++ arguments).
Proof.
  intros Hid Hdoc Hne.
  rewrite (add_arguments_existing now debate_id arguments db oid doc Hid Hdoc).
  rewrite appended_push_arguments.
  destruct arguments as [|a arguments]; [done|].
  split; [|simpl; by rewrite lookup_insert_eq].
  unfold DebateService.add_multiple_arguments.
  rewrite (update_debate_hit debate_id DebateService.any_doc _ db oid doc Hid Hdoc
             eq_refl).
  - unfold DebateArgument._dict. by rewrite map_id.
  - intros Heq. apply (f_equal (fun d => length (DebateDoc.arguments d))) in Heq.
    simpl in Heq. rewrite length_app in Heq. simpl in Heq. lia.
Qed.

Lemma add_multiple_arguments_as_one_by_one_witness :
  ObjectId.of_str example_id = Some example_oid
  /\ Mongo.debates created_db !! example_oid = Some (stored created_db)
  /\ [DebateArgument.init 7%N 3 "The Scientist" "Measure it first." 1;
      DebateArgument.init 8%N 3 "The Historian" "It has happened before." 1] <> []
  /\ DebateService.add_multiple_arguments 3 example_id
       [DebateArgument.init 7%N 3 "The Scientist" "Measure it first." 1;
        DebateArgument.init 8%N 3 "The Historian" "It has happened before." 1]
       created_db
     = (api.add_arguments 3 example_id
          [DebateArgument.init 7%N 3 "The Scientist" "Measure it first." 1;
           DebateArgument.init 8%N 3 "The Historian" "It has happened before." 1]
          created_db, true)
  /\ (DebateDoc.arguments <$>
        Mongo.debates
          (api.add_arguments 3 example_id
             [DebateArgument.init 7%N 3 "The Scientist" "Measure it first." 1;
              DebateArgument.init 8%N 3 "The Historian" "It has happened before." 1]
             created_db) !! example_oid)
     = Some (DebateDoc.arguments (stored created_db)
             ++ [DebateArgument.init 7%N 3 "The Scientist" "Measure it first." 1;
                 DebateArgument.init 8%N 3 "The Historian" "It has happened before." 1]).
Proof.
  assert (ObjectId.of_str example_id = Some example_oid) as Hid
    by (vm_compute; reflexivity).
  assert (Mongo.debates created_db !! example_oid = Some (stored created_db))
    as Hdoc by (vm_compute; reflexivity).
  assert ([DebateArgument.init 7%N 3 "The Scientist" "Measure it first." 1;
           DebateArgument.init 8%N 3 "The Historian" "It has happened before." 1]
          <> []) as Hne by discriminate.
  split; [exact Hid|]. split; [exact Hdoc|]. split; [exact Hne|].
  exact (add_multiple_arguments_as_one_by_one 3 example_id _ created_db
           example_oid (stored created_db) Hid Hdoc Hne).
Defined.

(** X12. [add_vote] on a stored debate turns no voter away, whatever the
    voter, the personality voted for and the status of the debate: it
    sends the update, and fails, changing nothing, only when the server
    refuses one of the paths [votes.<personality_id>] and
    [voter_records.<voter_id>]. Otherwise it returns [True], the two dicts
    are as the update leaves them, [total_votes] goes up by one, and
    arguments, round and verdict are not touched. With ids that are plain
    field names, on a debate whose votes and voter records hold plain keys
    only, the update is accepted: the personality's counter goes up by one
    (from 0 if it had none), the voter's record is set to this
    personality, and the other counters and records stay. *)
Theorem add_vote_records_unless_refused now debate_id personality_id voter_id
    db oid doc :
  ObjectId.of_str debate_id = Some oid ->
  Mongo.debates db !! oid = Some doc ->
  match DebateDoc.vote_fields personality_id voter_id doc with
  | Some (votes', voter_records') =>
      exists doc',
        DebateService.add_vote now debate_id personality_id voter_id db
        = (Mongo.set_debates (<[oid := doc']> (Mongo.debates db)) db, true)
        /\ DebateDoc.votes doc' = votes'
        /\ DebateDoc.voter_records doc' = voter_records'
        /\ DebateDoc.total_votes doc' = DebateDoc.total_votes doc + 1
        /\ DebateDoc.arguments doc' = DebateDoc.arguments doc
        /\ DebateDoc.current_round doc' = DebateDoc.current_round doc
        /\ verdict doc' = verdict doc
  | None =>
      DebateService.add_vote now debate_id personality_id voter_id db
      = (db, false)
  end
  /\ (FieldPath.plain personality_id = true ->
      FieldPath.plain voter_id = true ->
      FieldPath.flat (DebateDoc.votes doc) ->
      FieldPath.flat (DebateDoc.voter_records doc) ->
      DebateDoc.vote_fields personality_id voter_id doc
      = Some (<[[personality_id] :=
                  default 0 (DebateDoc.votes doc !! [personality_id]) + 1]>
                (DebateDoc.votes doc),
              <[[voter_id] := personality_id]> (DebateDoc.voter_records doc))).
Proof.
  intros Hid Hdoc. split; [|apply vote_fields_plain].
  rewrite (add_vote_existing _ _ _ _ _ _ _ Hid Hdoc).
  unfold DebateDoc.vote_update.
  destruct (DebateDoc.vote_fields personality_id voter_id doc)
    as [[votes' voter_records']|]; simpl; [|done].
  eexists. split; [reflexivity|]. by repeat split.
Qed.

Lemma add_vote_records_unless_refused_witness :
  ObjectId.of_str example_id = Some example_oid
  /\ Mongo.debates judged_db !! example_oid = Some (stored judged_db)
  /\ DebateDoc.vote_fields "Nobody" "alice" (stored judged_db)
     = Some ({[["Nobody"] := 1]}, {[["alice"] := "Nobody"]})
  /\ match DebateDoc.vote_fields "Nobody" "alice" (stored judged_db) with
     | Some (votes', voter_records') =>
         exists doc',
           DebateService.add_vote 9 example_id "Nobody" "alice" judged_db
           = (Mongo.set_debates
                (<[example_oid := doc']> (Mongo.debates judged_db)) judged_db,
              true)
           /\ DebateDoc.votes doc' = votes'
           /\ DebateDoc.voter_records doc' = voter_records'
           /\ DebateDoc.total_votes doc'
              = DebateDoc.total_votes (stored judged_db) + 1
           /\ DebateDoc.arguments doc' = DebateDoc.arguments (stored judged_db)
           /\ DebateDoc.current_round doc'
              = DebateDoc.current_round (stored judged_db)
           /\ verdict doc' = verdict (stored judged_db)
     | None =>
         DebateService.add_vote 9 example_id "Nobody" "alice" judged_db
         = (judged_db, false)
     end.
Proof.
  assert (ObjectId.of_str example_id = Some example_oid) as Hid
    by (vm_compute; reflexivity).
  assert (Mongo.debates judged_db !! example_oid = Some (stored judged_db))
    as Hdoc by (vm_compute; reflexivity).
  split; [exact Hid|]. split; [exact Hdoc|].
  split; [vm_compute; reflexivity|].
  pose proof (add_vote_records_unless_refused 9 example_id "Nobody" "alice"
                judged_db example_oid (stored judged_db) Hid Hdoc)
    as [Hvote _].
  exact Hvote.
Defined.

(** X13. [create_debate] stores the debate under the fresh id unless that id
    is taken: [get_debate] then returns the debate that was returned, which
    is [created], at round 1 of 3, without arguments or votes, with the
    registered personalities as participants; every other debate and the
    registry are untouched. With the id taken it fails and changes
    nothing. *)
Theorem create_debate_then_get fresh now topic creator_id db debate_id :
  ObjectId.of_str debate_id = Some fresh ->
  match Mongo.debates db !! fresh with
  | Some _ =>
      DebateService.create_debate fresh now topic creator_id db = (db, None)
  | None =>
      exists db' debate,
        DebateService.create_debate fresh now topic creator_id db
        = (db', Some debate)
        /\ DebateService.get_debate debate_id db' = Some debate
        /\ Debate.status debate = created
        /\ Debate.current_round debate = 1
        /\ Debate.max_rounds debate = Config.MAX_DEBATE_ROUNDS
        /\ Debate.arguments debate = []
        /\ Debate.votes debate = ∅ /\ Debate.total_votes debate = 0
        /\ Debate.participants debate = registry_names db
        /\ Mongo.personalities db' = Mongo.personalities db
        /\ forall other, other <> fresh ->
             Mongo.debates db' !! other = Mongo.debates db !! other
  end.
Proof.
  intros Hid. unfold DebateService.create_debate.
  destruct (Mongo.debates db !! fresh) eqn:Hfresh; [done|].
  eexists _, _. split; [reflexivity|].
  split.
  { rewrite (get_debate_lookup _ _ _ Hid). simpl. by rewrite lookup_insert_eq. }
  repeat split.
  - simpl. unfold PersonalityService.get_debate_personalities, registry_names.
    rewrite map_map. done.
  - intros other Hne. simpl. by rewrite lookup_insert_ne.
Qed.

Lemma create_debate_then_get_witness :
  ObjectId.of_str example_id = Some example_oid
  /\ match Mongo.debates created_db !! example_oid with
     | Some _ =>
         DebateService.create_debate example_oid 5 example_topic None created_db
         = (created_db, None)
     | None =>
         exists db' debate,
           DebateService.create_debate example_oid 5 example_topic None created_db
           = (db', Some debate)
           /\ DebateService.get_debate example_id db' = Some debate
           /\ Debate.status debate = created
           /\ Debate.current_round debate = 1
           /\ Debate.max_rounds debate = Config.MAX_DEBATE_ROUNDS
           /\ Debate.arguments debate = []
           /\ Debate.votes debate = ∅ /\ Debate.total_votes debate = 0
           /\ Debate.participants debate = registry_names created_db
           /\ Mongo.personalities db' = Mongo.personalities created_db
           /\ forall other, other <> example_oid ->
                Mongo.debates db' !! other = Mongo.debates created_db !! other
     end.
Proof.
  assert (ObjectId.of_str example_id = Some example_oid) as Hid
    by (vm_compute; reflexivity).
  split; [exact Hid|].
  exact (create_debate_then_get example_oid 5 example_topic None created_db
           example_id Hid).
Defined.

(** X14. Deleting a debate right after creating it gives back the database
    as it was before the creation, and [delete_debate] reports success. *)
Theorem delete_debate_undoes_create fresh now topic creator_id db debate_id :
  ObjectId.of_str debate_id = Some fresh ->
  Mongo.debates db !! fresh = None ->
  DebateService.delete_debate debate_id
    (fst (DebateService.create_debate fresh now topic creator_id db))
  = (db, true).
Proof.
  intros Hid Hfresh.
  unfold DebateService.create_debate, DebateService.delete_debate.
  rewrite Hid, Hfresh. simpl. rewrite lookup_insert_eq.
  unfold Mongo.set_debates. simpl.
  rewrite delete_insert_id by done. by destruct db.
Qed.

Lemma delete_debate_undoes_create_witness :
  ObjectId.of_str example_id = Some example_oid
  /\ Mongo.debates (PersonalityService.init 1 empty_db) !! example_oid = None
  /\ DebateService.delete_debate example_id
       (fst (DebateService.create_debate example_oid 1 example_topic None
               (PersonalityService.init 1 empty_db)))
     = (PersonalityService.init 1 empty_db, true).
Proof.
  assert (ObjectId.of_str example_id = Some example_oid) as Hid
    by (vm_compute; reflexivity).
  assert (Mongo.debates (PersonalityService.init 1 empty_db) !! example_oid = None)
    as Hfresh by (vm_compute; reflexivity).
  split; [exact Hid|]. split; [exact Hfresh|].
  exact (delete_debate_undoes_create example_oid 1 example_topic None
           (PersonalityService.init 1 empty_db) example_id Hid Hfresh).
Defined.

(** X15. The service method [judge_debate] itself checks neither the status
    nor the winner: on any stored debate whose [updated_at] differs from
    the clock it succeeds and writes the verdict, also over an earlier
    verdict. (The rejection of a judged debate is the route's.) *)
Theorem judge_debate_service_overwrites now debate_id winner reasoning judge_id
    db oid doc :
  ObjectId.of_str debate_id = Some oid ->
  Mongo.debates db !! oid = Some doc ->
  DebateDoc.updated_at doc <> now ->
  snd (DebateService.judge_debate now debate_id winner reasoning judge_id db) = true
  /\ verdict_at debate_id
       (fst (DebateService.judge_debate now debate_id winner reasoning judge_id db))
     = Some (judged, Some winner, Some reasoning, judge_id).
Proof.
  intros Hid Hdoc Hnow. unfold DebateService.judge_debate.
  rewrite (update_debate_hit debate_id DebateService.any_doc _ db oid doc Hid Hdoc
             eq_refl).
  2:{ intros Heq. apply (f_equal DebateDoc.updated_at) in Heq. simpl in Heq.
      congruence. }
  change (0 <? 1) with true. cbv iota.
  unfold verdict_at. rewrite Hid. simpl.
  destruct (DebateService.get_debate _ _); simpl;
    rewrite ?update_losers_debates, update_personality_stats_debates; simpl;
    by rewrite lookup_insert_eq.
Qed.

Lemma judge_debate_service_overwrites_witness :
  ObjectId.of_str example_id = Some example_oid
  /\ Mongo.debates judged_db !! example_oid = Some (stored judged_db)
  /\ DebateDoc.updated_at (stored judged_db) <> 9
  /\ verdict (stored judged_db)
     = (judged, Some "The Scientist", Some "Sound evidence.", Some "judge-1")
  /\ snd (DebateService.judge_debate 9 example_id "The Historian" "On reflection."
            None judged_db) = true
  /\ verdict_at example_id
       (fst (DebateService.judge_debate 9 example_id "The Historian"
               "On reflection." None judged_db))
     = Some (judged, Some "The Historian", Some "On reflection.", None).
Proof.
  assert (ObjectId.of_str example_id = Some example_oid) as Hid
    by (vm_compute; reflexivity).
  assert (Mongo.debates judged_db !! example_oid = Some (stored judged_db))
    as Hdoc by (vm_compute; reflexivity).
  assert (DebateDoc.updated_at (stored judged_db) <> 9) as Hnow
    by (vm_compute; discriminate).
  split; [exact Hid|]. split; [exact Hdoc|]. split; [exact Hnow|].
  split; [vm_compute; reflexivity|].
  exact (judge_debate_service_overwrites 9 example_id "The Historian"
           "On reflection." None judged_db example_oid (stored judged_db)
           Hid Hdoc Hnow).
Defined.

(** X16. The statistics written by judging a debate that is not yet judged
    and lists no participant twice: the winner's record gets one update as
    a win (also when the winner is not among the participants), every
    other participant's record one update as a loss, and the record of
    anybody else is not touched. Each update counts one debate and one
    argument and feeds no votes to the average. *)
Theorem judge_debate_statistics now debate_id winner reasoning judge_id db oid doc
    name :
  ObjectId.of_str debate_id = Some oid ->
  Mongo.debates db !! oid = Some doc ->
  DebateDoc.status doc <> judged ->
  NoDup (DebateDoc.participants doc) ->
  Mongo.find_one_by_name name
    (Mongo.personalities
       (fst (DebateService.judge_debate now debate_id winner reasoning judge_id db)))
  = if bool_decide (name = winner) then
      PersonalityService.stats_update now true 0
        <$> Mongo.find_one_by_name name (Mongo.personalities db)
    else if bool_decide (name ∈ DebateDoc.participants doc) then
      PersonalityService.stats_update now false 0
        <$> Mongo.find_one_by_name name (Mongo.personalities db)
    else Mongo.find_one_by_name name (Mongo.personalities db).
Proof.
  intros Hid Hdoc Hst Hnodup. unfold DebateService.judge_debate.
  rewrite (update_debate_hit debate_id DebateService.any_doc _ db oid doc Hid Hdoc
             eq_refl (set_judged_changes _ _ _ _ _ Hst)).
  change (0 <? 1) with true. cbv iota.
  rewrite (get_debate_lookup _ _ _ Hid), update_personality_stats_debates.
  simpl. rewrite lookup_insert_eq. simpl.
  rewrite update_losers_find by done.
  rewrite update_personality_stats_find. simpl.
  destruct (decide (name = winner)) as [->|Hne].
  - rewrite bool_decide_eq_false_2 by (by intros [_ ?]).
    by rewrite bool_decide_eq_true_2.
  - rewrite (bool_decide_eq_false_2 (name = winner)) by done.
    destruct (decide (name ∈ DebateDoc.participants doc)) as [Hin|Hout].
    + by rewrite !bool_decide_eq_true_2.
    + rewrite !bool_decide_eq_false_2; [done|done|]. by intros [? _].
Qed.

Lemma judge_debate_statistics_witness :
  ObjectId.of_str example_id = Some example_oid
  /\ Mongo.debates started_db !! example_oid = Some (stored started_db)
  /\ DebateDoc.status (stored started_db) <> judged
  /\ NoDup (DebateDoc.participants (stored started_db))
  /\ Mongo.find_one_by_name "The Historian"
       (Mongo.personalities
          (fst (DebateService.judge_debate 9 example_id "The Scientist" "Clear."
                  None started_db)))
     = if bool_decide ("The Historian" = "The Scientist") then
         PersonalityService.stats_update 9 true 0
           <$> Mongo.find_one_by_name "The Historian" (Mongo.personalities started_db)
       else if bool_decide ("The Historian"
                            ∈ DebateDoc.participants (stored started_db)) then
         PersonalityService.stats_update 9 false 0
           <$> Mongo.find_one_by_name "The Historian" (Mongo.personalities started_db)
       else Mongo.find_one_by_name "The Historian" (Mongo.personalities started_db).
Proof.
  assert (ObjectId.of_str example_id = Some example_oid) as Hid
    by (vm_compute; reflexivity).
  assert (Mongo.debates started_db !! example_oid = Some (stored started_db))
    as Hdoc by (vm_compute; reflexivity).
  assert (DebateDoc.status (stored started_db) <> judged) as Hst
    by (vm_compute; discriminate).
  assert (NoDup (DebateDoc.participants (stored started_db))) as Hnodup
    by (refine (bool_decide_unpack _ _); vm_compute; exact I).
  split; [exact Hid|]. split; [exact Hdoc|]. split; [exact Hst|].
  split; [exact Hnodup|].
  exact (judge_debate_statistics 9 example_id "The Scientist" "Clear." None
           started_db example_oid (stored started_db) "The Historian"
           Hid Hdoc Hst Hnodup).
Defined.

(** ** The model classes and the registry *)

(** X17. Writing a debate with [_dict] and reading it back with [from_dict]
    gives the same instance exactly when the instance carries no
    [voter_records] attribute; reading a document and writing it again
    gives the same document exactly when its [voter_records] are empty. The
    instance [from_dict] builds never has the attribute, whatever the
    document records. *)
Theorem debate_round_trip_loses_voter_records (d : Debate.t) (doc : DebateDoc.t) :
  (Debate.from_dict (Debate._dict d) = d <-> Debate.voter_records_attr d = None)
  /\ (Debate._dict (Debate.from_dict doc) = doc
      <-> DebateDoc.voter_records doc = ∅)
  /\ Debate.voter_records_attr (Debate.from_dict doc) = None
  /\ Debate._dict (Debate.from_dict (Debate._dict d)) = Debate._dict d.
Proof.
  split; [|split; [|done]].
  - split.
    + intros <-. reflexivity.
    + destruct d; simpl. intros ->. reflexivity.
  - split.
    + intros <-. reflexivity.
    + destruct doc; simpl. intros ->. reflexivity.
Qed.

(** X18. [AIPersonality.to_dict] never fails (the division of the win rate
    is guarded), [from_dict] gives the instance back, and the document it
    wrote is reproduced by a second trip. The win rate in a document is the
    one computed when it was written. *)
Theorem personality_round_trip (p : AIPersonality.t) :
  exists doc,
    AIPersonality.to_dict p = Some doc
    /\ AIPersonality.from_dict doc = p
    /\ AIPersonality.to_dict (AIPersonality.from_dict doc) = Some doc
    /\ Some (PersonalityDoc.win_rate doc) = AIPersonality.get_win_rate p.
Proof.
  destruct p as [name description traits style prompt wins total_debates
                   total_arguments average_votes created_at updated_at].
  unfold AIPersonality.to_dict, AIPersonality.get_win_rate, PyFloat.truediv.
  simpl.
  destruct (total_debates =? 0) eqn:Hzero; simpl;
    (eexists; split; [reflexivity|]; simpl; rewrite Hzero; simpl; done).
Qed.

(** X19. The statistics update of the service and the one of the model
    class agree: they raise on the same inputs, the method letting the
    exception escape and the service writing nothing then; otherwise they
    agree on every field except the average, where the service stores the
    model's value rounded to two decimals; the stored win rate is not
    recomputed by the service. *)
Theorem stats_update_as_update_stats now won votes_received (doc : PersonalityDoc.t) :
  let stored := PersonalityService.stats_update now won votes_received doc in
  match AIPersonality.update_stats now won votes_received
          (AIPersonality.from_dict doc) with
  | Some p =>
      AIPersonality.name (AIPersonality.from_dict stored) = AIPersonality.name p
      /\ AIPersonality.wins (AIPersonality.from_dict stored) = AIPersonality.wins p
      /\ AIPersonality.total_debates (AIPersonality.from_dict stored)
         = AIPersonality.total_debates p
      /\ AIPersonality.total_arguments (AIPersonality.from_dict stored)
         = AIPersonality.total_arguments p
      /\ AIPersonality.created_at (AIPersonality.from_dict stored)
         = AIPersonality.created_at p
      /\ AIPersonality.updated_at (AIPersonality.from_dict stored)
         = AIPersonality.updated_at p
      /\ AIPersonality.average_votes (AIPersonality.from_dict stored)
         = PyNum.round2 (AIPersonality.average_votes p)
      /\ PersonalityDoc.win_rate stored = PersonalityDoc.win_rate doc
  | None => stored = doc
  end.
Proof.
  cbv zeta.
  unfold PersonalityService.stats_update, AIPersonality.update_stats.
  rewrite new_average_votes_formula. unfold running_average.
  cbn [AIPersonality.from_dict AIPersonality.total_arguments
       AIPersonality.average_votes].
  rewrite Z.add_simpl_r.
  assert (PersonalityDoc.wins doc + (if won then 1 else 0)
          = if won then PersonalityDoc.wins doc + 1 else PersonalityDoc.wins doc)
    as Hwins by (destruct won; lia).
  destruct (1 <? PersonalityDoc.total_arguments doc + 1);
    [|simpl; by rewrite Hwins].
  destruct (PyNum.mul _ _) as [product|]; simpl; [|done].
  destruct (PyNum.add _ _) as [total|]; simpl; [|done].
  destruct (PyNum.truediv _ _) as [average|]; simpl; [|done].
  by rewrite Hwins.
Qed.

(** X20. The constructor of [PersonalityService] seeds the registry only
    when it is empty, with the default personalities in their order, each
    without any statistics; a registry with an entry is left as it is, so
    constructing the service again changes nothing; the debates are never
    touched; the default names are pairwise distinct. *)
Theorem seeding_only_on_empty_registry now db :
  Mongo.debates (PersonalityService.init now db) = Mongo.debates db
  /\ (Mongo.personalities db <> [] -> PersonalityService.init now db = db)
  /\ (Mongo.personalities db = [] ->
      PersonalityService.get_all_personalities (PersonalityService.init now db)
      = map (fun p_data =>
               AIPersonality.init now (seed_name p_data) (seed_description p_data)
                 (seed_personality_traits p_data) (seed_debate_style p_data)
                 (seed_system_prompt p_data))
            DEFAULT_PERSONALITIES)
  /\ (forall now',
        PersonalityService.init now' (PersonalityService.init now db)
        = PersonalityService.init now db)
  /\ NoDup (map seed_name DEFAULT_PERSONALITIES).
Proof.
  split; [apply personality_service_debates|].
  split; [apply personality_service_seeded|].
  split; [|split].
  - destruct db as [debates ps]. simpl. intros ->. reflexivity.
  - intros now'. apply personality_service_idempotent.
  - refine (bool_decide_unpack _ _). vm_compute. exact I.
Qed.

(** X21. [create_personality] refuses a name that is registered and changes
    nothing; a new name is appended to the registry without statistics,
    can then be found by name, keeps the names distinct and leaves the
    debates alone. *)
Theorem create_personality_keeps_names_unique now name description traits style
    prompt db :
  (name ∈ registry_names db ->
   PersonalityService.create_personality now name description traits style
     prompt db = (db, None))
  /\ (name ∉ registry_names db ->
      exists db',
        PersonalityService.create_personality now name description traits style
          prompt db
        = (db', Some (AIPersonality.init now name description traits style prompt))
        /\ registry_names db' = registry_names db ++ [name]
        /\ PersonalityService.get_personality_by_name name db'
           = Some (AIPersonality.init now name description traits style prompt)
        /\ Mongo.debates db' = Mongo.debates db
        /\ (NoDup (registry_names db) -> NoDup (registry_names db'))).
Proof.
  unfold PersonalityService.create_personality, registry_names. split.
  - intros Hin.
    destruct (Mongo.find_one_by_name name (Mongo.personalities db)) eqn:Hfind;
      [done|].
    by apply find_one_by_name_none in Hfind.
  - intros Hout. apply find_one_by_name_none in Hout as Hfind. rewrite Hfind.
    destruct (to_dict_init now name description traits style prompt)
      as (doc & -> & Hname & Hback).
    eexists. split; [reflexivity|]. simpl.
    rewrite map_app. simpl. rewrite Hname. split; [done|].
    split.
    + unfold PersonalityService.get_personality_by_name. simpl.
      rewrite (find_one_by_name_app_fresh name _ doc Hfind Hname). simpl.
      by rewrite Hback.
    + split; [done|]. intros Hnodup. apply NoDup_app. split; [done|].
      split; [|apply NoDup_singleton].
      intros x Hx Hx'. apply list_elem_of_singleton in Hx' as ->. done.
Qed.

(** X22. Deleting a personality right after creating it under a new name
    gives back the database as it was, and [delete_personality] reports
    success. *)
Theorem delete_personality_undoes_create now name description traits style
    prompt db :
  name ∉ registry_names db ->
  PersonalityService.delete_personality name
    (fst (PersonalityService.create_personality now name description traits
            style prompt db))
  = (db, true).
Proof.
  intros Hout. apply find_one_by_name_none in Hout as Hfind.
  unfold PersonalityService.create_personality. rewrite Hfind.
  destruct (to_dict_init now name description traits style prompt)
    as (doc & -> & Hname & _).
  unfold PersonalityService.delete_personality. simpl.
  rewrite (find_one_by_name_app_fresh name _ doc Hfind Hname).
  rewrite (delete_one_by_name_app_fresh name _ doc Hfind Hname).
  by destruct db.
Qed.

Lemma delete_personality_undoes_create_witness :
  ("The Skeptic" ∉ registry_names (PersonalityService.init 1 empty_db))
  /\ PersonalityService.delete_personality "The Skeptic"
       (fst (PersonalityService.create_personality 2 "The Skeptic"
               "Doubts every claim until it is shown." ["doubtful"; "careful"]
               "Requests for proof" "You are The Skeptic."
               (PersonalityService.init 1 empty_db)))
     = (PersonalityService.init 1 empty_db, true).
Proof.
  assert ("The Skeptic" ∉ registry_names (PersonalityService.init 1 empty_db))
    as Hout by (refine (bool_decide_unpack _ _); vm_compute; exact I).
  split; [exact Hout|].
  exact (delete_personality_undoes_create 2 "The Skeptic"
           "Doubts every claim until it is shown." ["doubtful"; "careful"]
           "Requests for proof" "You are The Skeptic."
           (PersonalityService.init 1 empty_db) Hout).
Defined.

(** X23. Through the API no votes are ever fed to the statistics: if every
    personality starts with one argument per debate, wins within its
    debates, a stored [average_votes] that is the float 0.0 or the int 0
    and a stored [win_rate] of 0.0 (as in a fresh or empty registry), this
    still holds after any sequence of API requests: a first update stores
    the int 0 it is passed, every later one the float 0.0. *)
Theorem served_statistics_never_count_votes requests db :
  Forall stats_in_step (Mongo.personalities db) ->
  Forall stats_in_step (Mongo.personalities (fst (api.serve requests db))).
Proof.
  revert db. induction requests as [|[now r] requests IH]; intros db Hall; [done|].
  cbn [api.serve].
  pose proof (handle_all stats_in_step stats_update_in_step now r db
                (seeded_in_step now db Hall) Hall) as H1.
  destruct (api.handle now r db) as [db1 resp]. simpl in H1.
  specialize (IH db1 H1).
  by destruct (api.serve requests db1).
Qed.

Lemma served_statistics_never_count_votes_witness :
  Forall stats_in_step (Mongo.personalities empty_db)
  /\ (PersonalityDoc.wins
        <$> Mongo.find_one_by_name "The Historian"
              (Mongo.personalities (fst (api.serve scenario empty_db))))
     = Some 1
  /\ Forall stats_in_step (Mongo.personalities (fst (api.serve scenario empty_db))).
Proof.
  assert (Forall stats_in_step (Mongo.personalities empty_db)) as Hall
    by apply List.Forall_nil.
  split; [exact Hall|]. split; [vm_compute; reflexivity|].
  exact (served_statistics_never_count_votes scenario empty_db Hall).
Defined.



(** ** Analytics and paging *)

(** X25. The analytics of a stored debate count consistently: the counter
    of a round is the number of arguments [get_arguments_by_round] returns
    for it and the counter of a personality the number
    [get_arguments_by_personality] returns; a round or personality has a
    counter exactly when it has an argument; and the counters of either
    dict add up to [total_arguments], the number of arguments of the
    debate. *)
Theorem analytics_counts_agree debate_id db debate :
  DebateService.get_debate debate_id db = Some debate ->
  exists a,
    DebateService.get_debate_analytics debate_id db = Some a
    /\ DebateService.total_arguments a = Z.of_nat (length (Debate.arguments debate))
    /\ sum_counts (DebateService.arguments_by_round a)
       = DebateService.total_arguments a
    /\ sum_counts (DebateService.arguments_by_personality a)
       = DebateService.total_arguments a
    /\ (forall r,
          default 0 (DebateService.arguments_by_round a !! r)
          = Z.of_nat (length (Debate.get_arguments_by_round debate r))
          /\ (is_Some (DebateService.arguments_by_round a !! r)
              <-> Debate.get_arguments_by_round debate r <> []))
    /\ (forall name,
          default 0 (DebateService.arguments_by_personality a !! name)
          = Z.of_nat (length (Debate.get_arguments_by_personality debate name))
          /\ (is_Some (DebateService.arguments_by_personality a !! name)
              <-> Debate.get_arguments_by_personality debate name <> [])).
Proof.
  intros Hget. unfold DebateService.get_debate_analytics. rewrite Hget. simpl.
  eexists. split; [reflexivity|]. simpl.
  split; [done|]. split; [apply count_by_sum|]. split; [apply count_by_sum|].
  split.
  - intros r.
    assert (Debate.get_arguments_by_round debate r
            = List.filter
                (fun a => bool_decide (DebateArgument.round_number a = r))
                (Debate.arguments debate)) as ->.
    { unfold Debate.get_arguments_by_round. apply List.filter_ext. intros a.
      destruct (Z.eqb_spec (DebateArgument.round_number a) r).
      - by rewrite bool_decide_eq_true_2.
      - by rewrite bool_decide_eq_false_2. }
    apply count_by_lookup.
  - intros name.
    assert (Debate.get_arguments_by_personality debate name
            = List.filter
                (fun a => bool_decide (DebateArgument.personality_id a = name))
                (Debate.arguments debate)) as ->.
    { unfold Debate.get_arguments_by_personality. apply List.filter_ext. intros a.
      destruct (String.eqb_spec (DebateArgument.personality_id a) name).
      - by rewrite bool_decide_eq_true_2.
      - by rewrite bool_decide_eq_false_2. }
    apply count_by_lookup.
Qed.

Lemma analytics_counts_agree_witness :
  DebateService.get_debate example_id scenario_db
  = Some (Debate.from_dict (stored scenario_db))
  /\ (DebateService.arguments_by_round
        <$> DebateService.get_debate_analytics example_id scenario_db)
     = Some {[1 := 6; 2 := 6; 3 := 6]}
  /\ exists a,
       DebateService.get_debate_analytics example_id scenario_db = Some a
       /\ DebateService.total_arguments a
          = Z.of_nat (length (Debate.arguments (Debate.from_dict (stored scenario_db))))
       /\ sum_counts (DebateService.arguments_by_round a)
          = DebateService.total_arguments a
       /\ sum_counts (DebateService.arguments_by_personality a)
          = DebateService.total_arguments a
       /\ (forall r,
             default 0 (DebateService.arguments_by_round a !! r)
             = Z.of_nat (length (Debate.get_arguments_by_round
                                   (Debate.from_dict (stored scenario_db)) r))
             /\ (is_Some (DebateService.arguments_by_round a !! r)
                 <-> Debate.get_arguments_by_round
                       (Debate.from_dict (stored scenario_db)) r <> []))
       /\ (forall name,
             default 0 (DebateService.arguments_by_personality a !! name)
             = Z.of_nat (length (Debate.get_arguments_by_personality
                                   (Debate.from_dict (stored scenario_db)) name))
             /\ (is_Some (DebateService.arguments_by_personality a !! name)
                 <-> Debate.get_arguments_by_personality
                       (Debate.from_dict (stored scenario_db)) name <> [])).
Proof.
  assert (DebateService.get_debate example_id scenario_db
          = Some (Debate.from_dict (stored scenario_db))) as Hget
    by (vm_compute; reflexivity).
  split; [exact Hget|]. split; [vm_compute; reflexivity|].
  exact (analytics_counts_agree example_id scenario_db
           (Debate.from_dict (stored scenario_db)) Hget).
Defined.

(** X26. With at least one item per page, [paginate_results] cuts the list
    into consecutive pages: page [p >= 1] holds the [per_page] items after
    the first [(p - 1) * per_page] (fewer at the end of the list), the
    pages 1 to [pages] put one after the other give the list back, a page
    up to [pages] is not empty and a later one is, and [has_next] is true
    exactly below the last page. Page 0 is always empty. *)
Theorem paginate_results_partitions {A} (items : list A) per_page :
  1 <= per_page ->
  let pages := (Z.of_nat (length items) + per_page - 1) / per_page in
  pages_from items per_page 1 (Z.to_nat pages) = items
  /\ (helpers.items <$> helpers.paginate_results items 0 per_page) = Some []
  /\ forall page, 1 <= page ->
       exists p,
         helpers.paginate_results items page per_page = Some p
         /\ helpers.pages p = pages
         /\ helpers.items p
            = take (Z.to_nat per_page)
                (drop (Z.to_nat ((page - 1) * per_page)) items)
         /\ (helpers.has_next p = true <-> page < pages)
         /\ (helpers.items p <> [] <-> page <= pages).
Proof.
  intros Hper pages.
  assert (0 <= pages) as Hpages0 by (apply Z.div_pos; lia).
  assert (Z.of_nat (length items) <= pages * per_page
          /\ (pages - 1) * per_page < Z.of_nat (length items)) as [Hup Hlow].
  { pose proof (Z.div_mod (Z.of_nat (length items) + per_page - 1) per_page
                  ltac:(lia)) as Hdm.
    pose proof (Z.mod_pos_bound (Z.of_nat (length items) + per_page - 1) per_page
                  ltac:(lia)) as Hmod.
    fold pages in Hdm. nia. }
  split; [|split].
  - rewrite pages_from_take by lia. simpl. rewrite drop_0.
    apply take_ge. nia.
  - unfold helpers.paginate_results. destruct (per_page =? 0) eqn:Hz; [lia|].
    simpl. unfold helpers.slice.
    destruct ((0 - 1) * per_page <? 0) eqn:Hs; [|lia].
    replace ((0 - 1) * per_page + per_page) with 0 by lia. simpl.
    rewrite Z.min_l by lia.
    replace (Z.to_nat (0 - _)) with 0%nat by lia. by rewrite take_0.
  - intros page Hpage.
    pose proof (paginate_results_page items page per_page Hpage Hper) as Hp.
    unfold helpers.paginate_results in *.
    destruct (per_page =? 0) eqn:Hz; [lia|]. simpl in Hp. injection Hp as Hp.
    eexists. split; [reflexivity|]. simpl.
    split; [done|]. split; [exact Hp|]. split.
    + rewrite Z.ltb_lt. nia.
    + rewrite Hp. rewrite <- length_zero_iff_nil.
      rewrite length_take, length_drop. nia.
Qed.

Lemma paginate_results_partitions_witness :
  1 <= 2
  /\ let pages := (Z.of_nat (length [10; 20; 30; 40; 50]) + 2 - 1) / 2 in
     pages_from [10; 20; 30; 40; 50] 2 1 (Z.to_nat pages) = [10; 20; 30; 40; 50]
     /\ (helpers.items <$> helpers.paginate_results [10; 20; 30; 40; 50] 0 2)
        = Some []
     /\ forall page, 1 <= page ->
          exists p,
            helpers.paginate_results [10; 20; 30; 40; 50] page 2 = Some p
            /\ helpers.pages p = pages
            /\ helpers.items p
               = take (Z.to_nat 2)
                   (drop (Z.to_nat ((page - 1) * 2)) [10; 20; 30; 40; 50])
            /\ (helpers.has_next p = true <-> page < pages)
            /\ (helpers.items p <> [] <-> page <= pages).
Proof.
  assert (1 <= 2) as Hper by lia.
  split; [exact Hper|].
  exact (paginate_results_partitions [10; 20; 30; 40; 50] 2 Hper).
Defined.

(** A worker too slow for the deadline: the start is answered 500 after
    the status was written and the round stored. *)
Lemma late_start_answers_500 :
  snd (api.start_debate slow_env 2 example_id created_db)
  = api.error 500 "Failed to start debate"
  /\ status_at example_id created_db = Some created
  /\ status_at example_id
       (fst (api.start_debate slow_env 2 example_id created_db))
     = Some in_progress.
Proof. repeat split; vm_compute; reflexivity. Qed.

(** A vote whose voter id is the empty string: the server refuses the path
    [voter_records.] and the route answers 500. *)
Lemma empty_voter_id_answers_500 :
  api.vote_on_debate 3 example_id (Some "The Scientist") (Some EmptyString)
    started_db
  = (started_db, api.error 500 "Failed to record vote").
Proof. vm_compute. reflexivity. Qed.



(** X28. What [sanitize_input] returns: no angle bracket, no quote mark and
    none of the control characters it removes; no whitespace at either
    end. After [html.escape] the two substitutions that remove tags find
    nothing to remove, so the result is the escaped text with whitespace
    runs turned into single spaces, control characters deleted (which can
    bring two spaces together) and the ends stripped. *)
Theorem sanitize_input_output text :
  Forall (fun c => unsafe_char c = false)
    (PyStr.to_chars (Sanitize.sanitize_input text))
  /\ starts_with_space (PyStr.to_chars (Sanitize.sanitize_input text)) = false
  /\ ends_with_space (PyStr.to_chars (Sanitize.sanitize_input text)) = false
  /\ Sanitize.sanitize_input text
     = match PyStr.to_chars text with
       | [] => EmptyString
       | l => PyStr.of_chars
                (PyStr.strip
                   (Sanitize.sub_controls (Re.sub_whitespace (Html.escape l))))
       end.
Proof.
  assert (Sanitize.sanitize_input text
          = match PyStr.to_chars text with
            | [] => EmptyString
            | l => PyStr.of_chars
                     (PyStr.strip
                        (Sanitize.sub_controls
                           (Re.sub_whitespace (Html.escape l))))
            end) as Hdead.
  { unfold Sanitize.sanitize_input.
    destruct (PyStr.to_chars text) as [|c l]; [done|].
    assert (Forall (fun x => PyStr.is_char 60 x = false) (Html.escape (c :: l)))
      as Hangle.
    { eapply Forall_impl; [apply escape_no_markup|].
      intros x Hx. simpl in Hx. by destruct (PyStr.is_char 60 x). }
    cbv zeta.
    rewrite (sub_matches_without_angle Sanitize.match_script _
               match_script_needs_angle Hangle).
    by rewrite (sub_matches_without_angle Sanitize.match_tag _
                  match_tag_needs_angle Hangle). }
  rewrite Hdead. destruct (PyStr.to_chars text) as [|c l]; [by repeat split|].
  rewrite to_chars_of_chars.
  split; [|split; [apply strip_no_leading_space|
                   split; [apply strip_no_trailing_space|done]]].
  apply strip_all. unfold Sanitize.sub_controls.
  apply Forall_forall. intros x Hx.
  apply list_elem_of_In, filter_In in Hx as [Hx Hcontrol].
  apply negb_true_iff in Hcontrol. unfold unsafe_char. rewrite Hcontrol.
  rewrite orb_false_r.
  assert (Forall (fun x => PyStr.is_char 60 x || PyStr.is_char 62 x
                           || PyStr.isquote x = false)
            (Re.sub_whitespace (Html.escape (c :: l)))) as Hall.
  { apply sub_runs_all; [done|apply escape_no_markup]. }
  rewrite Forall_forall in Hall. apply Hall. by apply list_elem_of_In.
Qed.
